(** * Kubernetes resource wrappers of the Juju provider

    A shallow embedding of [internal/provider/kubernetes/resources]:
    the [Deployment], [DaemonSet] and [ClusterRole] wrappers, their
    lifecycle methods ([Apply], [Get], [Delete], [Update], [Ensure],
    [Clone], [ID], [ComputeStatus]) and the paginated listers.

    Go pointers are addresses into explicit stores, so that a method with
    a pointer receiver updates the object it was called on and two
    pointers to one object observe each other's writes.  The Kubernetes
    API server is an oracle that answers each request from the requests
    seen so far; every request is recorded. *)

From Stdlib Require Import ZArith List.
From Stdlib.Strings Require Import String Byte.
From stdpp Require Import base option list strings gmap.

Set Warnings "-register-all".

(** ** Basic data *)

(** [time.Time], as a number of nanoseconds. *)
Definition Time := Z.

(** An address: the index of a cell in one of the stores below. *)
Abbreviation ptr := nat.

(** The contents of a Go [map[string]string]. *)
Abbreviation LabelMap := (gmap string string).

(** ** Errors

    A Go [error] value is an [option error]; [None] is [nil]. *)

(** k8s.io/apimachinery/pkg/apis/meta/v1: [type StatusReason string], with
    the reasons the library declares. *)
Definition StatusReason := string.

Definition StatusReasonUnknown : StatusReason := "".
Definition StatusReasonUnauthorized : StatusReason := "Unauthorized".
Definition StatusReasonForbidden : StatusReason := "Forbidden".
Definition StatusReasonNotFound : StatusReason := "NotFound".
Definition StatusReasonAlreadyExists : StatusReason := "AlreadyExists".
Definition StatusReasonConflict : StatusReason := "Conflict".
Definition StatusReasonGone : StatusReason := "Gone".
Definition StatusReasonInvalid : StatusReason := "Invalid".
Definition StatusReasonServerTimeout : StatusReason := "ServerTimeout".
Definition StatusReasonStoreReadError : StatusReason := "StorageReadError".
Definition StatusReasonTimeout : StatusReason := "Timeout".
Definition StatusReasonTooManyRequests : StatusReason := "TooManyRequests".
Definition StatusReasonBadRequest : StatusReason := "BadRequest".
Definition StatusReasonMethodNotAllowed : StatusReason := "MethodNotAllowed".
Definition StatusReasonNotAcceptable : StatusReason := "NotAcceptable".
Definition StatusReasonRequestEntityTooLarge : StatusReason :=
  "RequestEntityTooLarge".
Definition StatusReasonUnsupportedMediaType : StatusReason :=
  "UnsupportedMediaType".
Definition StatusReasonInternalError : StatusReason := "InternalError".
Definition StatusReasonExpired : StatusReason := "Expired".
Definition StatusReasonServiceUnavailable : StatusReason :=
  "ServiceUnavailable".

Inductive error :=
| StatusError (reason : StatusReason) (code : Z) (message : string)
    (* an error status returned by the API server: the reason, the HTTP
       status code and the message of its [metav1.Status] *)
| errorString (text : string)
    (* any other root error: transport, encoding, a claim's own error *)
| ConflictSentinel
    (* the package's conflict error, see [errConflict] *)
| Traced (previous : error)
| Annotated (previous : error) (format : string) (args : list string)
| notFound (previous : option error) (message : string)
| alreadyExists (format : string) (args : list string).

(** Modelled from the spec: the package-level [errConflict] value is declared
    in a file outside the ones studied here; the spec calls it
    [ConflictError].  It is a root error distinct from every other one. *)
Definition errConflict : option error := Some ConflictSentinel.

(** github.com/juju/errors *)
Module errors.

(** [Trace] wraps an error with the caller's location; [nil] stays [nil]. *)
Definition Trace (other : option error) : option error :=
  match other with
  | None => None
  | Some e => Some (Traced e)
  end.

(** [Annotatef] keeps the format and its arguments apart, so that the
    message needs no model of [%q]. *)
Definition Annotatef (other : option error) (format : string)
  (args : list string) : option error :=
  match other with
  | None => None
  | Some e => Some (Annotated e format args)
  end.

Definition NewNotFound (err : option error) (msg : string) : option error :=
  Some (notFound err msg).

Definition AlreadyExistsf (format : string) (args : list string)
  : option error :=
  Some (alreadyExists format args).

(** The error at the bottom of a chain of [Trace] and [Annotatef]. *)
Fixpoint Cause (e : error) : error :=
  match e with
  | Traced p => Cause p
  | Annotated p _ _ => Cause p
  | _ => e
  end.

Definition IsNotFound (err : option error) : bool :=
  match err with
  | Some e => match Cause e with notFound _ _ => true | _ => false end
  | None => false
  end.

End errors.

(** k8s.io/apimachinery/pkg/api/errors *)
Module k8serrors.

(** The reasons the library knows; [StatusReasonUnknown] is not one. *)
Definition knownReasons : list StatusReason :=
  [ StatusReasonUnauthorized; StatusReasonForbidden; StatusReasonNotFound;
    StatusReasonAlreadyExists; StatusReasonConflict; StatusReasonGone;
    StatusReasonInvalid; StatusReasonServerTimeout;
    StatusReasonStoreReadError; StatusReasonTimeout;
    StatusReasonTooManyRequests; StatusReasonBadRequest;
    StatusReasonMethodNotAllowed; StatusReasonNotAcceptable;
    StatusReasonRequestEntityTooLarge; StatusReasonUnsupportedMediaType;
    StatusReasonInternalError; StatusReasonExpired;
    StatusReasonServiceUnavailable ].

Definition known (reason : StatusReason) : bool :=
  existsb (String.eqb reason) knownReasons.

(** [err.(APIStatus)] or [errors.As(err, &status)]: the first API status
    on the way down from [e], through every error that wraps another one.
    The wrappers here are those of juju/errors, whose [Unwrap] gives the
    previous error. *)
Fixpoint asAPIStatus (e : error) : option (StatusReason * Z) :=
  match e with
  | StatusError reason code _ => Some (reason, code)
  | Traced p => asAPIStatus p
  | Annotated p _ _ => asAPIStatus p
  | notFound (Some p) _ => asAPIStatus p
  | _ => None
  end.

Definition reasonAndCodeForError (err : option error) : StatusReason * Z :=
  match err with
  | Some e =>
      match asAPIStatus e with
      | Some status => status
      | None => (StatusReasonUnknown, 0%Z)
      end
  | None => (StatusReasonUnknown, 0%Z)
  end.

(** An error is a not-found error when its status has the reason NotFound,
    or a reason the library does not know together with the code 404. *)
Definition IsNotFound (err : option error) : bool :=
  let (reason, code) := reasonAndCodeForError err in
  if String.eqb reason StatusReasonNotFound then true
  else if negb (known reason) && Z.eqb code 404 then true
  else false.

(** Likewise with the reason Conflict and the code 409. *)
Definition IsConflict (err : option error) : bool :=
  let (reason, code) := reasonAndCodeForError err in
  if String.eqb reason StatusReasonConflict then true
  else if negb (known reason) && Z.eqb code 409 then true
  else false.

End k8serrors.

(** ** Object metadata and bodies *)

(** k8s.io/apimachinery/pkg/apis/meta/v1 *)
Module metav1.

(** [ObjectMeta], with the fields the package reads or writes, and the
    resource version, which only the server sets.  [Labels] is a Go map: a
    reference ([None] is the nil map) to a map object that every copy of
    the struct shares.  [DeletionTimestamp] is a pointer to a time that
    nothing writes through; it is kept as the time it points to, [None]
    for nil. *)
Record ObjectMeta := {
  Name : string;
  Namespace : string;
  ResourceVersion : string;
  DeletionTimestamp : option Time;
  Labels : option ptr
}.

Definition SetName (name : string) (meta : ObjectMeta) : ObjectMeta :=
  {| Name := name;
     Namespace := Namespace meta;
     ResourceVersion := ResourceVersion meta;
     DeletionTimestamp := DeletionTimestamp meta;
     Labels := Labels meta |}.

Definition SetNamespace (namespace : string) (meta : ObjectMeta)
  : ObjectMeta :=
  {| Name := Name meta;
     Namespace := namespace;
     ResourceVersion := ResourceVersion meta;
     DeletionTimestamp := DeletionTimestamp meta;
     Labels := Labels meta |}.

(** The zero value [ObjectMeta{}]. *)
Definition zero : ObjectMeta :=
  {| Name := ""; Namespace := ""; ResourceVersion := "";
     DeletionTimestamp := None; Labels := None |}.

Record ListOptions := {
  LabelSelector : string;
  Continue : string
}.

(** [opts.Continue = token] *)
Definition SetContinue (token : string) (opts : ListOptions) : ListOptions :=
  {| LabelSelector := LabelSelector opts; Continue := token |}.

Inductive DeletionPropagation :=
| DeletePropagationOrphan
| DeletePropagationBackground
| DeletePropagationForeground.

End metav1.

(** k8s.io/apimachinery/pkg/types *)
Inductive PatchType :=
| JSONPatchType
| MergePatchType
| StrategicMergePatchType
| ApplyPatchType.

(** Modelled from the spec: [JujuFieldManager] is declared outside the files
    studied here; the spec describes it as the fixed caller identity that
    tags every mutating call. *)
Definition JujuFieldManager : string := "juju".

(** Modelled from the spec: [k8sconstants.DefaultPropagationPolicy] lives in
    another package; the spec says children are deleted together with the
    parent, not orphaned. *)
Definition DefaultPropagationPolicy : metav1.DeletionPropagation :=
  metav1.DeletePropagationForeground.

(** k8s.io/api/apps/v1.  Replica counts are [int32]; they are only compared
    for equality, so plain integers stand for them.  The [Spec] of an object
    is never inspected by the package and is carried as an opaque value. *)
Module appsv1.

Record DeploymentStatus := {
  Replicas : Z;
  ReadyReplicas : Z
}.

Record DaemonSetStatus := {
  DesiredNumberScheduled : Z;
  NumberReady : Z
}.

Module Deployment.
Record t := {
  ObjectMeta : metav1.ObjectMeta;
  Spec : string;
  Status : DeploymentStatus
}.
Definition zero : t :=
  {| ObjectMeta := metav1.zero; Spec := "";
     Status := {| Replicas := 0; ReadyReplicas := 0 |} |}.
Definition SetName (name : string) (o : t) : t :=
  {| ObjectMeta := metav1.SetName name (ObjectMeta o);
     Spec := Spec o; Status := Status o |}.
Definition SetNamespace (namespace : string) (o : t) : t :=
  {| ObjectMeta := metav1.SetNamespace namespace (ObjectMeta o);
     Spec := Spec o; Status := Status o |}.
End Deployment.

Module DaemonSet.
Record t := {
  ObjectMeta : metav1.ObjectMeta;
  Spec : string;
  Status : DaemonSetStatus
}.
Definition zero : t :=
  {| ObjectMeta := metav1.zero; Spec := "";
     Status := {| DesiredNumberScheduled := 0; NumberReady := 0 |} |}.
Definition SetName (name : string) (o : t) : t :=
  {| ObjectMeta := metav1.SetName name (ObjectMeta o);
     Spec := Spec o; Status := Status o |}.
Definition SetNamespace (namespace : string) (o : t) : t :=
  {| ObjectMeta := metav1.SetNamespace namespace (ObjectMeta o);
     Spec := Spec o; Status := Status o |}.
End DaemonSet.

End appsv1.

(** k8s.io/api/rbac/v1 *)
Module rbacv1.

Record PolicyRule := {
  Verbs : list string;
  APIGroups : list string;
  Resources : list string
}.

Module ClusterRole.
Record t := {
  ObjectMeta : metav1.ObjectMeta;
  Rules : list PolicyRule
}.
Definition zero : t := {| ObjectMeta := metav1.zero; Rules := [] |}.
Definition SetName (name : string) (o : t) : t :=
  {| ObjectMeta := metav1.SetName name (ObjectMeta o);
     Rules := Rules o |}.
End ClusterRole.

End rbacv1.

(** github.com/juju/juju/core/status *)
Module status.

(** Modelled from the spec: [status.Status] is declared in another package
    of the repository; the spec gives it as an enumeration with Active,
    Waiting, Terminated and others.  The others listed here are status
    values the package never returns. *)
Inductive Status :=
| Active
| Blocked
| Error
| Maintenance
| Running
| Terminated
| Unknown
| Waiting.

End status.

(** Modelled from the spec: the package's [ID] struct is declared in a file
    outside the ones studied here; the spec gives it as
    [(Kind, Name, Namespace)]. *)
Record ID := {
  Kind : string;
  IDName : string;
  IDNamespace : string
}.

(** ** The orchestrator API

    A typed client ([v1.DeploymentInterface], [v1.DaemonSetInterface],
    [rbacv1client.ClusterRoleInterface]) for objects of type [B].  The
    server is outside the program: each method is an oracle that answers
    from the environment at the time of the call, that is from every
    request issued so far and from the map objects it can read through the
    request.  Since the log grows with each request, an oracle can answer
    two identical requests differently. *)
Module api.
Section api.
Context {B : Type}.

Inductive Call :=
| CallCreate (obj : B) (fieldManager : string)
| CallUpdate (obj : B) (fieldManager : string)
| CallDelete (name : string) (policy : metav1.DeletionPropagation)
| CallGet (name : string)
| CallList (opts : metav1.ListOptions)
| CallPatch (name : string) (pt : PatchType) (data : list byte)
    (fieldManager : string).

Record Env := {
  calls : list Call;   (* the requests issued so far, oldest first *)
  maps : list LabelMap (* the map objects, by address *)
}.

(** [DeploymentList] and its siblings: [Items] and [ListMeta.Continue]. *)
Record ObjectList := {
  Items : list B;
  Continue : string
}.

(** A method returns its result and its error side by side, as in Go; the
    typed clients hand back a non-nil result even when they fail. *)
Record Interface := {
  Create : Env -> B -> string -> B * option error;
  Update : Env -> B -> string -> B * option error;
  Delete : Env -> string -> metav1.DeletionPropagation -> option error;
  Get : Env -> string -> B * option error;
  List : Env -> metav1.ListOptions -> ObjectList * option error;
  Patch : Env -> string -> PatchType -> list byte -> string
          -> B * option error
}.

Definition record (c : Call) (e : Env) : Env :=
  {| calls := calls e ++ [c]; maps := maps e |}.

(** A request changes something at the server when it is not a read. *)
Definition mutating (c : Call) : bool :=
  match c with
  | CallCreate _ _ | CallUpdate _ _ | CallDelete _ _
  | CallPatch _ _ _ _ => true
  | CallGet _ | CallList _ => false
  end.

End api.
Arguments Call : clear implicits.
Arguments Env : clear implicits.
Arguments ObjectList : clear implicits.
Arguments Interface : clear implicits.
End api.

(** ** Memory and the monad of the package's methods *)

Section Memory.
Context {B : Type}.

(** The struct every wrapper is: a client handle and an embedded body. *)
Record Resource := {
  client : api.Interface B;
  body : B
}.

Record World := {
  env : api.Env B;
  bodies : list B;       (* bodies that a pointer refers to, by address *)
  objs : list Resource   (* wrappers that a pointer refers to, by address *)
}.

(** A computation either returns a value and the next world, or stops on a
    pointer that refers to nothing. *)
Definition M (A : Type) : Type := World -> option (A * World).

Definition ret {A} (a : A) : M A := fun w => Some (a, w).

Definition bind {A C} (m : M A) (k : A -> M C) : M C :=
  fun w =>
    match m w with
    | Some (a, w') => k a w'
    | None => None
    end.

(** [*p] for a pointer to a wrapper. *)
Definition load (p : ptr) : M Resource :=
  fun w =>
    match objs w !! p with
    | Some r => Some (r, w)
    | None => None
    end.

(** The world in which the cell at [p] holds [r]. *)
Definition withObj (p : ptr) (r : Resource) (w : World) : World :=
  {| env := env w; bodies := bodies w; objs := <[p := r]> (objs w) |}.

(** [p.body = b]: the embedded body of the wrapper at [p] is overwritten,
    its client handle stays. *)
Definition setBody (p : ptr) (b : B) : M unit :=
  fun w =>
    match objs w !! p with
    | Some r => Some (tt, withObj p {| client := client r; body := b |} w)
    | None => None
    end.

(** [&Resource{...}] and address-taken locals: a new cell. *)
Definition new (r : Resource) : M ptr :=
  fun w =>
    Some (length (objs w),
          {| env := env w; bodies := bodies w; objs := objs w ++ [r] |}).

(** The same three for pointers to bodies. *)
Definition loadBody (p : ptr) : M B :=
  fun w =>
    match bodies w !! p with
    | Some b => Some (b, w)
    | None => None
    end.

Definition storeBody (p : ptr) (b : B) : M unit :=
  fun w =>
    match bodies w !! p with
    | Some _ =>
        Some (tt, {| env := env w; bodies := <[p := b]> (bodies w);
                     objs := objs w |})
    | None => None
    end.

Definition newBody (b : B) : M ptr :=
  fun w =>
    Some (length (bodies w),
          {| env := env w; bodies := bodies w ++ [b]; objs := objs w |}).

(** The world once the request [c] has been recorded. *)
Definition after (c : api.Call B) (w : World) : World :=
  {| env := api.record c (env w); bodies := bodies w; objs := objs w |}.

(** A request to the server: the oracle answers from the environment before
    the request, which is then recorded. *)
Definition request {R} (c : api.Call B) (answer : api.Env B -> R) : M R :=
  fun w => Some (answer (env w), after c w).

(** A read of the environment that issues no request (encoding, claims). *)
Definition observe {R} (f : api.Env B -> R) : M R :=
  fun w => Some (f (env w), w).

End Memory.
Arguments Resource : clear implicits.
Arguments World : clear implicits.
Arguments M : clear implicits.

Declare Scope go_scope.
Notation "x <- m ;; k" := (bind m (fun x => k))
  (at level 100, m at next level, right associativity) : go_scope.
Notation "m ;; k" := (bind m (fun _ => k))
  (at level 100, right associativity) : go_scope.
Open Scope go_scope.

(** The calls of a typed client, each recorded as a request. *)
Module client.
Section client.
Context {B : Type}.
Implicit Type c : api.Interface B.

Definition Create c (obj : B) (fieldManager : string)
  : M B (B * option error) :=
  request (api.CallCreate obj fieldManager)
          (fun e => api.Create c e obj fieldManager).

Definition Update c (obj : B) (fieldManager : string)
  : M B (B * option error) :=
  request (api.CallUpdate obj fieldManager)
          (fun e => api.Update c e obj fieldManager).

Definition Delete c (name : string) (policy : metav1.DeletionPropagation)
  : M B (option error) :=
  request (api.CallDelete name policy)
          (fun e => api.Delete c e name policy).

Definition Get c (name : string) : M B (B * option error) :=
  request (api.CallGet name) (fun e => api.Get c e name).

Definition List c (opts : metav1.ListOptions)
  : M B (api.ObjectList B * option error) :=
  request (api.CallList opts) (fun e => api.List c e opts).

Definition Patch c (name : string) (pt : PatchType) (data : list byte)
  (fieldManager : string) : M B (B * option error) :=
  request (api.CallPatch name pt data fieldManager)
          (fun e => api.Patch c e name pt data fieldManager).

End client.
End client.

(** ** Deployment *)

(** [type Deployment struct { client v1.DeploymentInterface; appsv1.Deployment }] *)
Module Deployment.

Abbreviation t := (Resource appsv1.Deployment.t).

(** The promoted fields [d.Name], [d.Namespace], [d.DeletionTimestamp]. *)
Definition Name (d : t) : string :=
  metav1.Name (appsv1.Deployment.ObjectMeta (body d)).
Definition Namespace (d : t) : string :=
  metav1.Namespace (appsv1.Deployment.ObjectMeta (body d)).
Definition DeletionTimestamp (d : t) : option Time :=
  metav1.DeletionTimestamp (appsv1.Deployment.ObjectMeta (body d)).

(** [ID] reads the receiver only. *)
Definition ID (d : t) : ID :=
  {| Kind := "Deployment"; IDName := Name d; IDNamespace := Namespace d |}.

(** [ComputeStatus] reads the receiver only. *)
Definition ComputeStatus (d : t) (now : Time)
  : string * status.Status * Time * option error :=
  match DeletionTimestamp d with
  | Some ts => ("", status.Terminated, ts, None)
  | None =>
      if (appsv1.ReadyReplicas (appsv1.Deployment.Status (body d))
          =? appsv1.Replicas (appsv1.Deployment.Status (body d)))%Z
      then ("", status.Active, now, None)
      else ("", status.Waiting, now, None)
  end.

Definition DeleteOrphan (d : ptr) : M appsv1.Deployment.t (option error) :=
  ret None.

(** [clone := *d; return &clone] *)
Definition Clone (d : ptr) : M appsv1.Deployment.t ptr :=
  clone <- load d ;;
  new clone.

Section WithEncoder.
(** [runtime.Encode(unstructured.UnstructuredJSONScheme, obj)]: the encoder
    belongs to the API machinery; it reads the object and what the object
    refers to, and may fail. *)
Variable Encode :
  api.Env appsv1.Deployment.t -> appsv1.Deployment.t
  -> list byte * option error.

Definition Apply (d : ptr) : M appsv1.Deployment.t (option error) :=
  self <- load d ;;
  r <- observe (fun e => Encode e (body self)) ;;
  let '(data, err) := r in
  match err with
  | Some _ => ret (errors.Trace err)
  | None =>
      r <- client.Patch (client self) (Name self) StrategicMergePatchType
             data JujuFieldManager ;;
      r <- (if k8serrors.IsNotFound (snd r)
            then client.Create (client self) (body self) JujuFieldManager
            else ret r) ;;
      let '(res, err) := r in
      if k8serrors.IsConflict err
      then ret (errors.Annotatef errConflict "deployment %q" [Name self])
      else
        match err with
        | Some _ => ret (errors.Trace err)
        | None => setBody d res ;; ret None
        end
  end.

End WithEncoder.

Definition Get (d : ptr) : M appsv1.Deployment.t (option error) :=
  self <- load d ;;
  r <- client.Get (client self) (Name self) ;;
  let '(res, err) := r in
  if k8serrors.IsNotFound err
  then ret (errors.NewNotFound err "k8s")
  else
    match err with
    | Some _ => ret (errors.Trace err)
    | None => setBody d res ;; ret None
    end.

Definition Delete (d : ptr) : M appsv1.Deployment.t (option error) :=
  self <- load d ;;
  err <- client.Delete (client self) (Name self) DefaultPropagationPolicy ;;
  if k8serrors.IsNotFound err
  then ret (errors.NewNotFound err "k8s deployment for deletion")
  else ret (errors.Trace err).

End Deployment.

(** [in] is a pointer to the caller's body, or nil.  The name and the
    namespace are written through it; the wrapper then holds a copy of the
    body it points to. *)
Definition NewDeployment (client : api.Interface appsv1.Deployment.t)
  (namespace name : string) (in_ : option ptr)
  : M appsv1.Deployment.t ptr :=
  in_ <- match in_ with
         | None => newBody appsv1.Deployment.zero
         | Some p => ret p
         end ;;
  b <- loadBody in_ ;;
  storeBody in_ (appsv1.Deployment.SetName name b) ;;
  b <- loadBody in_ ;;
  storeBody in_ (appsv1.Deployment.SetNamespace namespace b) ;;
  b <- loadBody in_ ;;
  new {| client := client; body := b |}.

(** The body of [for _, item := range res.Items]: [item] is a variable
    whose address is taken, so it gets a cell; the wrapper that
    [NewDeployment] returns is copied onto the end of [items]. *)
Fixpoint rangeDeployments (client : api.Interface appsv1.Deployment.t)
  (namespace : string) (resItems : list appsv1.Deployment.t)
  (items : list Deployment.t) : M appsv1.Deployment.t (list Deployment.t) :=
  match resItems with
  | [] => ret items
  | item :: rest =>
      item_ <- newBody item ;;
      p <- NewDeployment client namespace
             (metav1.Name (appsv1.Deployment.ObjectMeta item)) (Some item_) ;;
      r <- load p ;;
      rangeDeployments client namespace rest (items ++ [r])
  end.

(** The [for { ... }] of [ListDeployments].  Go puts no bound on the number
    of pages; [fuel] bounds the number of rounds, and [None] says that the
    rounds ran out before the server sent an empty continuation token. *)
Fixpoint loopDeployments (fuel : nat)
  (client : api.Interface appsv1.Deployment.t) (namespace : string)
  (opts : metav1.ListOptions) (items : list Deployment.t)
  : M appsv1.Deployment.t (option (list Deployment.t * option error)) :=
  match fuel with
  | O => ret None
  | S fuel =>
      r <- client.List client opts ;;
      let '(res, err) := r in
      match err with
      | Some _ => ret (Some ([], errors.Trace err))
      | None =>
          items <- rangeDeployments client namespace (api.Items res) items ;;
          if String.eqb (api.Continue res) ""
          then ret (Some (items, None))
          else loopDeployments fuel client namespace
                 (metav1.SetContinue (api.Continue res) opts) items
      end
  end.

Definition ListDeployments (fuel : nat)
  (client : api.Interface appsv1.Deployment.t) (namespace : string)
  (opts : metav1.ListOptions)
  : M appsv1.Deployment.t (option (list Deployment.t * option error)) :=
  loopDeployments fuel client namespace opts [].

(** ** DaemonSet *)

(** [type DaemonSet struct { client v1.DaemonSetInterface; appsv1.DaemonSet }] *)
Module DaemonSet.

Abbreviation t := (Resource appsv1.DaemonSet.t).

Definition Name (ds : t) : string :=
  metav1.Name (appsv1.DaemonSet.ObjectMeta (body ds)).
Definition Namespace (ds : t) : string :=
  metav1.Namespace (appsv1.DaemonSet.ObjectMeta (body ds)).
Definition DeletionTimestamp (ds : t) : option Time :=
  metav1.DeletionTimestamp (appsv1.DaemonSet.ObjectMeta (body ds)).

Definition ID (ds : t) : ID :=
  {| Kind := "DaemonSet"; IDName := Name ds; IDNamespace := Namespace ds |}.

Definition ComputeStatus (ds : t) (now : Time)
  : string * status.Status * Time * option error :=
  match DeletionTimestamp ds with
  | Some ts => ("", status.Terminated, ts, None)
  | None =>
      if (appsv1.NumberReady (appsv1.DaemonSet.Status (body ds))
          =? appsv1.DesiredNumberScheduled
               (appsv1.DaemonSet.Status (body ds)))%Z
      then ("", status.Active, now, None)
      else ("", status.Waiting, now, None)
  end.

Definition DeleteOrphan (ds : ptr) : M appsv1.DaemonSet.t (option error) :=
  ret None.

Definition Clone (ds : ptr) : M appsv1.DaemonSet.t ptr :=
  clone <- load ds ;;
  new clone.

Section WithEncoder.
Variable Encode :
  api.Env appsv1.DaemonSet.t -> appsv1.DaemonSet.t
  -> list byte * option error.

Definition Apply (ds : ptr) : M appsv1.DaemonSet.t (option error) :=
  self <- load ds ;;
  r <- observe (fun e => Encode e (body self)) ;;
  let '(data, err) := r in
  match err with
  | Some _ => ret (errors.Trace err)
  | None =>
      r <- client.Patch (client self) (Name self) StrategicMergePatchType
             data JujuFieldManager ;;
      r <- (if k8serrors.IsNotFound (snd r)
            then client.Create (client self) (body self) JujuFieldManager
            else ret r) ;;
      let '(res, err) := r in
      if k8serrors.IsConflict err
      then ret (errors.Annotatef errConflict "daemon set %q" [Name self])
      else
        match err with
        | Some _ => ret (errors.Trace err)
        | None => setBody ds res ;; ret None
        end
  end.

End WithEncoder.

Definition Get (ds : ptr) : M appsv1.DaemonSet.t (option error) :=
  self <- load ds ;;
  r <- client.Get (client self) (Name self) ;;
  let '(res, err) := r in
  if k8serrors.IsNotFound err
  then ret (errors.NewNotFound err "k8s")
  else
    match err with
    | Some _ => ret (errors.Trace err)
    | None => setBody ds res ;; ret None
    end.

Definition Delete (ds : ptr) : M appsv1.DaemonSet.t (option error) :=
  self <- load ds ;;
  err <- client.Delete (client self) (Name self) DefaultPropagationPolicy ;;
  if k8serrors.IsNotFound err
  then ret (errors.NewNotFound err "k8s daemon set for deletion")
  else ret (errors.Trace err).

End DaemonSet.

Definition NewDaemonSet (client : api.Interface appsv1.DaemonSet.t)
  (namespace name : string) (in_ : option ptr)
  : M appsv1.DaemonSet.t ptr :=
  in_ <- match in_ with
         | None => newBody appsv1.DaemonSet.zero
         | Some p => ret p
         end ;;
  b <- loadBody in_ ;;
  storeBody in_ (appsv1.DaemonSet.SetName name b) ;;
  b <- loadBody in_ ;;
  storeBody in_ (appsv1.DaemonSet.SetNamespace namespace b) ;;
  b <- loadBody in_ ;;
  new {| client := client; body := b |}.

Fixpoint rangeDaemonSets (client : api.Interface appsv1.DaemonSet.t)
  (namespace : string) (resItems : list appsv1.DaemonSet.t)
  (items : list DaemonSet.t) : M appsv1.DaemonSet.t (list DaemonSet.t) :=
  match resItems with
  | [] => ret items
  | item :: rest =>
      item_ <- newBody item ;;
      p <- NewDaemonSet client namespace
             (metav1.Name (appsv1.DaemonSet.ObjectMeta item)) (Some item_) ;;
      r <- load p ;;
      rangeDaemonSets client namespace rest (items ++ [r])
  end.

Fixpoint loopDaemonSets (fuel : nat)
  (client : api.Interface appsv1.DaemonSet.t) (namespace : string)
  (opts : metav1.ListOptions) (items : list DaemonSet.t)
  : M appsv1.DaemonSet.t (option (list DaemonSet.t * option error)) :=
  match fuel with
  | O => ret None
  | S fuel =>
      r <- client.List client opts ;;
      let '(res, err) := r in
      match err with
      | Some _ => ret (Some ([], errors.Trace err))
      | None =>
          items <- rangeDaemonSets client namespace (api.Items res) items ;;
          if String.eqb (api.Continue res) ""
          then ret (Some (items, None))
          else loopDaemonSets fuel client namespace
                 (metav1.SetContinue (api.Continue res) opts) items
      end
  end.

Definition ListDaemonSets (fuel : nat)
  (client : api.Interface appsv1.DaemonSet.t) (namespace : string)
  (opts : metav1.ListOptions)
  : M appsv1.DaemonSet.t (option (list DaemonSet.t * option error)) :=
  loopDaemonSets fuel client namespace opts [].

(** ** ClusterRole *)

(** [type ClusterRole struct { client rbacv1client.ClusterRoleInterface; rbacv1.ClusterRole }] *)
Module ClusterRole.

Abbreviation t := (Resource rbacv1.ClusterRole.t).

Definition Name (r : t) : string :=
  metav1.Name (rbacv1.ClusterRole.ObjectMeta (body r)).
Definition Namespace (r : t) : string :=
  metav1.Namespace (rbacv1.ClusterRole.ObjectMeta (body r)).
Definition DeletionTimestamp (r : t) : option Time :=
  metav1.DeletionTimestamp (rbacv1.ClusterRole.ObjectMeta (body r)).

Definition DeleteOrphan (r : ptr) : M rbacv1.ClusterRole.t (option error) :=
  ret None.

Definition Clone (r : ptr) : M rbacv1.ClusterRole.t ptr :=
  clone <- load r ;;
  new clone.

Definition ID (r : t) : ID :=
  {| Kind := "ClusterRole"; IDName := Name r; IDNamespace := Namespace r |}.

Definition Get (r : ptr) : M rbacv1.ClusterRole.t (option error) :=
  self <- load r ;;
  res <- client.Get (client self) (Name self) ;;
  let '(res, err) := res in
  if k8serrors.IsNotFound err
  then ret (errors.NewNotFound err "k8s")
  else
    match err with
    | Some _ => ret (errors.Trace err)
    | None => setBody r res ;; ret None
    end.

Definition Delete (r : ptr) : M rbacv1.ClusterRole.t (option error) :=
  self <- load r ;;
  err <- client.Delete (client self) (Name self) DefaultPropagationPolicy ;;
  if k8serrors.IsNotFound err
  then ret (errors.NewNotFound err "k8s cluster role for deletion")
  else ret (errors.Trace err).

Definition ComputeStatus (r : t) (now : Time)
  : string * status.Status * Time * option error :=
  match DeletionTimestamp r with
  | Some ts => ("", status.Terminated, ts, None)
  | None => ("", status.Active, now, None)
  end.

Definition Update (r : ptr) : M rbacv1.ClusterRole.t (option error) :=
  self <- load r ;;
  out <- client.Update (client self) (body self) JujuFieldManager ;;
  let '(out, err) := out in
  if k8serrors.IsNotFound err
  then ret (errors.NewNotFound err "updating cluster role")
  else
    match err with
    | Some _ => ret (errors.Trace err)
    | None => setBody r out ;; ret None
    end.

(** Modelled from the spec: the [Claim] interface is declared in a file
    outside the ones studied here; the spec gives a claim as a predicate
    from a live object to a verdict and an error, which reads the object
    and never writes to it. *)
Definition Claim : Type :=
  api.Env rbacv1.ClusterRole.t -> rbacv1.ClusterRole.t -> bool * option error.

(** A rollback closure, [func()]. *)
Definition Cleanup : Type := M rbacv1.ClusterRole.t unit.

Section WithCollaborators.
Variable Encode :
  api.Env rbacv1.ClusterRole.t -> rbacv1.ClusterRole.t
  -> list byte * option error.
(** [RunClaims] is declared in a file outside the ones studied here; it
    folds the claims it is given into one.  Nothing is assumed about how. *)
Variable RunClaims : list Claim -> Claim.

Definition Apply (r : ptr) : M rbacv1.ClusterRole.t (option error) :=
  self <- load r ;;
  res <- observe (fun e => Encode e (body self)) ;;
  let '(data, err) := res in
  match err with
  | Some _ => ret (errors.Trace err)
  | None =>
      res <- client.Patch (client self) (Name self) StrategicMergePatchType
               data JujuFieldManager ;;
      res <- (if k8serrors.IsNotFound (snd res)
              then client.Create (client self) (body self) JujuFieldManager
              else ret res) ;;
      let '(res, err) := res in
      if k8serrors.IsConflict err
      then ret (errors.Annotatef errConflict "cluster role %q" [Name self])
      else
        match err with
        | Some _ => ret (errors.Trace err)
        | None => setBody r res ;; ret None
        end
  end.

(** [func() { _ = r.Delete(ctx) }]: the closure holds the pointer [r], so
    it deletes by the name [r] has when the closure runs. *)
Definition deleteCleanup (r : ptr) : Cleanup :=
  Delete r ;; ret tt.

Definition Ensure (r : ptr) (claims : list Claim)
  : M rbacv1.ClusterRole.t (list Cleanup * option error) :=
  let cleanups : list Cleanup := [] in
  let hasClaim := true in
  self <- load r ;;
  existing <- new {| client := client self; body := body self |} ;;
  err <- Get existing ;;
  v <- match err with
       | None =>
           ex <- load existing ;;
           observe (fun e => RunClaims claims e (body ex))
       | Some _ => ret (hasClaim, err)
       end ;;
  let '(hasClaim, err) := v in
  if match err with Some _ => true | None => false end
     && negb (errors.IsNotFound err)
  then
    ex <- load existing ;;
    ret (cleanups,
         errors.Annotatef err "checking for existing cluster role %q"
           [Name ex])
  else if negb hasClaim
  then
    self <- load r ;;
    ret (cleanups,
         errors.AlreadyExistsf "cluster role %q not controlled by juju"
           [Name self])
  else
    let cleanups := cleanups ++ [deleteCleanup r] in
    if errors.IsNotFound err
    then
      e <- Apply r ;;
      ret (cleanups, e)
    else
      err <- Update r ;;
      match err with
      | Some _ => ret (cleanups, err)
      | None => ret (cleanups, None)
      end.

End WithCollaborators.

End ClusterRole.

(** [NewClusterRole] takes no namespace: only the name is written through
    [in]. *)
Definition NewClusterRole (client : api.Interface rbacv1.ClusterRole.t)
  (name : string) (in_ : option ptr) : M rbacv1.ClusterRole.t ptr :=
  in_ <- match in_ with
         | None => newBody rbacv1.ClusterRole.zero
         | Some p => ret p
         end ;;
  b <- loadBody in_ ;;
  storeBody in_ (rbacv1.ClusterRole.SetName name b) ;;
  b <- loadBody in_ ;;
  new {| client := client; body := b |}.

Fixpoint rangeClusterRoles (client : api.Interface rbacv1.ClusterRole.t)
  (resItems : list rbacv1.ClusterRole.t) (items : list ClusterRole.t)
  : M rbacv1.ClusterRole.t (list ClusterRole.t) :=
  match resItems with
  | [] => ret items
  | item :: rest =>
      item_ <- newBody item ;;
      p <- NewClusterRole client
             (metav1.Name (rbacv1.ClusterRole.ObjectMeta item)) (Some item_) ;;
      r <- load p ;;
      rangeClusterRoles client rest (items ++ [r])
  end.

Fixpoint loopClusterRoles (fuel : nat)
  (client : api.Interface rbacv1.ClusterRole.t)
  (opts : metav1.ListOptions) (items : list ClusterRole.t)
  : M rbacv1.ClusterRole.t (option (list ClusterRole.t * option error)) :=
  match fuel with
  | O => ret None
  | S fuel =>
      r <- client.List client opts ;;
      let '(res, err) := r in
      match err with
      | Some _ => ret (Some ([], errors.Trace err))
      | None =>
          items <- rangeClusterRoles client (api.Items res) items ;;
          if String.eqb (api.Continue res) ""
          then ret (Some (items, None))
          else loopClusterRoles fuel client
                 (metav1.SetContinue (api.Continue res) opts) items
      end
  end.

Definition ListClusterRoles (fuel : nat)
  (client : api.Interface rbacv1.ClusterRole.t) (opts : metav1.ListOptions)
  : M rbacv1.ClusterRole.t (option (list ClusterRole.t * option error)) :=
  loopClusterRoles fuel client opts [].

(** ** What the lifecycle methods promise

    The three wrappers repeat one another; each promise is written once,
    over the method and the way the kind reads its name, and holds of every
    kind that has the method. *)

Section Contracts.
Context {B : Type}.
Variable nameOf : Resource B -> string.

(** The world once the request [c] has been added to the requests the
    server has seen, written out. *)
Definition recorded (c : api.Call B) (w : World B) : World B :=
  {| env := {| api.calls := api.calls (env w) ++ [c];
               api.maps := api.maps (env w) |};
     bodies := bodies w;
     objs := objs w |}.

(** That world with, in addition, the wrapper at [d] holding the body [b]
    behind the client handle of [self]. *)
Definition refreshed (c : api.Call B) (d : ptr) (self : Resource B) (b : B)
    (w : World B) : World B :=
  {| env := {| api.calls := api.calls (env w) ++ [c];
               api.maps := api.maps (env w) |};
     bodies := bodies w;
     objs := <[d := {| client := client self; body := b |}]> (objs w) |}.

(** [Get]: one get request by name.  A not-found answer becomes the
    distinguished not-found error, any other error comes back traced, and
    in both cases no wrapper is touched; on success the body of the
    receiver, and nothing else, is replaced by the answer. *)
Definition GetContract (Get : ptr -> M B (option error)) : Prop :=
  forall (w : World B) (d : ptr) (self : Resource B) res err,
    objs w !! d = Some self ->
    api.Get (client self) (env w) (nameOf self) = (res, err) ->
    let get := api.CallGet (nameOf self) in
    (k8serrors.IsNotFound err = true ->
       Get d w = Some (Some (notFound err "k8s"), recorded get w))
    /\ (forall e, err = Some e -> k8serrors.IsNotFound err = false ->
          Get d w = Some (Some (Traced e), recorded get w))
    /\ (err = None ->
          Get d w = Some (None, refreshed get d self res w)).

(** [Delete]: one delete request by name with the default propagation
    policy.  A not-found answer is reported as a not-found error, never as
    success; any other answer comes back as it is, traced. *)
Definition DeleteContract (msg : string)
    (Delete : ptr -> M B (option error)) : Prop :=
  forall (w : World B) (d : ptr) (self : Resource B) err,
    objs w !! d = Some self ->
    api.Delete (client self) (env w) (nameOf self) DefaultPropagationPolicy
    = err ->
    let delete := api.CallDelete (nameOf self) DefaultPropagationPolicy in
    (k8serrors.IsNotFound err = true ->
       Delete d w = Some (Some (notFound err msg), recorded delete w)
       /\ errors.IsNotFound (Some (notFound err msg)) = true)
    /\ (k8serrors.IsNotFound err = false ->
          Delete d w = Some (errors.Trace err, recorded delete w)).

(** [runtime.Encode] for the kind. *)
Definition Encoder : Type := api.Env B -> B -> list byte * option error.

(** [Apply], when the body encodes.  The first request is a strategic-merge
    patch by name.  If the answer is anything but not-found, that is the
    only request.  If it is not-found, one create of the body follows, and
    nothing else.  [Apply] succeeds exactly when the last answer carries no
    error, and then the body of the receiver, and nothing else, is replaced
    by that answer. *)
Definition ApplyContract (Apply : Encoder -> ptr -> M B (option error))
    : Prop :=
  forall (Encode : Encoder) (w : World B) (d : ptr) (self : Resource B)
         data res err,
    objs w !! d = Some self ->
    Encode (env w) (body self) = (data, None) ->
    let patch := api.CallPatch (nameOf self) StrategicMergePatchType data
                   JujuFieldManager in
    let create := api.CallCreate (body self) JujuFieldManager in
    api.Patch (client self) (env w) (nameOf self) StrategicMergePatchType
      data JujuFieldManager = (res, err) ->
    (k8serrors.IsNotFound err = false ->
       exists ret w',
         Apply Encode d w = Some (ret, w')
         /\ api.calls (env w') = api.calls (env w) ++ [patch]
         /\ (ret = None <-> err = None)
         /\ (ret = None ->
             objs w' = <[d := {| client := client self; body := res |}]>
                         (objs w)))
    /\ (k8serrors.IsNotFound err = true ->
        forall res' err',
          api.Create (client self) (env (after patch w)) (body self)
            JujuFieldManager = (res', err') ->
          exists ret w',
            Apply Encode d w = Some (ret, w')
            /\ api.calls (env w') = api.calls (env w) ++ [patch; create]
            /\ (ret = None <-> err' = None)
            /\ (ret = None ->
                objs w' = <[d := {| client := client self; body := res' |}]>
                            (objs w))).

(** [Apply], when the body does not encode: the error of the encoder comes
    back traced, no request is issued and nothing is written. *)
Definition EncodeFailureContract
    (Apply : Encoder -> ptr -> M B (option error)) : Prop :=
  forall (Encode : Encoder) (w : World B) (d : ptr) (self : Resource B)
         data e,
    objs w !! d = Some self ->
    Encode (env w) (body self) = (data, Some e) ->
    Apply Encode d w = Some (Some (Traced e), w).

(** The reading of [Apply] that leaves the encoder out: whatever the
    encoder does, the requests [Apply] issues start with a patch by name. *)
Definition ApplyAlwaysPatches (Apply : Encoder -> ptr -> M B (option error))
    : Prop :=
  forall (Encode : Encoder) (w : World B) (d : ptr) (self : Resource B),
    objs w !! d = Some self ->
    exists ret w' data rest,
      Apply Encode d w = Some (ret, w')
      /\ api.calls (env w')
         = api.calls (env w)
           ++ api.CallPatch (nameOf self) StrategicMergePatchType data
                JujuFieldManager :: rest.

(** A method that fails leaves every wrapper, every body and every map as
    it found them; it returns on every receiver that exists. *)
Definition FailureKeepsBody (op : ptr -> M B (option error)) : Prop :=
  forall (w : World B) (d : ptr) (self : Resource B),
    objs w !! d = Some self ->
    exists ret w',
      op d w = Some (ret, w')
      /\ (ret <> None ->
          objs w' = objs w /\ bodies w' = bodies w
          /\ api.maps (env w') = api.maps (env w)).

(** [Apply] and a conflict: whether the conflict answers the patch or the
    create that follows a not-found patch, [Apply] returns the package's
    conflict error annotated with [format] and the name, issues no further
    request, and leaves the wrappers alone. *)
Definition ApplyConflictContract (format : string)
    (Apply : Encoder -> ptr -> M B (option error)) : Prop :=
  forall (Encode : Encoder) (w : World B) (d : ptr) (self : Resource B)
         data res err,
    objs w !! d = Some self ->
    Encode (env w) (body self) = (data, None) ->
    let patch := api.CallPatch (nameOf self) StrategicMergePatchType data
                   JujuFieldManager in
    let create := api.CallCreate (body self) JujuFieldManager in
    let conflict := Some (Annotated ConflictSentinel format [nameOf self]) in
    api.Patch (client self) (env w) (nameOf self) StrategicMergePatchType
      data JujuFieldManager = (res, err) ->
    (k8serrors.IsConflict err = true ->
       Apply Encode d w = Some (conflict, recorded patch w))
    /\ (k8serrors.IsNotFound err = true ->
        forall res' err',
          api.Create (client self) (env (after patch w)) (body self)
            JujuFieldManager = (res', err') ->
          k8serrors.IsConflict err' = true ->
          Apply Encode d w
          = Some (conflict, recorded create (recorded patch w))).

(** [Update]: one update request carrying the whole body, and no other
    request whatever the answer, so never a create.  Not-found becomes the
    not-found error; any other error, a conflict included, comes back as the
    server sent it, traced; on success the body of the receiver is replaced
    by the answer. *)
Definition UpdateContract (Update : ptr -> M B (option error)) : Prop :=
  forall (w : World B) (r : ptr) (self : Resource B) out err,
    objs w !! r = Some self ->
    api.Update (client self) (env w) (body self) JujuFieldManager
    = (out, err) ->
    let update := api.CallUpdate (body self) JujuFieldManager in
    (k8serrors.IsNotFound err = true ->
       Update r w
       = Some (Some (notFound err "updating cluster role"), recorded update w))
    /\ (forall e, err = Some e -> k8serrors.IsNotFound err = false ->
          Update r w = Some (Some (Traced e), recorded update w))
    /\ (err = None ->
          Update r w = Some (None, refreshed update r self out w)).

(** [Update] and a conflict: the error of the server comes back traced, as
    any error but not-found does.  What comes back is not the package's
    conflict error, neither as it is nor underneath: its cause is the cause
    of the error of the server. *)
Definition UpdateConflictContract (Update : ptr -> M B (option error))
    : Prop :=
  forall (w : World B) (r : ptr) (self : Resource B) out e,
    objs w !! r = Some self ->
    api.Update (client self) (env w) (body self) JujuFieldManager
    = (out, Some e) ->
    k8serrors.IsConflict (Some e) = true ->
    Update r w
    = Some (Some (Traced e),
            recorded (api.CallUpdate (body self) JujuFieldManager) w)
    /\ errors.Cause (Traced e) = errors.Cause e
    /\ errors.Cause (Traced e) <> ConflictSentinel.

(** The reading of [Update] under which a conflict is answered as [Apply]
    answers it: with the package's conflict error, annotated. *)
Definition UpdateAnnotatesConflict (Update : ptr -> M B (option error))
    : Prop :=
  forall (w : World B) (r : ptr) (self : Resource B) out err,
    objs w !! r = Some self ->
    api.Update (client self) (env w) (body self) JujuFieldManager
    = (out, err) ->
    k8serrors.IsConflict err = true ->
    exists w' format args,
      Update r w = Some (Some (Annotated ConflictSentinel format args), w').

End Contracts.

(** The world after the first step of [Ensure]: a local copy of the
    receiver has been made in a new cell and [Get] has run on it, which
    issued one get request.  [b] is the body the copy ends with: the answer
    of the server if [Get] succeeded, the body of the receiver if not. *)
Definition probed (w : World rbacv1.ClusterRole.t) (self : ClusterRole.t)
    (b : rbacv1.ClusterRole.t) : World rbacv1.ClusterRole.t :=
  {| env := api.record (api.CallGet (ClusterRole.Name self)) (env w);
     bodies := bodies w;
     objs := objs w ++ [ {| client := client self; body := b |} ] |}.

Section MoreContracts.
Context {B : Type}.

(** A constructor, seen as a function of the client handle and of [in] once
    its name arguments are fixed, [stamp] being what it writes.  With nil it
    works on a fresh empty body.  With a pointer it writes through the
    pointer: the caller's body is overwritten in place by the stamped one.
    Either way the new wrapper holds the handle and a copy of the stamped
    body, and nothing else in memory changes. *)
Definition ConstructorContract
    (New : api.Interface B -> option ptr -> M B ptr)
    (stamp : B -> B) (zero : B) : Prop :=
  forall (c : api.Interface B) (w : World B),
    New c None w
    = Some (length (objs w),
            {| env := env w; bodies := bodies w ++ [stamp zero];
               objs := objs w ++ [ {| client := c; body := stamp zero |} ] |})
    /\ forall (i : ptr) (b0 : B),
         bodies w !! i = Some b0 ->
         New c (Some i) w
         = Some (length (objs w),
                 {| env := env w; bodies := <[i := stamp b0]> (bodies w);
                    objs := objs w
                            ++ [ {| client := c; body := stamp b0 |} ] |}).

(** The reading of a constructor under which the identity of what it builds
    comes from its arguments alone, whatever the initial body carried. *)
Definition IDFromArguments
    (New : api.Interface B -> option ptr -> M B ptr)
    (IDof : Resource B -> ID) : Prop :=
  forall (c : api.Interface B) (w1 w2 w1' w2' : World B)
         (in1 in2 : option ptr) (p1 p2 : ptr) (r1 r2 : Resource B),
    New c in1 w1 = Some (p1, w1') -> objs w1' !! p1 = Some r1 ->
    New c in2 w2 = Some (p2, w2') -> objs w2' !! p2 = Some r2 ->
    IDof r1 = IDof r2.

(** The server serves [pages], in this order, to a caller that starts with
    [opts] in environment [e] and follows the continuation tokens: every
    page but the last comes with a token that is not empty, the last with
    the empty token, and no page comes with an error. *)
Inductive Serves (c : api.Interface B)
    : api.Env B -> metav1.ListOptions -> list (list B) -> Prop :=
| Serves_last e opts items :
    api.List c e opts
    = ({| api.Items := items; api.Continue := "" |}, None) ->
    Serves c e opts [items]
| Serves_more e opts items token pages :
    api.List c e opts
    = ({| api.Items := items; api.Continue := token |}, None) ->
    token <> "" ->
    Serves c (api.record (api.CallList opts) e)
      (metav1.SetContinue token opts) pages ->
    Serves c e opts (items :: pages).

(** The server answers the list request number [n] (from 0) of such a
    caller with the error [err], after [n] pages served without error. *)
Inductive FailsAt (c : api.Interface B)
    : api.Env B -> metav1.ListOptions -> nat -> error -> Prop :=
| FailsAt_here e opts res err :
    api.List c e opts = (res, Some err) ->
    FailsAt c e opts 0 err
| FailsAt_later e opts items token n err :
    api.List c e opts
    = ({| api.Items := items; api.Continue := token |}, None) ->
    token <> "" ->
    FailsAt c (api.record (api.CallList opts) e)
      (metav1.SetContinue token opts) n err ->
    FailsAt c e opts (S n) err.

(** A lister with its client handle fixed, [wrap] being the wrapper it
    makes of an item.  Given rounds enough for the pages, it returns the
    wrapped items of all pages, in page order; if a page fails, it returns
    the traced error of that page and no item. *)
Definition ListContract (c : api.Interface B)
    (List : nat -> metav1.ListOptions
            -> M B (option (list (Resource B) * option error)))
    (wrap : B -> Resource B) : Prop :=
  (forall (w : World B) opts pages fuel,
     Serves c (env w) opts pages ->
     length pages <= fuel ->
     exists w',
       List fuel opts w = Some (Some (map wrap (concat pages), None), w'))
  /\ (forall (w : World B) opts n err fuel,
        FailsAt c (env w) opts n err ->
        n < fuel ->
        exists w',
          List fuel opts w = Some (Some ([], Some (Traced err)), w')).

(** A lister all of whose wrappers carry the namespace [namespace]. *)
Definition ListsInNamespace (c : api.Interface B)
    (List : nat -> metav1.ListOptions
            -> M B (option (list (Resource B) * option error)))
    (nsOf : Resource B -> string) (namespace : string) : Prop :=
  forall (w : World B) opts pages fuel,
    Serves c (env w) opts pages ->
    length pages <= fuel ->
    exists out w',
      List fuel opts w = Some (Some (out, None), w')
      /\ Forall (fun r => nsOf r = namespace) out.

(** The reading of a lister under which it wraps what it is served with a
    namespace that was supplied to it: one namespace for all it returns,
    whatever the pages carry. *)
Definition NamespaceSupplied (c : api.Interface B)
    (List : nat -> metav1.ListOptions
            -> M B (option (list (Resource B) * option error)))
    (nsOf : Resource B -> string) : Prop :=
  exists namespace, ListsInNamespace c List nsOf namespace.

End MoreContracts.

Section CloneContracts.
Context {B : Type}.

(** [Clone] makes a new wrapper, at an address of its own, that holds what
    the receiver holds: the same client handle and a field-for-field copy of
    the body.  References inside the body are copied as references.  The
    receiver and the rest of memory stay as they were. *)
Definition CloneContract (Clone : ptr -> M B ptr) : Prop :=
  forall (w : World B) (d : ptr) (self : Resource B),
    objs w !! d = Some self ->
    exists c w',
      Clone d w = Some (c, w')
      /\ c <> d
      /\ objs w' !! c = Some self
      /\ objs w' !! d = Some self
      /\ env w' = env w
      /\ bodies w' = bodies w.

(** A method called on [c] returns, and writes to no wrapper but [c], to no
    body that a pointer refers to and to no map. *)
Definition OnlyReceiver (op : ptr -> M B (option error)) : Prop :=
  forall (w : World B) (c d : ptr) (rc x : Resource B),
    objs w !! c = Some rc ->
    objs w !! d = Some x ->
    c <> d ->
    exists ret w',
      op c w = Some (ret, w')
      /\ objs w' !! d = Some x
      /\ api.maps (env w') = api.maps (env w)
      /\ bodies w' = bodies w.

(** The reading of [Clone] as a deep copy: no map that the original refers
    to is referred to by the clone. *)
Definition ClonesDeep (metaOf : B -> metav1.ObjectMeta)
    (Clone : ptr -> M B ptr) : Prop :=
  forall (w w' : World B) (d c : ptr) (self copy : Resource B) (l : ptr),
    objs w !! d = Some self ->
    Clone d w = Some (c, w') ->
    objs w' !! c = Some copy ->
    metav1.Labels (metaOf (body copy)) = Some l ->
    metav1.Labels (metaOf (body self)) <> Some l.

End CloneContracts.

(** A served deployment as [ListDeployments] hands it back: behind the
    client handle [c], in the namespace [namespace], under the name it was
    served with, every other field as served. *)
Definition listedDeployment (c : api.Interface appsv1.Deployment.t)
    (namespace : string) (item : appsv1.Deployment.t) : Deployment.t :=
  {| client := c;
     body :=
       {| appsv1.Deployment.ObjectMeta :=
            {| metav1.Name := metav1.Name (appsv1.Deployment.ObjectMeta item);
               metav1.Namespace := namespace;
               metav1.ResourceVersion :=
                 metav1.ResourceVersion (appsv1.Deployment.ObjectMeta item);
               metav1.DeletionTimestamp :=
                 metav1.DeletionTimestamp (appsv1.Deployment.ObjectMeta item);
               metav1.Labels :=
                 metav1.Labels (appsv1.Deployment.ObjectMeta item) |};
          appsv1.Deployment.Spec := appsv1.Deployment.Spec item;
          appsv1.Deployment.Status := appsv1.Deployment.Status item |} |}.

(** The same for a daemon set. *)
Definition listedDaemonSet (c : api.Interface appsv1.DaemonSet.t)
    (namespace : string) (item : appsv1.DaemonSet.t) : DaemonSet.t :=
  {| client := c;
     body :=
       {| appsv1.DaemonSet.ObjectMeta :=
            {| metav1.Name := metav1.Name (appsv1.DaemonSet.ObjectMeta item);
               metav1.Namespace := namespace;
               metav1.ResourceVersion :=
                 metav1.ResourceVersion (appsv1.DaemonSet.ObjectMeta item);
               metav1.DeletionTimestamp :=
                 metav1.DeletionTimestamp (appsv1.DaemonSet.ObjectMeta item);
               metav1.Labels :=
                 metav1.Labels (appsv1.DaemonSet.ObjectMeta item) |};
          appsv1.DaemonSet.Spec := appsv1.DaemonSet.Spec item;
          appsv1.DaemonSet.Status := appsv1.DaemonSet.Status item |} |}.

(** A served cluster role as [ListClusterRoles] hands it back: behind the
    client handle [c], every field as served, the namespace included. *)
Definition listedClusterRole (c : api.Interface rbacv1.ClusterRole.t)
    (item : rbacv1.ClusterRole.t) : ClusterRole.t :=
  {| client := c; body := item |}.

(** ** Concrete objects, used to exercise the statements below *)

Definition metaOf (name namespace : string) (deleted : option Time)
  (labels : option ptr) : metav1.ObjectMeta :=
  {| metav1.Name := name; metav1.Namespace := namespace;
     metav1.ResourceVersion := "1";
     metav1.DeletionTimestamp := deleted; metav1.Labels := labels |}.

Definition deploymentBody (name namespace : string) (deleted : option Time)
  (labels : option ptr) (replicas ready : Z) : appsv1.Deployment.t :=
  {| appsv1.Deployment.ObjectMeta := metaOf name namespace deleted labels;
     appsv1.Deployment.Spec := "spec";
     appsv1.Deployment.Status :=
       {| appsv1.Replicas := replicas; appsv1.ReadyReplicas := ready |} |}.

Definition daemonSetBody (name namespace : string) (deleted : option Time)
  (labels : option ptr) (desired ready : Z) : appsv1.DaemonSet.t :=
  {| appsv1.DaemonSet.ObjectMeta := metaOf name namespace deleted labels;
     appsv1.DaemonSet.Spec := "spec";
     appsv1.DaemonSet.Status :=
       {| appsv1.DesiredNumberScheduled := desired;
          appsv1.NumberReady := ready |} |}.

Definition clusterRoleBody (name namespace : string) (deleted : option Time)
  (labels : option ptr) : rbacv1.ClusterRole.t :=
  {| rbacv1.ClusterRole.ObjectMeta := metaOf name namespace deleted labels;
     rbacv1.ClusterRole.Rules :=
       [ {| rbacv1.Verbs := ["get"]; rbacv1.APIGroups := [""];
            rbacv1.Resources := ["pods"] |} ] |}.

(** A server that answers every request with the same body and error. *)
Definition constServer {B : Type} (answer : B) (err : option error)
  : api.Interface B :=
  {| api.Create := fun _ _ _ => (answer, err);
     api.Update := fun _ _ _ => (answer, err);
     api.Delete := fun _ _ _ => err;
     api.Get := fun _ _ => (answer, err);
     api.List := fun _ _ =>
       ({| api.Items := [answer]; api.Continue := "" |}, err);
     api.Patch := fun _ _ _ _ _ => (answer, err) |}.

Definition notFoundStatus : option error :=
  Some (StatusError StatusReasonNotFound 404 "not found").

Definition conflictStatus : option error :=
  Some (StatusError StatusReasonConflict 409
          "the object has been modified").

(** A server that answers each kind of request with [answer] and its own
    error; a create answers with the object it was sent. *)
Definition stubServer {B : Type} (answer : B)
    (patchErr createErr updateErr getErr deleteErr : option error)
  : api.Interface B :=
  {| api.Create := fun _ obj _ => (obj, createErr);
     api.Update := fun _ _ _ => (answer, updateErr);
     api.Delete := fun _ _ _ => deleteErr;
     api.Get := fun _ _ => (answer, getErr);
     api.List := fun _ _ =>
       ({| api.Items := [answer]; api.Continue := "" |}, None);
     api.Patch := fun _ _ _ _ _ => (answer, patchErr) |}.

(** A world with one map (address 0), one body that a caller points to
    (address 0) and one wrapper (address 0). *)
Definition worldOf {B : Type} (c : api.Interface B) (b : B) : World B :=
  {| env := {| api.calls := [];
               api.maps := [ {[ "app.kubernetes.io/managed-by" := "juju" ]} ] |};
     bodies := [b];
     objs := [ {| client := c; body := b |} ] |}.

Definition okEncoder {B : Type} : api.Env B -> B -> list byte * option error :=
  fun _ _ => ([], None).

Definition brokenEncoder {B : Type}
  : api.Env B -> B -> list byte * option error :=
  fun _ _ => ([], Some (errorString "json: error calling MarshalJSON")).

Definition denyAll (claims : list ClusterRole.Claim) : ClusterRole.Claim :=
  fun _ _ => (false, None).

Definition allowAll (claims : list ClusterRole.Claim) : ClusterRole.Claim :=
  fun _ _ => (true, None).

(** Three pages of sizes 2, 2 and 1, chained by the tokens p2 and p3. *)
Definition pagedServer {B : Type} (a b c d e : B) : api.Interface B :=
  {| api.Create := fun _ obj _ => (obj, None);
     api.Update := fun _ obj _ => (obj, None);
     api.Delete := fun _ _ _ => None;
     api.Get := fun _ _ => (a, None);
     api.List := fun _ opts =>
       if String.eqb (metav1.Continue opts) ""
       then ({| api.Items := [a; b]; api.Continue := "p2" |}, None)
       else if String.eqb (metav1.Continue opts) "p2"
       then ({| api.Items := [c; d]; api.Continue := "p3" |}, None)
       else ({| api.Items := [e]; api.Continue := "" |}, None);
     api.Patch := fun _ _ _ _ _ => (a, None) |}.

(** One page, then an error. *)
Definition failingServer {B : Type} (a : B) : api.Interface B :=
  {| api.Create := fun _ obj _ => (obj, None);
     api.Update := fun _ obj _ => (obj, None);
     api.Delete := fun _ _ _ => None;
     api.Get := fun _ _ => (a, None);
     api.List := fun _ opts =>
       if String.eqb (metav1.Continue opts) ""
       then ({| api.Items := [a]; api.Continue := "p2" |}, None)
       else ({| api.Items := []; api.Continue := "" |},
             Some (StatusError StatusReasonTimeout 504 "timeout"));
     api.Patch := fun _ _ _ _ _ => (a, None) |}.

Definition noOptions : metav1.ListOptions :=
  {| metav1.LabelSelector := ""; metav1.Continue := "" |}.

(** What a caller holding a pointer to a Deployment wrapper can write:
    [d.Labels[k] = v] and [d.Labels[k]].  Neither is part of the package;
    they show what sharing a map means.  Writing to a nil map stops the
    program. *)
Definition writeLabel (d : ptr) (k v : string) : M appsv1.Deployment.t unit :=
  fun w =>
    match objs w !! d with
    | Some self =>
        match metav1.Labels (appsv1.Deployment.ObjectMeta (body self)) with
        | Some l =>
            match api.maps (env w) !! l with
            | Some m =>
                Some (tt,
                      {| env := {| api.calls := api.calls (env w);
                                   api.maps := <[l := <[k := v]> m]>
                                                 (api.maps (env w)) |};
                         bodies := bodies w; objs := objs w |})
            | None => None
            end
        | None => None
        end
    | None => None
    end.

Definition readLabel (d : ptr) (k : string)
  : M appsv1.Deployment.t (option string) :=
  fun w =>
    match objs w !! d with
    | Some self =>
        match metav1.Labels (appsv1.Deployment.ObjectMeta (body self)) with
        | Some l =>
            match api.maps (env w) !! l with
            | Some m => Some (m !! k, w)
            | None => None
            end
        | None => Some (None, w)
        end
    | None => None
    end.

(** The value a computation returns, without the world it leaves. *)
Definition result {B A : Type} (r : option (A * World B)) : option A :=
  match r with
  | Some (a, _) => Some a
  | None => None
  end.

(** The requests on record once a computation has returned. *)
Definition requests {B A : Type} (r : option (A * World B))
  : option (list (api.Call B)) :=
  match r with
  | Some (_, w) => Some (api.calls (env w))
  | None => None
  end.

Definition webDeployment : appsv1.Deployment.t :=
  deploymentBody "web" "prod" None (Some 0) 3 1.

(** What the server holds for it: all replicas ready, no labels. *)
Definition webDeploymentLive : appsv1.Deployment.t :=
  deploymentBody "web" "prod" None None 3 3.

Definition agentDaemonSet : appsv1.DaemonSet.t :=
  daemonSetBody "agent" "prod" None (Some 0) 4 2.

Definition agentDaemonSetLive : appsv1.DaemonSet.t :=
  daemonSetBody "agent" "prod" (Some 1700000000%Z) None 4 4.

Definition adminRole : rbacv1.ClusterRole.t :=
  clusterRoleBody "admin" "" None (Some 0).

Definition adminRoleLive : rbacv1.ClusterRole.t :=
  clusterRoleBody "admin" "" None None.

(** A cluster role body that carries a namespace. *)
Definition strayRole : rbacv1.ClusterRole.t :=
  clusterRoleBody "stray" "left-over" None None.

(** A server on which the deployment does not exist yet. *)
Definition emptyServer : api.Interface appsv1.Deployment.t :=
  stubServer webDeploymentLive notFoundStatus None None notFoundStatus
    notFoundStatus.

(** A server that holds the deployment and accepts every request. *)
Definition liveServer : api.Interface appsv1.Deployment.t :=
  stubServer webDeploymentLive None None None None None.

(** A server on which every write meets a concurrent modification. *)
Definition busyServer : api.Interface appsv1.Deployment.t :=
  stubServer webDeploymentLive conflictStatus conflictStatus conflictStatus
    None None.

Definition webWrapper (c : api.Interface appsv1.Deployment.t) : Deployment.t :=
  {| client := c; body := webDeployment |}.

Definition patchWeb : api.Call appsv1.Deployment.t :=
  api.CallPatch "web" StrategicMergePatchType [] JujuFieldManager.

Definition createWeb : api.Call appsv1.Deployment.t :=
  api.CallCreate webDeployment JujuFieldManager.

(** The same three servers for cluster roles. *)
Definition emptyRoleServer : api.Interface rbacv1.ClusterRole.t :=
  stubServer adminRoleLive notFoundStatus None notFoundStatus notFoundStatus
    notFoundStatus.

Definition liveRoleServer : api.Interface rbacv1.ClusterRole.t :=
  stubServer adminRoleLive None None None None None.

Definition busyRoleServer : api.Interface rbacv1.ClusterRole.t :=
  stubServer adminRoleLive conflictStatus conflictStatus conflictStatus
    None None.

Definition adminWrapper (c : api.Interface rbacv1.ClusterRole.t)
  : ClusterRole.t :=
  {| client := c; body := adminRole |}.

Definition getAdmin : api.Call rbacv1.ClusterRole.t := api.CallGet "admin".

Definition updateAdmin : api.Call rbacv1.ClusterRole.t :=
  api.CallUpdate adminRole JujuFieldManager.

Definition webPage (name : string) : appsv1.Deployment.t :=
  deploymentBody name "elsewhere" None None 1 1.

Definition fivePages : api.Interface appsv1.Deployment.t :=
  pagedServer (webPage "a") (webPage "b") (webPage "c") (webPage "d")
    (webPage "e").

Definition listed (c : api.Interface appsv1.Deployment.t) (name : string)
  : Deployment.t :=
  {| client := c; body := deploymentBody name "prod" None None 1 1 |}.

Definition secondPageFails : api.Interface appsv1.Deployment.t :=
  failingServer (webPage "a").

Definition emptyWorld {B : Type} : World B :=
  {| env := {| api.calls := []; api.maps := [] |}; bodies := []; objs := [] |}.

(** The world [worldOf liveServer webDeployment] once the wrapper at address
    0 has been cloned: the clone is at address 1. *)
Definition afterClone : World appsv1.Deployment.t :=
  {| env := env (worldOf liveServer webDeployment);
     bodies := bodies (worldOf liveServer webDeployment);
     objs := [webWrapper liveServer; webWrapper liveServer] |}.

(** A deployment under deletion and a daemon set that is not ready. *)
Definition goingDeployment : Deployment.t :=
  {| client := liveServer;
     body := deploymentBody "web" "prod" (Some 1700000000%Z) (Some 0) 3 3 |}.

Definition liveAgent : api.Interface appsv1.DaemonSet.t :=
  constServer agentDaemonSetLive None.

Definition goingRole : ClusterRole.t :=
  {| client := liveRoleServer;
     body := clusterRoleBody "admin" "" (Some 1700000000%Z) None |}.

(** A server that cannot be reached. *)
Definition timeoutStatus : option error :=
  Some (StatusError StatusReasonTimeout 504 "timeout").

Definition downServer : api.Interface appsv1.Deployment.t :=
  stubServer webDeploymentLive timeoutStatus timeoutStatus timeoutStatus
    timeoutStatus timeoutStatus.

(** ** Statuses inside other errors, and statuses without a known reason *)

(** A not-found status inside an error that wraps it. *)
Definition wrappedNotFound : option error :=
  Some (Traced (StatusError StatusReasonNotFound 404 "not found")).

(** A 404 that gives no reason, and a 409 with a reason the library does
    not know. *)
Definition bare404 : option error :=
  Some (StatusError StatusReasonUnknown 404 "404 page not found").

Definition bare409 : option error :=
  Some (StatusError "Contended" 409 "try again").

(** A conflict status inside an annotation. *)
Definition wrappedConflict : option error :=
  Some (Annotated (StatusError StatusReasonConflict 409
                     "the object has been modified")
          "sending %q" ["web"]).

(** A server on which the deployment does not exist and which says so in
    those ways: the patch answers the wrapped status, the get and the
    delete the bare 404. *)
Definition hiddenServer : api.Interface appsv1.Deployment.t :=
  stubServer webDeploymentLive wrappedNotFound None None bare404 bare404.

(** A server on which the patch meets a conflict, reported inside an
    annotation. *)
Definition contendedServer : api.Interface appsv1.Deployment.t :=
  stubServer webDeploymentLive wrappedConflict None None None None.

(** The same for cluster roles: the get answers the wrapped not-found, the
    patch and the update the bare 404. *)
Definition hiddenRoleServer : api.Interface rbacv1.ClusterRole.t :=
  stubServer adminRoleLive bare404 None bare404 wrappedNotFound bare404.

(** A cluster role server on which the update meets a conflict, reported
    inside an annotation. *)
Definition contendedRoleServer : api.Interface rbacv1.ClusterRole.t :=
  stubServer adminRoleLive None None wrappedConflict None None.

Definition patchAdmin : api.Call rbacv1.ClusterRole.t :=
  api.CallPatch "admin" StrategicMergePatchType [] JujuFieldManager.

Definition createAdmin : api.Call rbacv1.ClusterRole.t :=
  api.CallCreate adminRole JujuFieldManager.

(** A server that lists two cluster roles on one page, one of which
    carries a namespace. *)
Definition mixedRoleServer : api.Interface rbacv1.ClusterRole.t :=
  {| api.Create := fun _ obj _ => (obj, None);
     api.Update := fun _ obj _ => (obj, None);
     api.Delete := fun _ _ _ => None;
     api.Get := fun _ _ => (adminRoleLive, None);
     api.List := fun _ _ =>
       ({| api.Items := [adminRoleLive; strayRole]; api.Continue := "" |},
        None);
     api.Patch := fun _ _ _ _ _ => (adminRoleLive, None) |}.

(** ** Further vocabulary *)

(** A delete request. *)
Definition isDelete {B : Type} (c : api.Call B) : bool :=
  match c with
  | api.CallDelete _ _ => true
  | _ => false
  end.

(** A server that cannot be reached, for cluster roles. *)
Definition downRoleServer : api.Interface rbacv1.ClusterRole.t :=
  stubServer adminRoleLive timeoutStatus timeoutStatus timeoutStatus
    timeoutStatus timeoutStatus.

(** What the server holds under the name the caller asks for, when the
    server knows the role under another name. *)
Definition renamedRoleLive : rbacv1.ClusterRole.t :=
  clusterRoleBody "admin-v2" "" None None.

Definition renamingRoleServer : api.Interface rbacv1.ClusterRole.t :=
  stubServer renamedRoleLive None None None None None.

(** Claims that cannot decide. *)
Definition claimBroken (claims : list ClusterRole.Claim) : ClusterRole.Claim :=
  fun _ _ => (false, Some (errorString "no accessor for the object")).

(** Claims that answer with a not-found error of their own. *)
Definition claimLost (verdict : bool) (claims : list ClusterRole.Claim)
  : ClusterRole.Claim :=
  fun _ _ => (verdict, Some (notFound None "label")).

(** A server that hands out a continuation token with every page. *)
Definition endlessServer {B : Type} (a : B) : api.Interface B :=
  {| api.Create := fun _ obj _ => (obj, None);
     api.Update := fun _ obj _ => (obj, None);
     api.Delete := fun _ _ _ => None;
     api.Get := fun _ _ => (a, None);
     api.List := fun _ _ =>
       ({| api.Items := [a]; api.Continue := "more" |}, None);
     api.Patch := fun _ _ _ _ _ => (a, None) |}.

Definition selected : metav1.ListOptions :=
  {| metav1.LabelSelector := "app=web"; metav1.Continue := "" |}.

(** A list request that asks for a further page of what [opts] selects. *)
Definition followsUp {B : Type} (opts : metav1.ListOptions)
    (c : api.Call B) : Prop :=
  exists o,
    c = api.CallList o
    /\ metav1.LabelSelector o = metav1.LabelSelector opts
    /\ metav1.Continue o <> "".

(** What a run of a lister leaves, from world [w] to world [w']: after a
    first list request with the caller's options come the requests [reqs],
    each a follow-up; no map has changed, and the wrappers and bodies that
    were there are there still, before new ones. *)
Definition Leaves {B : Type} (w w' : World B) (opts : metav1.ListOptions)
    (reqs : list (api.Call B)) : Prop :=
  api.calls (env w') = api.calls (env w) ++ api.CallList opts :: reqs
  /\ Forall (followsUp opts) reqs
  /\ api.maps (env w') = api.maps (env w)
  /\ (exists os, objs w' = objs w ++ os)
  /\ (exists bs, bodies w' = bodies w ++ bs).

Section ListerContracts.
Context {B : Type}.

(** The requests of a lister with its client handle fixed.  Served a chain
    of pages, it issues one list request per page and nothing else: the
    first with the options of the caller, each further one with the
    selector of the caller and a continuation token.  When request number
    [n] fails, that request is the last. *)
Definition ListRequests (c : api.Interface B)
    (List : nat -> metav1.ListOptions
            -> M B (option (list (Resource B) * option error))) : Prop :=
  (forall (w : World B) opts pages fuel,
     Serves c (env w) opts pages ->
     length pages <= fuel ->
     exists out w' reqs,
       List fuel opts w = Some (out, w')
       /\ api.calls (env w') = api.calls (env w) ++ api.CallList opts :: reqs
       /\ S (length reqs) = length pages
       /\ Forall (followsUp opts) reqs)
  /\ (forall (w : World B) opts n err fuel,
        FailsAt c (env w) opts n err ->
        n < fuel ->
        exists out w' reqs,
          List fuel opts w = Some (out, w')
          /\ api.calls (env w')
             = api.calls (env w) ++ api.CallList opts :: reqs
          /\ length reqs = n
          /\ Forall (followsUp opts) reqs).

(** What a lister never does, whatever the server answers and however
    many rounds it is given: it does not stop on a bad pointer, it issues
    nothing but list requests, one per round at most, and it writes to no
    map and to no wrapper or body that was there before. *)
Definition ListFrame
    (List : nat -> metav1.ListOptions
            -> M B (option (list (Resource B) * option error))) : Prop :=
  forall fuel opts (w : World B),
  exists out w' reqs,
    List fuel opts w = Some (out, w')
    /\ api.calls (env w') = api.calls (env w) ++ reqs
    /\ length reqs <= fuel
    /\ Forall (fun q => exists o, q = api.CallList o) reqs
    /\ api.maps (env w') = api.maps (env w)
    /\ (exists os, objs w' = objs w ++ os)
    /\ (exists bs, bodies w' = bodies w ++ bs).

(** A lister has no bound of its own on the number of pages: against a
    server that never sends the empty token it uses up every round it is
    given, one list request per round, and has no result. *)
Definition ListEndless (c : api.Interface B)
    (List : nat -> metav1.ListOptions
            -> M B (option (list (Resource B) * option error))) : Prop :=
  (forall e o, exists res,
      api.List c e o = (res, None) /\ api.Continue res <> "") ->
  forall fuel opts (w : World B),
  exists w',
    List fuel opts w = Some (None, w')
    /\ length (api.calls (env w')) = length (api.calls (env w)) + fuel.

End ListerContracts.

(** Cluster roles as a server lists them, on three pages and on one page
    followed by a failure. *)
Definition rolePage (name : string) : rbacv1.ClusterRole.t :=
  clusterRoleBody name "" None None.

Definition rolePages : api.Interface rbacv1.ClusterRole.t :=
  pagedServer (rolePage "a") (rolePage "b") (rolePage "c") (rolePage "d")
    (rolePage "e").

Definition rolesThenFail : api.Interface rbacv1.ClusterRole.t :=
  failingServer (rolePage "a").

(** Daemon sets as a server lists them in the namespace kube-system. *)
Definition agentPage (name : string) : appsv1.DaemonSet.t :=
  daemonSetBody name "kube-system" None None 2 2.

Definition agentPages : api.Interface appsv1.DaemonSet.t :=
  pagedServer (agentPage "a") (agentPage "b") (agentPage "c") (agentPage "d")
    (agentPage "e").

Section ServedContracts.
Context {B : Type}.

(** What a lister returns of the pages it is served: one wrapper per object,
    in the order served, each with the client handle of the lister and with
    the object as [stamp] leaves it. *)
Definition ListsAsServed (c : api.Interface B)
    (List : nat -> metav1.ListOptions
            -> M B (option (list (Resource B) * option error)))
    (stamp : B -> B) : Prop :=
  forall (w : World B) opts pages fuel,
    Serves c (env w) opts pages ->
    length pages <= fuel ->
    exists out w',
      List fuel opts w = Some (Some (out, None), w')
      /\ map body out = map stamp (concat pages)
      /\ Forall (fun r => client r = c) out.

(** Two listers that differ in what they stamp, run from one world: they
    return together, leave the same requests behind, and the result of the
    second is the result of the first passed through [f]. *)
Definition ListsAlike
    (List1 List2 : nat -> metav1.ListOptions
                   -> M B (option (list (Resource B) * option error)))
    (f : Resource B -> Resource B) : Prop :=
  forall fuel opts (w : World B),
  exists out w1 w2,
    List1 fuel opts w = Some (out, w1)
    /\ List2 fuel opts w
       = Some (option_map (fun p => (map f (fst p), snd p)) out, w2)
    /\ env w1 = env w2.

End ServedContracts.

(** The namespace of a wrapper overwritten. *)
Definition inNamespaceDeployment (namespace : string) (d : Deployment.t)
  : Deployment.t :=
  {| client := client d;
     body := appsv1.Deployment.SetNamespace namespace (body d) |}.

Definition inNamespaceDaemonSet (namespace : string) (ds : DaemonSet.t)
  : DaemonSet.t :=
  {| client := client ds;
     body := appsv1.DaemonSet.SetNamespace namespace (body ds) |}.

(** A world with two cluster role wrappers: the one of [worldOf] at address
    0 and a second one at address 1. *)
Definition twoRoles : World rbacv1.ClusterRole.t :=
  {| env := env (worldOf liveRoleServer adminRole);
     bodies := bodies (worldOf liveRoleServer adminRole);
     objs := [ adminWrapper liveRoleServer;
               {| client := liveRoleServer; body := strayRole |} ] |}.

(** * Properties *)

(** ** Running a method

    [run] unfolds the monad one layer at a time and uses what is known
    about the cell the receiver points to and about the answers of the
    server; [branches] also cases on every answer the method tests. *)

Lemma IsNotFound_nil : k8serrors.IsNotFound None = false.
Proof. reflexivity. Qed.

Lemma IsConflict_nil : k8serrors.IsConflict None = false.
Proof. reflexivity. Qed.

(** The two tests look through the errors that wrap a status. *)
Lemma IsNotFound_wrapped (e : error) format args msg :
  k8serrors.IsNotFound (Some (Traced e)) = k8serrors.IsNotFound (Some e)
  /\ k8serrors.IsNotFound (Some (Annotated e format args))
     = k8serrors.IsNotFound (Some e)
  /\ k8serrors.IsNotFound (Some (notFound (Some e) msg))
     = k8serrors.IsNotFound (Some e).
Proof. repeat split. Qed.

Lemma IsConflict_wrapped (e : error) format args msg :
  k8serrors.IsConflict (Some (Traced e)) = k8serrors.IsConflict (Some e)
  /\ k8serrors.IsConflict (Some (Annotated e format args))
     = k8serrors.IsConflict (Some e)
  /\ k8serrors.IsConflict (Some (notFound (Some e) msg))
     = k8serrors.IsConflict (Some e).
Proof. repeat split. Qed.

(** A status of a reason the library does not know counts by its code. *)
Lemma IsNotFound_by_code (reason : StatusReason) (code : Z) msg :
  k8serrors.known reason = false ->
  k8serrors.IsNotFound (Some (StatusError reason code msg))
  = Z.eqb code 404.
Proof.
  intros Hu.
  unfold k8serrors.IsNotFound, k8serrors.reasonAndCodeForError,
    k8serrors.asAPIStatus.
  destruct (String.eqb_spec reason StatusReasonNotFound) as [->|_];
    [discriminate Hu|].
  rewrite Hu. cbn. now destruct (Z.eqb code 404).
Qed.

Ltac run_step :=
  match goal with
  | H : objs ?w !! ?d = Some _ |- context [objs ?w !! ?d] => rewrite H
  | H : ?f = (_, _) |- context [?f] => rewrite H
  | H : ?b = true |- context [?b] => rewrite H
  | H : ?b = false |- context [?b] => rewrite H
  | |- context [k8serrors.IsNotFound None] => rewrite IsNotFound_nil
  | |- context [k8serrors.IsConflict None] => rewrite IsConflict_nil
  end.

Ltac run :=
  rewrite ?IsNotFound_nil, ?IsConflict_nil in *;
  cbn [fst snd env objs bodies client body after withObj errors.Trace
              errors.IsNotFound errors.Cause negb andb] in *;
  repeat first
    [ progress unfold bind, ret, load, setBody, request, observe,
        client.Get, client.Patch, client.Create, client.Update,
        client.Delete, client.List
    | progress cbn [fst snd env objs bodies client body after withObj
              errors.Trace errors.IsNotFound errors.Cause negb andb]
    | run_step ].

(** Case analysis on every answer a method branches on. *)
Ltac branches :=
  repeat (run;
    match goal with
    | |- context [let '(_, _) := ?x in _] => destruct x as [? ?] eqn:?
    | |- context [if ?b then _ else _] => destruct b eqn:?
    | |- context [match ?x with Some _ => _ | None => _ end] =>
        destruct x eqn:?
    end);
  run.

Ltac keeps :=
  eexists _, _; split; [reflexivity|]; intros ?;
  cbn; repeat split; congruence.

(** The two tests of the library exclude each other. *)
Lemma unknown_reason (reason : StatusReason) (known : StatusReason) :
  k8serrors.known reason = false ->
  k8serrors.known known = true ->
  String.eqb reason known = false.
Proof.
  intros Hu Hk. destruct (String.eqb_spec reason known) as [->|]; congruence.
Qed.

Lemma not_found_no_conflict err :
  k8serrors.IsNotFound err = true -> k8serrors.IsConflict err = false.
Proof.
  unfold k8serrors.IsNotFound, k8serrors.IsConflict.
  destruct (k8serrors.reasonAndCodeForError err) as [reason code].
  destruct (String.eqb_spec reason StatusReasonNotFound) as [->|_];
    [reflexivity|].
  destruct (k8serrors.known reason) eqn:Hk; [discriminate|].
  rewrite (unknown_reason reason StatusReasonConflict Hk eq_refl).
  cbn [negb andb].
  destruct (Z.eqb_spec code 404) as [->|]; [reflexivity | discriminate].
Qed.

Lemma conflict_no_not_found err :
  k8serrors.IsConflict err = true -> k8serrors.IsNotFound err = false.
Proof.
  intros Hc. destruct (k8serrors.IsNotFound err) eqn:Hnf; [|reflexivity].
  apply not_found_no_conflict in Hnf. congruence.
Qed.

(** An error that carries an API status is not, underneath, the conflict
    error of the package. *)
Lemma status_cause (e : error) :
  k8serrors.asAPIStatus e <> None -> errors.Cause e <> ConflictSentinel.
Proof.
  induction e; cbn; try congruence; auto.
Qed.

Lemma conflict_cause (e : error) :
  k8serrors.IsConflict (Some e) = true -> errors.Cause e <> ConflictSentinel.
Proof.
  intros Hc. apply status_cause. intros Hnone.
  unfold k8serrors.IsConflict, k8serrors.reasonAndCodeForError in Hc.
  rewrite Hnone in Hc. discriminate Hc.
Qed.

Lemma insert_snoc {A} (l : list A) (x y : A) :
  <[length l := y]> (l ++ [x]) = l ++ [y].
Proof.
  rewrite insert_app_r_alt by lia. now rewrite Nat.sub_diag.
Qed.

Lemma lookup_snoc_new {A} (l : list A) (x : A) :
  (l ++ [x]) !! length l = Some x.
Proof. now apply list_lookup_middle. Qed.

(** ** Get and Delete, kind by kind *)

Ltac get_ok :=
  intros w d self res err Hd Hget w1;
  repeat split;
  [ intros Hnf; run; reflexivity
  | intros e -> Hnf; run; reflexivity
  | intros ->; run; reflexivity ].

Lemma Deployment_Get_ok : GetContract Deployment.Name Deployment.Get.
Proof. unfold Deployment.Get. get_ok. Qed.

Lemma DaemonSet_Get_ok : GetContract DaemonSet.Name DaemonSet.Get.
Proof. unfold DaemonSet.Get. get_ok. Qed.

Lemma ClusterRole_Get_ok : GetContract ClusterRole.Name ClusterRole.Get.
Proof. unfold ClusterRole.Get. get_ok. Qed.

Ltac delete_ok :=
  intros w d self err Hd Hdel w1; subst err;
  split; intros Hnf; run; [split|]; reflexivity.

Lemma Deployment_Delete_ok :
  DeleteContract Deployment.Name "k8s deployment for deletion"
    Deployment.Delete.
Proof. unfold Deployment.Delete. delete_ok. Qed.

Lemma DaemonSet_Delete_ok :
  DeleteContract DaemonSet.Name "k8s daemon set for deletion"
    DaemonSet.Delete.
Proof. unfold DaemonSet.Delete. delete_ok. Qed.

Lemma ClusterRole_Delete_ok :
  DeleteContract ClusterRole.Name "k8s cluster role for deletion"
    ClusterRole.Delete.
Proof. unfold ClusterRole.Delete. delete_ok. Qed.

(** ** Apply, kind by kind *)

(** The tail of [Apply], once the last answer [(res, err)] is known. *)
Ltac apply_facts :=
  eexists _, _; split; [reflexivity|];
  split; [ cbn; rewrite <- ?app_assoc; reflexivity |];
  split; [ split; intros; subst; cbn in *; congruence |];
  intros; subst; cbn in *; try congruence; reflexivity.

Ltac apply_tail err :=
  destruct (k8serrors.IsConflict err) eqn:?;
  [ apply_facts | destruct err; [ apply_facts | run; apply_facts ] ].

Ltac apply_ok :=
  intros Encode w d self data res err Hd Henc patch create Hpatch;
  subst patch create; split;
  [ intros Hnf; run; apply_tail err
  | intros Hnf res' err' Hcreate; run; apply_tail err' ].

Lemma Deployment_Apply_ok : ApplyContract Deployment.Name Deployment.Apply.
Proof. unfold Deployment.Apply. apply_ok. Qed.

Lemma DaemonSet_Apply_ok : ApplyContract DaemonSet.Name DaemonSet.Apply.
Proof. unfold DaemonSet.Apply. apply_ok. Qed.

Lemma ClusterRole_Apply_ok : ApplyContract ClusterRole.Name ClusterRole.Apply.
Proof. unfold ClusterRole.Apply. apply_ok. Qed.

Ltac encode_failure :=
  intros Encode w d self data e Hd Henc; run; reflexivity.

Lemma Deployment_Apply_unencoded :
  EncodeFailureContract Deployment.Apply.
Proof. unfold Deployment.Apply. encode_failure. Qed.

Lemma DaemonSet_Apply_unencoded :
  EncodeFailureContract DaemonSet.Apply.
Proof. unfold DaemonSet.Apply. encode_failure. Qed.

Lemma ClusterRole_Apply_unencoded :
  EncodeFailureContract ClusterRole.Apply.
Proof. unfold ClusterRole.Apply. encode_failure. Qed.

Ltac conflict_ok :=
  intros Encode w d self data res err Hd Henc patch create conflict Hpatch;
  subst patch create conflict; split;
  [ intros Hc; run;
    destruct (k8serrors.IsNotFound err) eqn:Hnf;
    [ apply not_found_no_conflict in Hnf; congruence | run; reflexivity ]
  | intros Hnf res' err' Hcreate Hc; run; reflexivity ].

Lemma Deployment_Apply_conflict :
  ApplyConflictContract Deployment.Name "deployment %q" Deployment.Apply.
Proof. unfold Deployment.Apply. conflict_ok. Qed.

Lemma DaemonSet_Apply_conflict :
  ApplyConflictContract DaemonSet.Name "daemon set %q" DaemonSet.Apply.
Proof. unfold DaemonSet.Apply. conflict_ok. Qed.

Lemma ClusterRole_Apply_conflict :
  ApplyConflictContract ClusterRole.Name "cluster role %q" ClusterRole.Apply.
Proof. unfold ClusterRole.Apply. conflict_ok. Qed.

Lemma Deployment_Apply_keeps Encode :
  FailureKeepsBody (Deployment.Apply Encode).
Proof. unfold Deployment.Apply. intros w d self Hd. branches; keeps. Qed.

Lemma DaemonSet_Apply_keeps Encode :
  FailureKeepsBody (DaemonSet.Apply Encode).
Proof. unfold DaemonSet.Apply. intros w d self Hd. branches; keeps. Qed.

Lemma ClusterRole_Apply_keeps Encode :
  FailureKeepsBody (ClusterRole.Apply Encode).
Proof. unfold ClusterRole.Apply. intros w d self Hd. branches; keeps. Qed.

(** ** Update *)

Lemma ClusterRole_Update_ok : UpdateContract ClusterRole.Update.
Proof. unfold ClusterRole.Update. get_ok. Qed.

Lemma ClusterRole_Update_keeps : FailureKeepsBody ClusterRole.Update.
Proof. unfold ClusterRole.Update. intros w d self Hd. branches; keeps. Qed.

Lemma ClusterRole_Update_conflict : UpdateConflictContract ClusterRole.Update.
Proof.
  intros w r self out e Hr Hupd Hc.
  pose proof (conflict_no_not_found _ Hc) as Hnf.
  split; [| split ].
  - now apply (ClusterRole_Update_ok w r self out (Some e) Hr Hupd).
  - reflexivity.
  - cbn. now apply conflict_cause.
Qed.

(** ** C1: Apply patches, then creates *)

(** C1, as the code has it.  For each kind, [Apply] encodes the body
    first.  If that fails it returns the error traced and issues no request.
    If the body encodes, [Apply] first issues a strategic-merge patch by the
    name of the resource; it issues one create after it, and nothing else,
    exactly when the patch answers not-found; it succeeds exactly when the
    last answer has no error, and then replaces the body of the receiver
    with that answer. *)
Theorem Apply_patches_then_creates :
  (ApplyContract Deployment.Name Deployment.Apply
   /\ EncodeFailureContract Deployment.Apply)
  /\ (ApplyContract DaemonSet.Name DaemonSet.Apply
      /\ EncodeFailureContract DaemonSet.Apply)
  /\ (ApplyContract ClusterRole.Name ClusterRole.Apply
      /\ EncodeFailureContract ClusterRole.Apply).
Proof.
  split; [| split ]; split.
  - exact Deployment_Apply_ok.
  - exact Deployment_Apply_unencoded.
  - exact DaemonSet_Apply_ok.
  - exact DaemonSet_Apply_unencoded.
  - exact ClusterRole_Apply_ok.
  - exact ClusterRole_Apply_unencoded.
Qed.

(** C1 as stated fails: when the encoder fails, [Apply] returns the traced
    encoding error and has issued no request, so no patch. *)
Lemma Apply_without_patch :
  Deployment.Apply brokenEncoder 0 (worldOf liveServer webDeployment)
  = Some (Some (Traced (errorString "json: error calling MarshalJSON")),
          worldOf liveServer webDeployment)
  /\ ~ ApplyAlwaysPatches Deployment.Name Deployment.Apply.
Proof.
  split; [reflexivity|].
  intros H.
  destruct (H brokenEncoder (worldOf liveServer webDeployment) 0 _ eq_refl)
    as (ret & w' & data & rest & Hrun & Hcalls).
  injection Hrun as _ <-. discriminate Hcalls.
Qed.

(** An object that does not exist yet: the patch answers not-found, the
    create succeeds.  An object that exists: the patch succeeds.  A body
    that does not encode. *)
Lemma Apply_patches_then_creates_witness :
  (objs (worldOf emptyServer webDeployment) !! 0
   = Some (webWrapper emptyServer)
   /\ okEncoder (env (worldOf emptyServer webDeployment)) webDeployment
      = ([], None)
   /\ api.Patch emptyServer (env (worldOf emptyServer webDeployment)) "web"
        StrategicMergePatchType [] JujuFieldManager
      = (webDeploymentLive, notFoundStatus)
   /\ k8serrors.IsNotFound notFoundStatus = true
   /\ api.Create emptyServer
        (env (after patchWeb (worldOf emptyServer webDeployment)))
        webDeployment JujuFieldManager
      = (webDeployment, None)
   /\ exists ret w',
        Deployment.Apply okEncoder 0 (worldOf emptyServer webDeployment)
        = Some (ret, w')
        /\ api.calls (env w')
           = api.calls (env (worldOf emptyServer webDeployment))
             ++ [patchWeb; createWeb]
        /\ (ret = None <-> @None error = None)
        /\ (ret = None ->
            objs w'
            = <[0 := {| client := emptyServer; body := webDeployment |}]>
                (objs (worldOf emptyServer webDeployment))))
  /\ (objs (worldOf liveServer webDeployment) !! 0
      = Some (webWrapper liveServer)
      /\ okEncoder (env (worldOf liveServer webDeployment)) webDeployment
         = ([], None)
      /\ api.Patch liveServer (env (worldOf liveServer webDeployment)) "web"
           StrategicMergePatchType [] JujuFieldManager
         = (webDeploymentLive, None)
      /\ k8serrors.IsNotFound None = false
      /\ exists ret w',
           Deployment.Apply okEncoder 0 (worldOf liveServer webDeployment)
           = Some (ret, w')
           /\ api.calls (env w')
              = api.calls (env (worldOf liveServer webDeployment))
                ++ [patchWeb]
           /\ (ret = None <-> @None error = None)
           /\ (ret = None ->
               objs w'
               = <[0 := {| client := liveServer;
                           body := webDeploymentLive |}]>
                   (objs (worldOf liveServer webDeployment))))
  /\ (objs (worldOf liveServer webDeployment) !! 0
      = Some (webWrapper liveServer)
      /\ brokenEncoder (env (worldOf liveServer webDeployment)) webDeployment
         = ([], Some (errorString "json: error calling MarshalJSON"))
      /\ Deployment.Apply brokenEncoder 0 (worldOf liveServer webDeployment)
         = Some (Some (Traced (errorString "json: error calling MarshalJSON")),
                 worldOf liveServer webDeployment))
  /\ (objs (worldOf hiddenServer webDeployment) !! 0
      = Some (webWrapper hiddenServer)
      /\ okEncoder (env (worldOf hiddenServer webDeployment)) webDeployment
         = ([], None)
      /\ api.Patch hiddenServer (env (worldOf hiddenServer webDeployment))
           "web" StrategicMergePatchType [] JujuFieldManager
         = (webDeploymentLive, wrappedNotFound)
      /\ wrappedNotFound
         = Some (Traced (StatusError StatusReasonNotFound 404 "not found"))
      /\ k8serrors.IsNotFound wrappedNotFound = true
      /\ api.Create hiddenServer
           (env (after patchWeb (worldOf hiddenServer webDeployment)))
           webDeployment JujuFieldManager
         = (webDeployment, None)
      /\ exists ret w',
           Deployment.Apply okEncoder 0 (worldOf hiddenServer webDeployment)
           = Some (ret, w')
           /\ api.calls (env w')
              = api.calls (env (worldOf hiddenServer webDeployment))
                ++ [patchWeb; createWeb]
           /\ (ret = None <-> @None error = None)
           /\ (ret = None ->
               objs w'
               = <[0 := {| client := hiddenServer; body := webDeployment |}]>
                   (objs (worldOf hiddenServer webDeployment)))).
Proof.
  destruct Apply_patches_then_creates as ((HA & HE) & _).
  split; [| split; [| split ] ].
  - do 5 (split; [reflexivity|]).
    exact (proj2 (HA okEncoder (worldOf emptyServer webDeployment) 0
                    (webWrapper emptyServer) [] webDeploymentLive
                    notFoundStatus eq_refl eq_refl eq_refl)
             eq_refl webDeployment None eq_refl).
  - do 4 (split; [reflexivity|]).
    exact (proj1 (HA okEncoder (worldOf liveServer webDeployment) 0
                    (webWrapper liveServer) [] webDeploymentLive
                    None eq_refl eq_refl eq_refl)
             eq_refl).
  - do 2 (split; [reflexivity|]).
    exact (HE brokenEncoder (worldOf liveServer webDeployment) 0
             (webWrapper liveServer) [] _ eq_refl eq_refl).
  - do 6 (split; [reflexivity|]).
    exact (proj2 (HA okEncoder (worldOf hiddenServer webDeployment) 0
                    (webWrapper hiddenServer) [] webDeploymentLive
                    wrappedNotFound eq_refl eq_refl eq_refl)
             eq_refl webDeployment None eq_refl).
Defined.

(** ** C2: conflicts and failures *)

(** C2, as the code has it.  For each kind, a conflict reported to [Apply],
    by the patch or by the create, comes back as the package's conflict
    error annotated with the kind and the name.  A conflict reported to
    [Update] comes back as the error of the server, traced: [Update] maps
    not-found only.  Whatever the failure, [Apply] and [Update] leave the
    body of the receiver, and all of memory, as they found them. *)
Theorem conflict_and_failure_keep_body :
  (ApplyConflictContract Deployment.Name "deployment %q" Deployment.Apply
   /\ forall Encode, FailureKeepsBody (Deployment.Apply Encode))
  /\ (ApplyConflictContract DaemonSet.Name "daemon set %q" DaemonSet.Apply
      /\ forall Encode, FailureKeepsBody (DaemonSet.Apply Encode))
  /\ (ApplyConflictContract ClusterRole.Name "cluster role %q"
        ClusterRole.Apply
      /\ forall Encode, FailureKeepsBody (ClusterRole.Apply Encode))
  /\ (UpdateConflictContract ClusterRole.Update
      /\ FailureKeepsBody ClusterRole.Update).
Proof.
  split; [| split; [| split ] ]; split.
  - exact Deployment_Apply_conflict.
  - exact Deployment_Apply_keeps.
  - exact DaemonSet_Apply_conflict.
  - exact DaemonSet_Apply_keeps.
  - exact ClusterRole_Apply_conflict.
  - exact ClusterRole_Apply_keeps.
  - exact ClusterRole_Update_conflict.
  - exact ClusterRole_Update_keeps.
Qed.

(** C2 as stated fails for [Update]: on a conflict it returns the traced
    status error of the server, which is not the package's conflict error
    and names neither the kind nor the role. *)
Lemma Update_conflict_not_annotated :
  ClusterRole.Update 0 (worldOf busyRoleServer adminRole)
  = Some (Some (Traced (StatusError StatusReasonConflict 409
                          "the object has been modified")),
          recorded updateAdmin (worldOf busyRoleServer adminRole))
  /\ ~ UpdateAnnotatesConflict ClusterRole.Update.
Proof.
  split; [reflexivity|].
  intros H.
  destruct (H (worldOf busyRoleServer adminRole) 0 _ adminRoleLive
              conflictStatus eq_refl eq_refl eq_refl)
    as (w' & format & args & Hrun).
  discriminate Hrun.
Qed.

(** A conflict at the patch, as a bare status and inside an annotation; a
    conflict at the update, bare and inside an annotation; a failed
    update. *)
Lemma conflict_and_failure_keep_body_witness :
  (objs (worldOf busyServer webDeployment) !! 0 = Some (webWrapper busyServer)
   /\ okEncoder (env (worldOf busyServer webDeployment)) webDeployment
      = ([], None)
   /\ api.Patch busyServer (env (worldOf busyServer webDeployment)) "web"
        StrategicMergePatchType [] JujuFieldManager
      = (webDeploymentLive, conflictStatus)
   /\ k8serrors.IsConflict conflictStatus = true
   /\ Deployment.Apply okEncoder 0 (worldOf busyServer webDeployment)
      = Some (Some (Annotated ConflictSentinel "deployment %q" ["web"]),
              recorded patchWeb (worldOf busyServer webDeployment)))
  /\ (objs (worldOf contendedServer webDeployment) !! 0
      = Some (webWrapper contendedServer)
      /\ okEncoder (env (worldOf contendedServer webDeployment)) webDeployment
         = ([], None)
      /\ api.Patch contendedServer
           (env (worldOf contendedServer webDeployment)) "web"
           StrategicMergePatchType [] JujuFieldManager
         = (webDeploymentLive, wrappedConflict)
      /\ wrappedConflict
         = Some (Annotated (StatusError StatusReasonConflict 409
                              "the object has been modified")
                   "sending %q" ["web"])
      /\ k8serrors.IsConflict wrappedConflict = true
      /\ Deployment.Apply okEncoder 0 (worldOf contendedServer webDeployment)
         = Some (Some (Annotated ConflictSentinel "deployment %q" ["web"]),
                 recorded patchWeb (worldOf contendedServer webDeployment)))
  /\ (objs (worldOf busyRoleServer adminRole) !! 0
      = Some (adminWrapper busyRoleServer)
      /\ api.Update busyRoleServer (env (worldOf busyRoleServer adminRole))
           adminRole JujuFieldManager
         = (adminRoleLive, conflictStatus)
      /\ k8serrors.IsConflict conflictStatus = true
      /\ ClusterRole.Update 0 (worldOf busyRoleServer adminRole)
         = Some (Some (Traced (StatusError StatusReasonConflict 409
                                 "the object has been modified")),
                 recorded updateAdmin (worldOf busyRoleServer adminRole)))
  /\ (objs (worldOf contendedRoleServer adminRole) !! 0
      = Some (adminWrapper contendedRoleServer)
      /\ api.Update contendedRoleServer
           (env (worldOf contendedRoleServer adminRole))
           adminRole JujuFieldManager
         = (adminRoleLive, wrappedConflict)
      /\ k8serrors.IsConflict wrappedConflict = true
      /\ ClusterRole.Update 0 (worldOf contendedRoleServer adminRole)
         = Some (Some (Traced
                         (Annotated (StatusError StatusReasonConflict 409
                                       "the object has been modified")
                            "sending %q" ["web"])),
                 recorded updateAdmin (worldOf contendedRoleServer adminRole))
      /\ errors.Cause
           (Traced (Annotated (StatusError StatusReasonConflict 409
                                 "the object has been modified")
                      "sending %q" ["web"]))
         = errors.Cause
             (Annotated (StatusError StatusReasonConflict 409
                           "the object has been modified")
                "sending %q" ["web"])
      /\ errors.Cause
           (Traced (Annotated (StatusError StatusReasonConflict 409
                                 "the object has been modified")
                      "sending %q" ["web"]))
         <> ConflictSentinel)
  /\ (objs (worldOf busyRoleServer adminRole) !! 0
      = Some (adminWrapper busyRoleServer)
      /\ exists ret w',
           ClusterRole.Update 0 (worldOf busyRoleServer adminRole)
           = Some (ret, w')
           /\ (ret <> None ->
               objs w' = objs (worldOf busyRoleServer adminRole)
               /\ bodies w' = bodies (worldOf busyRoleServer adminRole)
               /\ api.maps (env w')
                  = api.maps (env (worldOf busyRoleServer adminRole)))).
Proof.
  destruct conflict_and_failure_keep_body
    as ((HA & _) & _ & _ & (HU & HK)).
  split; [| split; [| split; [| split ] ] ].
  - do 4 (split; [reflexivity|]).
    exact (proj1 (HA okEncoder (worldOf busyServer webDeployment) 0
                    (webWrapper busyServer) [] webDeploymentLive
                    conflictStatus eq_refl eq_refl eq_refl) eq_refl).
  - do 5 (split; [reflexivity|]).
    exact (proj1 (HA okEncoder (worldOf contendedServer webDeployment) 0
                    (webWrapper contendedServer) [] webDeploymentLive
                    wrappedConflict eq_refl eq_refl eq_refl) eq_refl).
  - do 3 (split; [reflexivity|]).
    exact (proj1 (HU (worldOf busyRoleServer adminRole) 0
                    (adminWrapper busyRoleServer) adminRoleLive _
                    eq_refl eq_refl eq_refl)).
  - do 3 (split; [reflexivity|]).
    exact (HU (worldOf contendedRoleServer adminRole) 0
             (adminWrapper contendedRoleServer) adminRoleLive _
             eq_refl eq_refl eq_refl).
  - split; [reflexivity|].
    exact (HK (worldOf busyRoleServer adminRole) 0
             (adminWrapper busyRoleServer) eq_refl).
Defined.

(** ** C3 and C4: Ensure *)

(** The first step of [Ensure]: [Get] on the local copy. *)
Lemma Ensure_probe (w : World rbacv1.ClusterRole.t) (self : ClusterRole.t)
    res err :
  api.Get (client self) (env w) (ClusterRole.Name self) = (res, err) ->
  ClusterRole.Get (length (objs w))
    {| env := env w; bodies := bodies w;
       objs := objs w ++ [ {| client := client self; body := body self |} ] |}
  = Some (if k8serrors.IsNotFound err
          then Some (notFound err "k8s")
          else errors.Trace err,
          probed w self
            (match err with None => res | Some _ => body self end)).
Proof.
  intros Hget. unfold ClusterRole.Get, probed, ClusterRole.Name in *.
  run. rewrite lookup_snoc_new. run.
  destruct (k8serrors.IsNotFound err) eqn:Hnf.
  - destruct err; [reflexivity | discriminate].
  - destruct err; cbn; [reflexivity|].
    run. rewrite lookup_snoc_new. unfold withObj. cbn.
    now rewrite insert_snoc.
Qed.

(** The receiver is still where it was once the copy has been made. *)
Lemma probed_receiver w self b (r : ptr) :
  objs w !! r = Some self -> objs (probed w self b) !! r = Some self.
Proof. intros Hr. cbn. now apply lookup_app_l_Some. Qed.

(** [Ensure] after its first step: what it returns is decided by the answer
    to the get and by the claims, in the world the first step leaves. *)
Lemma Ensure_unfold
    (Encode : Encoder) (RunClaims : list ClusterRole.Claim -> ClusterRole.Claim)
    (w : World rbacv1.ClusterRole.t) (r : ptr) (self : ClusterRole.t)
    (claims : list ClusterRole.Claim) (res : rbacv1.ClusterRole.t)
    (err : option error) :
  objs w !! r = Some self ->
  api.Get (client self) (env w) (ClusterRole.Name self) = (res, err) ->
  let b := match err with None => res | Some _ => body self end in
  let w1 := probed w self b in
  let gerr := if k8serrors.IsNotFound err
              then Some (notFound err "k8s") else errors.Trace err in
  let v := match gerr with
           | None => RunClaims claims (env w1) b
           | Some _ => (true, gerr)
           end in
  ClusterRole.Ensure Encode RunClaims r claims w
  = if match snd v with Some _ => true | None => false end
       && negb (errors.IsNotFound (snd v))
    then Some (([], errors.Annotatef (snd v)
                      "checking for existing cluster role %q"
                      [metav1.Name (rbacv1.ClusterRole.ObjectMeta b)]), w1)
    else if negb (fst v)
    then Some (([], Some (alreadyExists
                            "cluster role %q not controlled by juju"
                            [ClusterRole.Name self])), w1)
    else if errors.IsNotFound (snd v)
    then match ClusterRole.Apply Encode r w1 with
         | Some (e, w2) => Some (([ClusterRole.deleteCleanup r], e), w2)
         | None => None
         end
    else match ClusterRole.Update r w1 with
         | Some (e, w2) => Some (([ClusterRole.deleteCleanup r], e), w2)
         | None => None
         end.
Proof.
  intros Hr Hget b w1 gerr v.
  unfold ClusterRole.Ensure. run. unfold new. run.
  rewrite (Ensure_probe w self res err Hget). fold b. fold w1. fold gerr.
  assert (Hex : objs w1 !! length (objs w)
                = Some {| client := client self; body := b |}).
  { subst w1. cbn. apply lookup_snoc_new. }
  assert (Hrr : objs w1 !! r = Some self).
  { subst w1. now apply probed_receiver. }
  subst v. clearbody gerr. clearbody w1.
  assert (Htail : forall (hasClaim : bool) (err2 : option error),
    (if match err2 with Some _ => true | None => false end
        && negb (errors.IsNotFound err2)
     then
       fun w0 : World rbacv1.ClusterRole.t =>
         match match objs w0 !! length (objs w) with
               | Some r0 => Some (r0, w0)
               | None => None
               end
         with
         | Some (a0, w'0) =>
             Some ([] : list ClusterRole.Cleanup,
                   errors.Annotatef err2
                     "checking for existing cluster role %q"
                     [ClusterRole.Name a0], w'0)
         | None => None
         end
     else
       if negb hasClaim
       then
         fun w0 : World rbacv1.ClusterRole.t =>
           match match objs w0 !! r with
                 | Some r0 => Some (r0, w0)
                 | None => None
                 end
           with
           | Some (a0, w'0) =>
               Some ([],
                     errors.AlreadyExistsf
                       "cluster role %q not controlled by juju"
                       [ClusterRole.Name a0], w'0)
           | None => None
           end
       else
         if errors.IsNotFound err2
         then
           fun w0 : World rbacv1.ClusterRole.t =>
             match ClusterRole.Apply Encode r w0 with
             | Some (a0, w'0) =>
                 Some ([] ++ [ClusterRole.deleteCleanup r], a0, w'0)
             | None => None
             end
         else
           fun w0 : World rbacv1.ClusterRole.t =>
             match ClusterRole.Update r w0 with
             | Some (a0, w'0) =>
                 match a0 with
                 | Some _ =>
                     fun w2 : World rbacv1.ClusterRole.t =>
                       Some ([] ++ [ClusterRole.deleteCleanup r], a0, w2)
                 | None =>
                     fun w2 : World rbacv1.ClusterRole.t =>
                       Some ([] ++ [ClusterRole.deleteCleanup r], None, w2)
                 end w'0
             | None => None
             end) w1
    = (if match err2 with Some _ => true | None => false end
          && negb (errors.IsNotFound err2)
       then Some (([], errors.Annotatef err2
                         "checking for existing cluster role %q"
                         [metav1.Name (rbacv1.ClusterRole.ObjectMeta b)]), w1)
       else if negb hasClaim
       then Some (([], Some (alreadyExists
                               "cluster role %q not controlled by juju"
                               [ClusterRole.Name self])), w1)
       else if errors.IsNotFound err2
       then match ClusterRole.Apply Encode r w1 with
            | Some (e, w2) => Some (([ClusterRole.deleteCleanup r], e), w2)
            | None => None
            end
       else match ClusterRole.Update r w1 with
            | Some (e, w2) => Some (([ClusterRole.deleteCleanup r], e), w2)
            | None => None
            end)).
  { intros hasClaim err2.
    destruct (match err2 with Some _ => true | None => false end
              && negb (errors.IsNotFound err2)) eqn:Hstop.
    { rewrite Hex. reflexivity. }
    destruct hasClaim; cbn [negb]; [| rewrite Hrr; reflexivity ].
    destruct (errors.IsNotFound err2) eqn:Hnf.
    - destruct (ClusterRole.Apply Encode r w1) as [[? ?]|]; reflexivity.
    - destruct (ClusterRole.Update r w1) as [[[?|] ?]|]; reflexivity. }
  destruct gerr as [ge|]; cbn [fst snd].
  - exact (Htail true (Some ge)).
  - rewrite Hex. cbn [body].
    destruct (RunClaims claims (env w1) b) as [hasClaim err2]; cbn [fst snd].
    exact (Htail hasClaim err2).
Qed.

(** The world the first step of [Ensure] leaves has the get on record and
    nothing else new. *)
Lemma probed_calls w self b :
  api.calls (env (probed w self b))
  = api.calls (env w) ++ [api.CallGet (ClusterRole.Name self)].
Proof. reflexivity. Qed.

(** C3. [Ensure] on a cluster role that exists at the server ([Get]
    succeeds) and whose claims are not satisfied (the claims answer false,
    without error): it returns the already-exists error naming the role and
    an empty cleanup list; the get is the only request it has issued, so no
    create, update, patch or delete; the receiver is as it was. *)
Theorem Ensure_claims_not_satisfied
    (Encode : Encoder) (RunClaims : list ClusterRole.Claim -> ClusterRole.Claim)
    (w : World rbacv1.ClusterRole.t) (r : ptr) (self : ClusterRole.t)
    (claims : list ClusterRole.Claim) (res : rbacv1.ClusterRole.t) :
  objs w !! r = Some self ->
  api.Get (client self) (env w) (ClusterRole.Name self) = (res, None) ->
  RunClaims claims
    (api.record (api.CallGet (ClusterRole.Name self)) (env w)) res
  = (false, None) ->
  exists w',
    ClusterRole.Ensure Encode RunClaims r claims w
    = Some (([], Some (alreadyExists "cluster role %q not controlled by juju"
                         [ClusterRole.Name self])), w')
    /\ api.calls (env w')
       = api.calls (env w) ++ [api.CallGet (ClusterRole.Name self)]
    /\ api.mutating (api.CallGet (B := rbacv1.ClusterRole.t)
                       (ClusterRole.Name self)) = false
    /\ objs w' !! r = Some self
    /\ bodies w' = bodies w.
Proof.
  intros Hr Hget Hclaims. exists (probed w self res).
  split; [| repeat split; auto using probed_receiver ].
  unfold ClusterRole.Ensure. run. unfold new. run.
  rewrite (Ensure_probe w self res None Hget). unfold probed. run.
  rewrite lookup_snoc_new. run.
  rewrite (lookup_app_l_Some _ _ _ _ Hr). reflexivity.
Qed.

Lemma Ensure_claims_not_satisfied_witness :
  objs (worldOf liveRoleServer adminRole) !! 0
  = Some (adminWrapper liveRoleServer)
  /\ api.Get liveRoleServer (env (worldOf liveRoleServer adminRole)) "admin"
     = (adminRoleLive, None)
  /\ denyAll [] (api.record getAdmin (env (worldOf liveRoleServer adminRole)))
       adminRoleLive
     = (false, None)
  /\ exists w',
       ClusterRole.Ensure okEncoder denyAll 0 []
         (worldOf liveRoleServer adminRole)
       = Some (([], Some (alreadyExists
                            "cluster role %q not controlled by juju"
                            ["admin"])), w')
       /\ api.calls (env w')
          = api.calls (env (worldOf liveRoleServer adminRole)) ++ [getAdmin]
       /\ api.mutating getAdmin = false
       /\ objs w' !! 0 = Some (adminWrapper liveRoleServer)
       /\ bodies w' = bodies (worldOf liveRoleServer adminRole).
Proof.
  do 3 (split; [reflexivity|]).
  exact (Ensure_claims_not_satisfied okEncoder denyAll
           (worldOf liveRoleServer adminRole) 0
           (adminWrapper liveRoleServer) [] adminRoleLive
           eq_refl eq_refl eq_refl).
Defined.

(** What the rollback closure does when it is run: one delete request by
    the name the receiver has at that time; the outcome is dropped. *)
Lemma deleteCleanup_run (r : ptr) (w : World rbacv1.ClusterRole.t)
    (self : ClusterRole.t) :
  objs w !! r = Some self ->
  ClusterRole.deleteCleanup r w
  = Some (tt, after (api.CallDelete (ClusterRole.Name self)
                       DefaultPropagationPolicy) w).
Proof.
  intros Hr. unfold ClusterRole.deleteCleanup, ClusterRole.Delete.
  branches; reflexivity.
Qed.

(** C4. [Ensure] once it has decided to proceed, request by request.  If
    [Get] on the copy said not-found, [Ensure] runs [Apply] on the
    receiver: after the get comes a patch by name, and one create after it
    exactly when the patch answers not-found; when the body does not encode
    the get stays the only request.  If the object was found and the claims
    passed, it runs [Update]: after the get comes one update with the body
    of the receiver and nothing else, also when the answer is not-found, so
    never a create.  In every case the cleanup list that comes back holds
    the delete closure, whatever the mutating call returned; run later, the
    closure issues one delete by the name the receiver has then. *)
Theorem Ensure_proceeds
    (Encode : Encoder) (RunClaims : list ClusterRole.Claim -> ClusterRole.Claim)
    (w : World rbacv1.ClusterRole.t) (r : ptr) (self : ClusterRole.t)
    (claims : list ClusterRole.Claim) (res : rbacv1.ClusterRole.t)
    (err : option error) :
  objs w !! r = Some self ->
  api.Get (client self) (env w) (ClusterRole.Name self) = (res, err) ->
  let get := api.CallGet (ClusterRole.Name self) in
  let update := api.CallUpdate (body self) JujuFieldManager in
  let create := api.CallCreate (body self) JujuFieldManager in
  let seen := api.record get (env w) in
  let cleanups := [ClusterRole.deleteCleanup r] in
  (k8serrors.IsNotFound err = true ->
     (forall data e,
        Encode seen (body self) = (data, Some e) ->
        exists w',
          ClusterRole.Ensure Encode RunClaims r claims w
          = Some ((cleanups, Some (Traced e)), w')
          /\ api.calls (env w') = api.calls (env w) ++ [get]
          /\ objs w' !! r = Some self)
     /\ (forall data pres perr,
           Encode seen (body self) = (data, None) ->
           let patch := api.CallPatch (ClusterRole.Name self)
                          StrategicMergePatchType data JujuFieldManager in
           api.Patch (client self) seen (ClusterRole.Name self)
             StrategicMergePatchType data JujuFieldManager = (pres, perr) ->
           (k8serrors.IsNotFound perr = false ->
              exists ret w',
                ClusterRole.Ensure Encode RunClaims r claims w
                = Some ((cleanups, ret), w')
                /\ api.calls (env w') = api.calls (env w) ++ [get; patch]
                /\ (ret = None <-> perr = None)
                /\ (ret = None ->
                    objs w' !! r
                    = Some {| client := client self; body := pres |})
                /\ (ret <> None -> objs w' !! r = Some self))
           /\ (k8serrors.IsNotFound perr = true ->
               forall cres cerr,
                 api.Create (client self) (api.record patch seen) (body self)
                   JujuFieldManager = (cres, cerr) ->
                 exists ret w',
                   ClusterRole.Ensure Encode RunClaims r claims w
                   = Some ((cleanups, ret), w')
                   /\ api.calls (env w')
                      = api.calls (env w) ++ [get; patch; create]
                   /\ (ret = None <-> cerr = None)
                   /\ (ret = None ->
                       objs w' !! r
                       = Some {| client := client self; body := cres |})
                   /\ (ret <> None -> objs w' !! r = Some self))))
  /\ (err = None ->
      RunClaims claims seen res = (true, None) ->
      forall out uerr,
        api.Update (client self) seen (body self) JujuFieldManager
        = (out, uerr) ->
        exists ret w',
          ClusterRole.Ensure Encode RunClaims r claims w
          = Some ((cleanups, ret), w')
          /\ api.calls (env w') = api.calls (env w) ++ [get; update]
          /\ (k8serrors.IsNotFound uerr = true ->
              ret = Some (notFound uerr "updating cluster role"))
          /\ (forall e, uerr = Some e -> k8serrors.IsNotFound uerr = false ->
              ret = Some (Traced e))
          /\ (uerr = None ->
              ret = None
              /\ objs w' !! r = Some {| client := client self; body := out |})
          /\ (ret <> None -> objs w' !! r = Some self))
  /\ UpdateContract ClusterRole.Update
  /\ (forall w0 self0,
        objs w0 !! r = Some self0 ->
        ClusterRole.deleteCleanup r w0
        = Some (tt, recorded (api.CallDelete (ClusterRole.Name self0)
                                DefaultPropagationPolicy) w0)).
Proof.
  intros Hr Hget get update create seen cleanups.
  pose proof (lookup_lt_Some _ _ _ Hr) as Hlt.
  assert (Hin : forall b x, <[r := x]> (objs (probed w self b)) !! r = Some x).
  { intros b x. apply list_lookup_insert_eq. cbn. rewrite length_app. lia. }
  split; [| split; [| split; [ apply ClusterRole_Update_ok
                             | intros; now apply deleteCleanup_run ] ] ].
  - intros Hnf.
    destruct err as [e0|]; [| rewrite IsNotFound_nil in Hnf; discriminate ].
    pose proof (probed_receiver w self (body self) r Hr) as Hrr.
    pose proof (Ensure_unfold Encode RunClaims w r self claims res (Some e0)
                  Hr Hget) as Hrun.
    rewrite Hnf in Hrun.
    cbn [fst snd andb negb errors.IsNotFound errors.Cause] in Hrun.
    split.
    + intros data e Henc.
      rewrite Hrun,
        (ClusterRole_Apply_unencoded Encode (probed w self (body self)) r self
           data e Hrr Henc).
      eexists. split; [reflexivity|]. split; [reflexivity | exact Hrr].
    + intros data pres perr Henc patch Hpatch.
      destruct (ClusterRole_Apply_ok Encode (probed w self (body self)) r self
                  data pres perr Hrr Henc Hpatch) as (Hone & Htwo).
      destruct (ClusterRole_Apply_keeps Encode (probed w self (body self)) r
                  self Hrr) as (ret0 & w0 & Hrun0 & Hkeep).
      split.
      * intros Hpnf.
        destruct (Hone Hpnf) as (ret & w' & Happly & Hcalls & Hret & Hobjs).
        rewrite Hrun, Happly. exists ret, w'.
        split; [reflexivity|]. split; [| split; [exact Hret | split ] ].
        -- rewrite Hcalls. cbn. now rewrite <- app_assoc.
        -- intros Hnone. rewrite (Hobjs Hnone). apply Hin.
        -- intros Hsome. rewrite Happly in Hrun0. injection Hrun0 as <- <-.
           destruct (Hkeep Hsome) as (-> & _). exact Hrr.
      * intros Hpnf cres cerr Hcreate.
        destruct (Htwo Hpnf cres cerr Hcreate)
          as (ret & w' & Happly & Hcalls & Hret & Hobjs).
        rewrite Hrun, Happly. exists ret, w'.
        split; [reflexivity|]. split; [| split; [exact Hret | split ] ].
        -- rewrite Hcalls. cbn. now rewrite <- app_assoc.
        -- intros Hnone. rewrite (Hobjs Hnone). apply Hin.
        -- intros Hsome. rewrite Happly in Hrun0. injection Hrun0 as <- <-.
           destruct (Hkeep Hsome) as (-> & _). exact Hrr.
  - intros -> Hclaims out uerr Hupd.
    pose proof (probed_receiver w self res r Hr) as Hrr.
    pose proof (Ensure_unfold Encode RunClaims w r self claims res None
                  Hr Hget) as Hrun.
    rewrite IsNotFound_nil in Hrun. cbn [errors.Trace] in Hrun.
    change (env (probed w self res)) with seen in Hrun.
    rewrite Hclaims in Hrun.
    cbn [fst snd andb negb errors.IsNotFound] in Hrun.
    destruct (ClusterRole_Update_ok (probed w self res) r self out uerr
                Hrr Hupd) as (Hmiss & Hfail & Hdone).
    destruct (k8serrors.IsNotFound uerr) eqn:Hunf.
    + rewrite Hrun, (Hmiss eq_refl). eexists _, _.
      split; [reflexivity|].
      split; [cbn; now rewrite <- app_assoc|].
      split; [reflexivity|].
      split; [discriminate|].
      split; [| intros _; exact Hrr ].
      intros ->. rewrite IsNotFound_nil in Hunf. discriminate.
    + destruct uerr as [e|].
      * rewrite Hrun, (Hfail e eq_refl eq_refl). eexists _, _.
        split; [reflexivity|].
        split; [cbn; now rewrite <- app_assoc|].
        split; [discriminate|].
        split; [now intros ? [= ->]|].
        split; [discriminate | intros _; exact Hrr ].
      * rewrite Hrun, (Hdone eq_refl). eexists _, _.
        split; [reflexivity|].
        split; [cbn; now rewrite <- app_assoc|].
        split; [discriminate|].
        split; [discriminate|].
        split; [| congruence ].
        intros _. split; [reflexivity | apply Hin].
Qed.

(** A role that does not exist, a server that says so inside a wrapping
    error, and a role that exists. *)
Lemma Ensure_proceeds_witness :
  (objs (worldOf emptyRoleServer adminRole) !! 0
   = Some (adminWrapper emptyRoleServer)
   /\ api.Get emptyRoleServer (env (worldOf emptyRoleServer adminRole)) "admin"
      = (adminRoleLive, notFoundStatus)
   /\ k8serrors.IsNotFound notFoundStatus = true
   /\ okEncoder
        (api.record getAdmin (env (worldOf emptyRoleServer adminRole)))
        adminRole
      = ([], None)
   /\ api.Patch emptyRoleServer
        (api.record getAdmin (env (worldOf emptyRoleServer adminRole)))
        "admin" StrategicMergePatchType [] JujuFieldManager
      = (adminRoleLive, notFoundStatus)
   /\ api.Create emptyRoleServer
        (api.record patchAdmin
           (api.record getAdmin (env (worldOf emptyRoleServer adminRole))))
        adminRole JujuFieldManager
      = (adminRole, None)
   /\ exists ret w',
        ClusterRole.Ensure okEncoder allowAll 0 []
          (worldOf emptyRoleServer adminRole)
        = Some (([ClusterRole.deleteCleanup 0], ret), w')
        /\ api.calls (env w')
           = api.calls (env (worldOf emptyRoleServer adminRole))
             ++ [getAdmin; patchAdmin; createAdmin]
        /\ (ret = None <-> @None error = None)
        /\ (ret = None ->
            objs w' !! 0
            = Some {| client := emptyRoleServer; body := adminRole |})
        /\ (ret <> None -> objs w' !! 0 = Some (adminWrapper emptyRoleServer)))
  /\ (objs (worldOf hiddenRoleServer adminRole) !! 0
      = Some (adminWrapper hiddenRoleServer)
      /\ api.Get hiddenRoleServer (env (worldOf hiddenRoleServer adminRole))
           "admin"
         = (adminRoleLive, wrappedNotFound)
      /\ k8serrors.IsNotFound wrappedNotFound = true
      /\ okEncoder
           (api.record getAdmin (env (worldOf hiddenRoleServer adminRole)))
           adminRole
         = ([], None)
      /\ api.Patch hiddenRoleServer
           (api.record getAdmin (env (worldOf hiddenRoleServer adminRole)))
           "admin" StrategicMergePatchType [] JujuFieldManager
         = (adminRoleLive, bare404)
      /\ k8serrors.IsNotFound bare404 = true
      /\ api.Create hiddenRoleServer
           (api.record patchAdmin
              (api.record getAdmin (env (worldOf hiddenRoleServer adminRole))))
           adminRole JujuFieldManager
         = (adminRole, None)
      /\ exists ret w',
           ClusterRole.Ensure okEncoder allowAll 0 []
             (worldOf hiddenRoleServer adminRole)
           = Some (([ClusterRole.deleteCleanup 0], ret), w')
           /\ api.calls (env w')
              = api.calls (env (worldOf hiddenRoleServer adminRole))
                ++ [getAdmin; patchAdmin; createAdmin]
           /\ (ret = None <-> @None error = None)
           /\ (ret = None ->
               objs w' !! 0
               = Some {| client := hiddenRoleServer; body := adminRole |})
           /\ (ret <> None ->
               objs w' !! 0 = Some (adminWrapper hiddenRoleServer)))
  /\ (objs (worldOf liveRoleServer adminRole) !! 0
      = Some (adminWrapper liveRoleServer)
      /\ api.Get liveRoleServer (env (worldOf liveRoleServer adminRole))
           "admin"
         = (adminRoleLive, None)
      /\ allowAll []
           (api.record getAdmin (env (worldOf liveRoleServer adminRole)))
           adminRoleLive
         = (true, None)
      /\ api.Update liveRoleServer
           (api.record getAdmin (env (worldOf liveRoleServer adminRole)))
           adminRole JujuFieldManager
         = (adminRoleLive, None)
      /\ exists ret w',
           ClusterRole.Ensure okEncoder allowAll 0 []
             (worldOf liveRoleServer adminRole)
           = Some (([ClusterRole.deleteCleanup 0], ret), w')
           /\ api.calls (env w')
              = api.calls (env (worldOf liveRoleServer adminRole))
                ++ [getAdmin; updateAdmin]
           /\ (k8serrors.IsNotFound None = true ->
               ret = Some (notFound None "updating cluster role"))
           /\ (forall e, None = Some e -> k8serrors.IsNotFound None = false ->
               ret = Some (Traced e))
           /\ (@None error = None ->
               ret = None
               /\ objs w' !! 0
                  = Some {| client := liveRoleServer; body := adminRoleLive |})
           /\ (ret <> None ->
               objs w' !! 0 = Some (adminWrapper liveRoleServer))).
Proof.
  split; [| split ].
  - do 6 (split; [reflexivity|]).
    exact (proj2 (proj2 (proj1 (Ensure_proceeds okEncoder allowAll
                                  (worldOf emptyRoleServer adminRole) 0
                                  (adminWrapper emptyRoleServer) []
                                  adminRoleLive notFoundStatus
                                  eq_refl eq_refl) eq_refl)
                    [] adminRoleLive notFoundStatus eq_refl eq_refl)
             eq_refl adminRole None eq_refl).
  - do 7 (split; [reflexivity|]).
    exact (proj2 (proj2 (proj1 (Ensure_proceeds okEncoder allowAll
                                  (worldOf hiddenRoleServer adminRole) 0
                                  (adminWrapper hiddenRoleServer) []
                                  adminRoleLive wrappedNotFound
                                  eq_refl eq_refl) eq_refl)
                    [] adminRoleLive bare404 eq_refl eq_refl)
             eq_refl adminRole None eq_refl).
  - do 4 (split; [reflexivity|]).
    exact (proj1 (proj2 (Ensure_proceeds okEncoder allowAll
                           (worldOf liveRoleServer adminRole) 0
                           (adminWrapper liveRoleServer) [] adminRoleLive
                           None eq_refl eq_refl))
             eq_refl eq_refl adminRoleLive None eq_refl).
Defined.

(** ** Constructors, kind by kind *)

Ltac new_nil :=
  intros; unfold newBody, loadBody, storeBody, new;
  cbn [bind ret env bodies objs];
  unfold bind, ret; cbn [env bodies objs];
  repeat (rewrite ?lookup_snoc_new, ?insert_snoc; cbn [env bodies objs]);
  reflexivity.

Ltac new_some H :=
  intros; unfold newBody, loadBody, storeBody, new;
  unfold bind, ret; cbn [env bodies objs];
  pose proof (lookup_lt_Some _ _ _ H);
  repeat (rewrite ?H, ?list_lookup_insert_eq, ?list_insert_insert_eq
            by (rewrite ?length_insert; assumption);
          cbn [env bodies objs]);
  reflexivity.

Lemma NewDeployment_nil c namespace name (w : World appsv1.Deployment.t) :
  let b := appsv1.Deployment.SetNamespace namespace
             (appsv1.Deployment.SetName name appsv1.Deployment.zero) in
  NewDeployment c namespace name None w
  = Some (length (objs w),
          {| env := env w; bodies := bodies w ++ [b];
             objs := objs w ++ [ {| client := c; body := b |} ] |}).
Proof. unfold NewDeployment. new_nil. Qed.

Lemma NewDeployment_some c namespace name (w : World appsv1.Deployment.t)
    (i : ptr) (b0 : appsv1.Deployment.t) :
  bodies w !! i = Some b0 ->
  let b := appsv1.Deployment.SetNamespace namespace
             (appsv1.Deployment.SetName name b0) in
  NewDeployment c namespace name (Some i) w
  = Some (length (objs w),
          {| env := env w; bodies := <[i := b]> (bodies w);
             objs := objs w ++ [ {| client := c; body := b |} ] |}).
Proof. intros H. unfold NewDeployment. new_some H. Qed.

Lemma NewDaemonSet_nil c namespace name (w : World appsv1.DaemonSet.t) :
  let b := appsv1.DaemonSet.SetNamespace namespace
             (appsv1.DaemonSet.SetName name appsv1.DaemonSet.zero) in
  NewDaemonSet c namespace name None w
  = Some (length (objs w),
          {| env := env w; bodies := bodies w ++ [b];
             objs := objs w ++ [ {| client := c; body := b |} ] |}).
Proof. unfold NewDaemonSet. new_nil. Qed.

Lemma NewDaemonSet_some c namespace name (w : World appsv1.DaemonSet.t)
    (i : ptr) (b0 : appsv1.DaemonSet.t) :
  bodies w !! i = Some b0 ->
  let b := appsv1.DaemonSet.SetNamespace namespace
             (appsv1.DaemonSet.SetName name b0) in
  NewDaemonSet c namespace name (Some i) w
  = Some (length (objs w),
          {| env := env w; bodies := <[i := b]> (bodies w);
             objs := objs w ++ [ {| client := c; body := b |} ] |}).
Proof. intros H. unfold NewDaemonSet. new_some H. Qed.

Lemma NewClusterRole_nil c name (w : World rbacv1.ClusterRole.t) :
  let b := rbacv1.ClusterRole.SetName name rbacv1.ClusterRole.zero in
  NewClusterRole c name None w
  = Some (length (objs w),
          {| env := env w; bodies := bodies w ++ [b];
             objs := objs w ++ [ {| client := c; body := b |} ] |}).
Proof. unfold NewClusterRole. new_nil. Qed.

Lemma NewClusterRole_some c name (w : World rbacv1.ClusterRole.t)
    (i : ptr) (b0 : rbacv1.ClusterRole.t) :
  bodies w !! i = Some b0 ->
  let b := rbacv1.ClusterRole.SetName name b0 in
  NewClusterRole c name (Some i) w
  = Some (length (objs w),
          {| env := env w; bodies := <[i := b]> (bodies w);
             objs := objs w ++ [ {| client := c; body := b |} ] |}).
Proof. intros H. unfold NewClusterRole. new_some H. Qed.

(** ** C5: listing *)

(** One round of the inner loop: the item gets a cell, the constructor
    stamps it there, and the wrapper it returns is read back. *)
Ltac range_step New_some IH :=
  unfold bind, newBody; cbn [env bodies objs];
  erewrite New_some by apply lookup_snoc_new;
  unfold load; cbn [env bodies objs];
  rewrite lookup_snoc_new;
  let w' := fresh "w'" in
  let Hrun := fresh "Hrun" in
  let Henv := fresh "Henv" in
  match goal with
  | |- exists _, ?f ?acc ?w1 = _ /\ _ =>
      destruct (IH acc w1) as (w' & Hrun & Henv)
  end;
  exists w'; split;
  [ rewrite Hrun, <- app_assoc; reflexivity | exact Henv ].

Lemma rangeDeployments_run c namespace resItems :
  forall items (w : World appsv1.Deployment.t),
  exists w',
    rangeDeployments c namespace resItems items w
    = Some (items
            ++ map (fun item =>
                      {| client := c;
                         body := appsv1.Deployment.SetNamespace namespace
                                   (appsv1.Deployment.SetName
                                      (metav1.Name
                                         (appsv1.Deployment.ObjectMeta item))
                                      item) |}) resItems, w')
    /\ env w' = env w.
Proof.
  induction resItems as [|item rest IH]; intros items w.
  - exists w. cbn. rewrite app_nil_r. split; reflexivity.
  - cbn [rangeDeployments map].
    range_step NewDeployment_some IH.
Qed.

Lemma rangeDaemonSets_run c namespace resItems :
  forall items (w : World appsv1.DaemonSet.t),
  exists w',
    rangeDaemonSets c namespace resItems items w
    = Some (items
            ++ map (fun item =>
                      {| client := c;
                         body := appsv1.DaemonSet.SetNamespace namespace
                                   (appsv1.DaemonSet.SetName
                                      (metav1.Name
                                         (appsv1.DaemonSet.ObjectMeta item))
                                      item) |}) resItems, w')
    /\ env w' = env w.
Proof.
  induction resItems as [|item rest IH]; intros items w.
  - exists w. cbn. rewrite app_nil_r. split; reflexivity.
  - cbn [rangeDaemonSets map].
    range_step NewDaemonSet_some IH.
Qed.

Lemma rangeClusterRoles_run c resItems :
  forall items (w : World rbacv1.ClusterRole.t),
  exists w',
    rangeClusterRoles c resItems items w
    = Some (items
            ++ map (fun item =>
                      {| client := c;
                         body := rbacv1.ClusterRole.SetName
                                   (metav1.Name
                                      (rbacv1.ClusterRole.ObjectMeta item))
                                   item |}) resItems, w')
    /\ env w' = env w.
Proof.
  induction resItems as [|item rest IH]; intros items w.
  - exists w. cbn. rewrite app_nil_r. split; reflexivity.
  - cbn [rangeClusterRoles map].
    range_step NewClusterRole_some IH.
Qed.

(** The outer loop, for any kind: [range] and [loop] are the two loops of a
    lister, known by what a round of each does. *)
Section Loop.

Context {B : Type}.

Variable c : api.Interface B.

Variable wrap : B -> Resource B.

Variable range : list B -> list (Resource B) -> M B (list (Resource B)).

Variable loop :
  nat -> metav1.ListOptions -> list (Resource B)
  -> M B (option (list (Resource B) * option error)).

Hypothesis range_run :
  forall resItems items (w : World B),
  exists w',
    range resItems items w = Some (items ++ map wrap resItems, w')
    /\ env w' = env w.

Hypothesis loop_round :
  forall fuel opts items,
    loop (S fuel) opts items
    = (r <- client.List c opts ;;
       let '(res, err) := r in
       match err with
       | Some _ => ret (Some ([], errors.Trace err))
       | None =>
           items <- range (api.Items res) items ;;
           if String.eqb (api.Continue res) ""
           then ret (Some (items, None))
           else loop fuel (metav1.SetContinue (api.Continue res) opts) items
       end).

Lemma loop_serves e opts pages :
  Serves c e opts pages ->
  forall fuel items (w : World B),
    env w = e ->
    length pages <= fuel ->
    exists w',
      loop fuel opts items w
      = Some (Some (items ++ map wrap (concat pages), None), w').
Proof.
  induction 1 as [e opts its Hlist | e opts its token pages Hlist Htok _ IH];
    intros fuel items w He Hfuel;
    (destruct fuel as [|fuel]; [cbn in Hfuel; lia|]);
    rewrite loop_round; unfold bind, client.List, request;
    cbn [env after]; rewrite He, Hlist; cbn [api.Items api.Continue];
    destruct (range_run its items (after (api.CallList opts) w))
      as (w1 & -> & Henv).
  - exists w1. cbn. now rewrite app_nil_r.
  - apply String.eqb_neq in Htok. rewrite Htok.
    destruct (IH fuel (items ++ map wrap its) w1) as (w' & ->).
    + rewrite Henv. cbn. now rewrite He.
    + cbn in Hfuel. lia.
    + exists w'. cbn [concat]. now rewrite map_app, app_assoc.
Qed.

Lemma loop_fails e opts n err :
  FailsAt c e opts n err ->
  forall fuel items (w : World B),
    env w = e ->
    n < fuel ->
    exists w', loop fuel opts items w = Some (Some ([], Some (Traced err)), w').
Proof.
  induction 1 as [e opts res err Hlist
                 | e opts its token n err Hlist Htok _ IH];
    intros fuel items w He Hfuel;
    (destruct fuel as [|fuel]; [lia|]);
    rewrite loop_round; unfold bind, client.List, request;
    cbn [env after]; rewrite He, Hlist; cbn [api.Items api.Continue].
  - eexists. reflexivity.
  - destruct (range_run its items (after (api.CallList opts) w))
      as (w1 & -> & Henv).
    apply String.eqb_neq in Htok. rewrite Htok.
    destruct (IH fuel (items ++ map wrap its) w1) as (w' & ->).
    + rewrite Henv. cbn. now rewrite He.
    + lia.
    + exists w'. reflexivity.
Qed.

End Loop.

(** Stamping an object with the name it has changes nothing. *)
Lemma Deployment_SetName_own (item : appsv1.Deployment.t) :
  appsv1.Deployment.SetName (metav1.Name (appsv1.Deployment.ObjectMeta item))
    item = item.
Proof. destruct item as [[] ? ?]. reflexivity. Qed.

Lemma DaemonSet_SetName_own (item : appsv1.DaemonSet.t) :
  appsv1.DaemonSet.SetName (metav1.Name (appsv1.DaemonSet.ObjectMeta item))
    item = item.
Proof. destruct item as [[] ? ?]. reflexivity. Qed.

Lemma ClusterRole_SetName_own (item : rbacv1.ClusterRole.t) :
  rbacv1.ClusterRole.SetName (metav1.Name (rbacv1.ClusterRole.ObjectMeta item))
    item = item.
Proof. destruct item as [[] ?]. reflexivity. Qed.

Lemma Forall_wrapped {A B} (f : A -> B) (P : B -> Prop) (l : list A) :
  (forall x, P (f x)) -> Forall P (map f l).
Proof. intros H. induction l; constructor; auto. Qed.

(** C5, as the code has it.  Each lister, served a chain of pages that ends
    with an empty continuation token, returns the items of all pages in page
    order, each behind the client handle it was given.  [ListDeployments]
    and [ListDaemonSets] write the namespace they were given on every item,
    over the one it was served with, and change nothing else.
    [ListClusterRoles] takes no namespace and returns every item as served,
    with the namespace it came with.  If the request for some page fails,
    the lister returns that error, traced, and no item. *)
Theorem listers_follow_pages :
  (forall c namespace,
     ListContract c (fun fuel => ListDeployments fuel c namespace)
       (listedDeployment c namespace)
     /\ ListsInNamespace c (fun fuel => ListDeployments fuel c namespace)
          Deployment.Namespace namespace)
  /\ (forall c namespace,
        ListContract c (fun fuel => ListDaemonSets fuel c namespace)
          (listedDaemonSet c namespace)
        /\ ListsInNamespace c (fun fuel => ListDaemonSets fuel c namespace)
             DaemonSet.Namespace namespace)
  /\ (forall c,
        ListContract c (fun fuel => ListClusterRoles fuel c)
          (listedClusterRole c)).
Proof.
  assert (HD : forall c namespace,
             ListContract c (fun fuel => ListDeployments fuel c namespace)
               (listedDeployment c namespace)).
  { intros c namespace. split; intros.
    - eapply (loop_serves c (listedDeployment c namespace)
                (rangeDeployments c namespace)
                (fun fuel => loopDeployments fuel c namespace)
                (rangeDeployments_run c namespace)) with (items := []);
        eauto.
    - eapply (loop_fails c (listedDeployment c namespace)
                (rangeDeployments c namespace)
                (fun fuel => loopDeployments fuel c namespace)
                (rangeDeployments_run c namespace)) with (items := []);
        eauto. }
  assert (HS : forall c namespace,
             ListContract c (fun fuel => ListDaemonSets fuel c namespace)
               (listedDaemonSet c namespace)).
  { intros c namespace. split; intros.
    - eapply (loop_serves c (listedDaemonSet c namespace)
                (rangeDaemonSets c namespace)
                (fun fuel => loopDaemonSets fuel c namespace)
                (rangeDaemonSets_run c namespace)) with (items := []);
        eauto.
    - eapply (loop_fails c (listedDaemonSet c namespace)
                (rangeDaemonSets c namespace)
                (fun fuel => loopDaemonSets fuel c namespace)
                (rangeDaemonSets_run c namespace)) with (items := []);
        eauto. }
  assert (Hrange : forall c resItems items (w : World rbacv1.ClusterRole.t),
             exists w',
               rangeClusterRoles c resItems items w
               = Some (items ++ map (listedClusterRole c) resItems, w')
               /\ env w' = env w).
  { intros c resItems items w.
    destruct (rangeClusterRoles_run c resItems items w) as (w' & Hrun & Henv).
    exists w'. split; [| exact Henv ].
    rewrite Hrun. do 3 f_equal. apply map_ext. intros item.
    unfold listedClusterRole. now rewrite ClusterRole_SetName_own. }
  split; [| split ].
  - intros c namespace. split; [apply HD|].
    intros w opts pages fuel Hserves Hfuel.
    destruct (proj1 (HD c namespace) w opts pages fuel Hserves Hfuel)
      as (w' & Hrun).
    eexists _, w'. split; [exact Hrun|].
    apply Forall_wrapped. reflexivity.
  - intros c namespace. split; [apply HS|].
    intros w opts pages fuel Hserves Hfuel.
    destruct (proj1 (HS c namespace) w opts pages fuel Hserves Hfuel)
      as (w' & Hrun).
    eexists _, w'. split; [exact Hrun|].
    apply Forall_wrapped. reflexivity.
  - intros c. split; intros.
    + eapply (loop_serves c (listedClusterRole c) (rangeClusterRoles c)
                (fun fuel => loopClusterRoles fuel c)
                (Hrange c)) with (items := []); eauto.
    + eapply (loop_fails c (listedClusterRole c) (rangeClusterRoles c)
                (fun fuel => loopClusterRoles fuel c)
                (Hrange c)) with (items := []); eauto.
Qed.

(** Three pages of sizes 2, 2 and 1: five wrappers, in page order, each in
    the namespace the lister was given. *)
Example ListDeployments_three_pages :
  result (ListDeployments 3 fivePages "prod" noOptions emptyWorld)
  = Some (Some ([ listed fivePages "a"; listed fivePages "b";
                  listed fivePages "c"; listed fivePages "d";
                  listed fivePages "e" ], None))
  /\ requests (ListDeployments 3 fivePages "prod" noOptions emptyWorld)
     = Some [ api.CallList noOptions;
              api.CallList (metav1.SetContinue "p2" noOptions);
              api.CallList (metav1.SetContinue "p3" noOptions) ].
Proof. split; reflexivity. Qed.

(** With fewer rounds than pages the model gives up; it returns no list. *)
Example ListDeployments_out_of_rounds :
  result (ListDeployments 2 fivePages "prod" noOptions emptyWorld)
  = Some None.
Proof. reflexivity. Qed.

Lemma fivePages_serves :
  Serves fivePages (env emptyWorld) noOptions
    [ [webPage "a"; webPage "b"]; [webPage "c"; webPage "d"]; [webPage "e"] ].
Proof.
  eapply Serves_more; [reflexivity | discriminate |].
  eapply Serves_more; [reflexivity | discriminate |].
  apply Serves_last. reflexivity.
Defined.

Lemma secondPageFails_fails :
  FailsAt secondPageFails (env emptyWorld) noOptions 1
    (StatusError StatusReasonTimeout 504 "timeout").
Proof.
  eapply FailsAt_later; [reflexivity | discriminate |].
  eapply FailsAt_here. reflexivity.
Defined.

Lemma mixedRoleServer_serves :
  Serves mixedRoleServer (env emptyWorld) noOptions
    [ [adminRoleLive; strayRole] ].
Proof. apply Serves_last. reflexivity. Defined.

(** C5 as stated fails for [ListClusterRoles]: no namespace is supplied to
    it, and the wrappers it returns carry the namespaces the server sent,
    which need not be one and the same. *)
Lemma ListClusterRoles_keeps_served_namespace :
  result (ListClusterRoles 1 mixedRoleServer noOptions emptyWorld)
  = Some (Some ([ {| client := mixedRoleServer; body := adminRoleLive |};
                  {| client := mixedRoleServer; body := strayRole |} ], None))
  /\ ClusterRole.Namespace {| client := mixedRoleServer; body := strayRole |}
     = "left-over"
  /\ ClusterRole.Namespace {| client := mixedRoleServer; body := adminRoleLive |}
     = ""
  /\ ~ NamespaceSupplied mixedRoleServer
         (fun fuel => ListClusterRoles fuel mixedRoleServer)
         ClusterRole.Namespace.
Proof.
  split; [reflexivity|]. split; [reflexivity|]. split; [reflexivity|].
  intros (namespace & H).
  destruct (H emptyWorld noOptions _ 1 mixedRoleServer_serves ltac:(cbn; lia))
    as (out & w' & Hrun & Hall).
  injection Hrun as <- _.
  apply Forall_cons in Hall as [Hfirst Hrest].
  apply Forall_cons in Hrest as [Hsecond _].
  cbn in Hfirst, Hsecond. congruence.
Qed.

(** Deployments served in the namespace elsewhere and listed for prod; a
    listing that fails on its second page; cluster roles listed as
    served. *)
Lemma listers_follow_pages_witness :
  (Serves fivePages (env emptyWorld) noOptions
     [ [webPage "a"; webPage "b"]; [webPage "c"; webPage "d"];
       [webPage "e"] ]
   /\ 3 <= 3
   /\ map (fun item =>
             metav1.Namespace (appsv1.Deployment.ObjectMeta item))
        (concat [ [webPage "a"; webPage "b"]; [webPage "c"; webPage "d"];
                  [webPage "e"] ])
      = ["elsewhere"; "elsewhere"; "elsewhere"; "elsewhere"; "elsewhere"]
   /\ (exists w',
         ListDeployments 3 fivePages "prod" noOptions emptyWorld
         = Some (Some ([ listed fivePages "a"; listed fivePages "b";
                         listed fivePages "c"; listed fivePages "d";
                         listed fivePages "e" ], None), w'))
   /\ exists out w',
        ListDeployments 3 fivePages "prod" noOptions emptyWorld
        = Some (Some (out, None), w')
        /\ Forall (fun r => Deployment.Namespace r = "prod") out)
  /\ (FailsAt secondPageFails (env emptyWorld) noOptions 1
        (StatusError StatusReasonTimeout 504 "timeout")
      /\ 1 < 2
      /\ exists w',
           ListDeployments 2 secondPageFails "prod" noOptions emptyWorld
           = Some (Some ([], Some (Traced (StatusError StatusReasonTimeout 504
                                             "timeout"))), w'))
  /\ (Serves mixedRoleServer (env emptyWorld) noOptions
        [ [adminRoleLive; strayRole] ]
      /\ 1 <= 1
      /\ exists w',
           ListClusterRoles 1 mixedRoleServer noOptions emptyWorld
           = Some (Some ([ {| client := mixedRoleServer;
                              body := adminRoleLive |};
                           {| client := mixedRoleServer;
                              body := strayRole |} ], None), w')).
Proof.
  destruct listers_follow_pages as (HD & _ & HR).
  split; [| split ].
  - split; [exact fivePages_serves|]. split; [lia|].
    split; [reflexivity|]. split.
    + exact (proj1 (proj1 (HD fivePages "prod")) emptyWorld noOptions _ 3
               fivePages_serves ltac:(cbn; lia)).
    + exact (proj2 (HD fivePages "prod") emptyWorld noOptions _ 3
               fivePages_serves ltac:(cbn; lia)).
  - split; [exact secondPageFails_fails|]. split; [lia|].
    exact (proj2 (proj1 (HD secondPageFails "prod")) emptyWorld noOptions 1 _ 2
             secondPageFails_fails ltac:(lia)).
  - split; [exact mixedRoleServer_serves|]. split; [lia|].
    exact (proj1 (HR mixedRoleServer) emptyWorld noOptions _ 1
             mixedRoleServer_serves ltac:(cbn; lia)).
Defined.

(** ** C6: status of the workloads *)

(** C6. [ComputeStatus] of a Deployment and of a DaemonSet: with a deletion
    timestamp the state is Terminated and the time is that timestamp, not
    [now]; without one the state is Active at [now] when the readiness
    counters are equal and Waiting at [now] when they differ.  No kind, the
    ClusterRole included, returns a state other than these three, a message
    or an error. *)
Theorem ComputeStatus_workloads (now : Time) :
  (forall d : Deployment.t,
     (forall ts, Deployment.DeletionTimestamp d = Some ts ->
        Deployment.ComputeStatus d now = ("", status.Terminated, ts, None))
     /\ (Deployment.DeletionTimestamp d = None ->
         appsv1.ReadyReplicas (appsv1.Deployment.Status (body d))
         = appsv1.Replicas (appsv1.Deployment.Status (body d)) ->
         Deployment.ComputeStatus d now = ("", status.Active, now, None))
     /\ (Deployment.DeletionTimestamp d = None ->
         appsv1.ReadyReplicas (appsv1.Deployment.Status (body d))
         <> appsv1.Replicas (appsv1.Deployment.Status (body d)) ->
         Deployment.ComputeStatus d now = ("", status.Waiting, now, None))
     /\ (exists st t,
           Deployment.ComputeStatus d now = ("", st, t, None)
           /\ (st = status.Active \/ st = status.Waiting
               \/ st = status.Terminated)))
  /\
  (forall ds : DaemonSet.t,
     (forall ts, DaemonSet.DeletionTimestamp ds = Some ts ->
        DaemonSet.ComputeStatus ds now = ("", status.Terminated, ts, None))
     /\ (DaemonSet.DeletionTimestamp ds = None ->
         appsv1.NumberReady (appsv1.DaemonSet.Status (body ds))
         = appsv1.DesiredNumberScheduled (appsv1.DaemonSet.Status (body ds)) ->
         DaemonSet.ComputeStatus ds now = ("", status.Active, now, None))
     /\ (DaemonSet.DeletionTimestamp ds = None ->
         appsv1.NumberReady (appsv1.DaemonSet.Status (body ds))
         <> appsv1.DesiredNumberScheduled (appsv1.DaemonSet.Status (body ds)) ->
         DaemonSet.ComputeStatus ds now = ("", status.Waiting, now, None))
     /\ (exists st t,
           DaemonSet.ComputeStatus ds now = ("", st, t, None)
           /\ (st = status.Active \/ st = status.Waiting
               \/ st = status.Terminated)))
  /\
  (forall r : ClusterRole.t,
     exists st t,
       ClusterRole.ComputeStatus r now = ("", st, t, None)
       /\ (st = status.Active \/ st = status.Waiting
           \/ st = status.Terminated)).
Proof.
  split; [| split ]; intros r.
  - unfold Deployment.ComputeStatus.
    destruct (Deployment.DeletionTimestamp r) as [ts|]; repeat split.
    + intros ? [= ->]; reflexivity.
    + discriminate.
    + discriminate.
    + eauto 6.
    + discriminate.
    + intros _ ->. now rewrite Z.eqb_refl.
    + intros _ Hne. apply Z.eqb_neq in Hne. now rewrite Hne.
    + destruct (_ =? _)%Z; eauto 6.
  - unfold DaemonSet.ComputeStatus.
    destruct (DaemonSet.DeletionTimestamp r) as [ts|]; repeat split.
    + intros ? [= ->]; reflexivity.
    + discriminate.
    + discriminate.
    + eauto 6.
    + discriminate.
    + intros _ ->. now rewrite Z.eqb_refl.
    + intros _ Hne. apply Z.eqb_neq in Hne. now rewrite Hne.
    + destruct (_ =? _)%Z; eauto 6.
  - unfold ClusterRole.ComputeStatus.
    destruct (ClusterRole.DeletionTimestamp r); eauto 6.
Qed.

Lemma ComputeStatus_workloads_witness :
  (Deployment.DeletionTimestamp goingDeployment = Some 1700000000%Z
   /\ Deployment.ComputeStatus goingDeployment 42%Z
      = ("", status.Terminated, 1700000000%Z, None))
  /\ (Deployment.DeletionTimestamp (webWrapper liveServer) = None
      /\ appsv1.ReadyReplicas
           (appsv1.Deployment.Status (body (webWrapper liveServer)))
         <> appsv1.Replicas
              (appsv1.Deployment.Status (body (webWrapper liveServer)))
      /\ Deployment.ComputeStatus (webWrapper liveServer) 42%Z
         = ("", status.Waiting, 42%Z, None))
  /\ (Deployment.DeletionTimestamp
        {| client := liveServer; body := webDeploymentLive |} = None
      /\ appsv1.ReadyReplicas (appsv1.Deployment.Status webDeploymentLive)
         = appsv1.Replicas (appsv1.Deployment.Status webDeploymentLive)
      /\ Deployment.ComputeStatus
           {| client := liveServer; body := webDeploymentLive |} 42%Z
         = ("", status.Active, 42%Z, None))
  /\ (DaemonSet.DeletionTimestamp
        {| client := liveAgent; body := agentDaemonSetLive |}
      = Some 1700000000%Z
      /\ DaemonSet.ComputeStatus
           {| client := liveAgent; body := agentDaemonSetLive |} 42%Z
         = ("", status.Terminated, 1700000000%Z, None))
  /\ (DaemonSet.DeletionTimestamp
        {| client := liveAgent; body := agentDaemonSet |} = None
      /\ appsv1.NumberReady (appsv1.DaemonSet.Status agentDaemonSet)
         <> appsv1.DesiredNumberScheduled
              (appsv1.DaemonSet.Status agentDaemonSet)
      /\ DaemonSet.ComputeStatus
           {| client := liveAgent; body := agentDaemonSet |} 42%Z
         = ("", status.Waiting, 42%Z, None)).
Proof.
  destruct (ComputeStatus_workloads 42%Z) as (HD & HS & _).
  split; [| split; [| split; [| split ] ] ].
  - split; [reflexivity|].
    exact (proj1 (HD goingDeployment) 1700000000%Z eq_refl).
  - split; [reflexivity|]. split; [discriminate|].
    exact (proj1 (proj2 (proj2 (HD (webWrapper liveServer))))
             eq_refl ltac:(discriminate)).
  - split; [reflexivity|]. split; [reflexivity|].
    exact (proj1 (proj2 (HD {| client := liveServer;
                               body := webDeploymentLive |}))
             eq_refl eq_refl).
  - split; [reflexivity|].
    exact (proj1 (HS {| client := liveAgent; body := agentDaemonSetLive |})
             1700000000%Z eq_refl).
  - split; [reflexivity|]. split; [discriminate|].
    exact (proj1 (proj2 (proj2 (HS {| client := liveAgent;
                                      body := agentDaemonSet |})))
             eq_refl ltac:(discriminate)).
Defined.

(** ** C7: Get and Delete *)

(** C7. For each kind, [Get] turns a not-found answer into the not-found
    error, hands any other error back traced, and overwrites the body of the
    receiver with the answer only when there is no error; [Delete] reports a
    not-found answer as the not-found error, not as success. *)
Theorem Get_and_Delete_report_not_found :
  (GetContract Deployment.Name Deployment.Get
   /\ DeleteContract Deployment.Name "k8s deployment for deletion"
        Deployment.Delete)
  /\ (GetContract DaemonSet.Name DaemonSet.Get
      /\ DeleteContract DaemonSet.Name "k8s daemon set for deletion"
           DaemonSet.Delete)
  /\ (GetContract ClusterRole.Name ClusterRole.Get
      /\ DeleteContract ClusterRole.Name "k8s cluster role for deletion"
           ClusterRole.Delete).
Proof.
  split; [| split ]; split.
  - exact Deployment_Get_ok.
  - exact Deployment_Delete_ok.
  - exact DaemonSet_Get_ok.
  - exact DaemonSet_Delete_ok.
  - exact ClusterRole_Get_ok.
  - exact ClusterRole_Delete_ok.
Qed.

(** A get that succeeds, one that is answered not-found, one that is
    answered with a 404 that names no reason, one that times out; a delete
    of what is not there, answered either way, and one that succeeds. *)
Lemma Get_and_Delete_report_not_found_witness :
  (objs (worldOf liveServer webDeployment) !! 0 = Some (webWrapper liveServer)
   /\ api.Get liveServer (env (worldOf liveServer webDeployment)) "web"
      = (webDeploymentLive, None)
   /\ Deployment.Get 0 (worldOf liveServer webDeployment)
      = Some (None,
              refreshed (api.CallGet "web") 0 (webWrapper liveServer)
                webDeploymentLive (worldOf liveServer webDeployment)))
  /\ (objs (worldOf emptyServer webDeployment) !! 0
      = Some (webWrapper emptyServer)
      /\ api.Get emptyServer (env (worldOf emptyServer webDeployment)) "web"
         = (webDeploymentLive, notFoundStatus)
      /\ k8serrors.IsNotFound notFoundStatus = true
      /\ Deployment.Get 0 (worldOf emptyServer webDeployment)
         = Some (Some (notFound notFoundStatus "k8s"),
                 recorded (api.CallGet "web")
                   (worldOf emptyServer webDeployment)))
  /\ (objs (worldOf hiddenServer webDeployment) !! 0
      = Some (webWrapper hiddenServer)
      /\ api.Get hiddenServer (env (worldOf hiddenServer webDeployment)) "web"
         = (webDeploymentLive, bare404)
      /\ bare404
         = Some (StatusError StatusReasonUnknown 404 "404 page not found")
      /\ k8serrors.IsNotFound bare404 = true
      /\ Deployment.Get 0 (worldOf hiddenServer webDeployment)
         = Some (Some (notFound bare404 "k8s"),
                 recorded (api.CallGet "web")
                   (worldOf hiddenServer webDeployment)))
  /\ (objs (worldOf downServer webDeployment) !! 0
      = Some (webWrapper downServer)
      /\ api.Get downServer (env (worldOf downServer webDeployment)) "web"
         = (webDeploymentLive, timeoutStatus)
      /\ timeoutStatus = Some (StatusError StatusReasonTimeout 504 "timeout")
      /\ k8serrors.IsNotFound timeoutStatus = false
      /\ Deployment.Get 0 (worldOf downServer webDeployment)
         = Some (Some (Traced (StatusError StatusReasonTimeout 504 "timeout")),
                 recorded (api.CallGet "web")
                   (worldOf downServer webDeployment)))
  /\ (objs (worldOf emptyServer webDeployment) !! 0
      = Some (webWrapper emptyServer)
      /\ api.Delete emptyServer (env (worldOf emptyServer webDeployment))
           "web" DefaultPropagationPolicy
         = notFoundStatus
      /\ k8serrors.IsNotFound notFoundStatus = true
      /\ Deployment.Delete 0 (worldOf emptyServer webDeployment)
         = Some (Some (notFound notFoundStatus "k8s deployment for deletion"),
                 recorded (api.CallDelete "web" DefaultPropagationPolicy)
                   (worldOf emptyServer webDeployment))
      /\ errors.IsNotFound
           (Some (notFound notFoundStatus "k8s deployment for deletion"))
         = true)
  /\ (objs (worldOf hiddenServer webDeployment) !! 0
      = Some (webWrapper hiddenServer)
      /\ api.Delete hiddenServer (env (worldOf hiddenServer webDeployment))
           "web" DefaultPropagationPolicy
         = bare404
      /\ k8serrors.IsNotFound bare404 = true
      /\ Deployment.Delete 0 (worldOf hiddenServer webDeployment)
         = Some (Some (notFound bare404 "k8s deployment for deletion"),
                 recorded (api.CallDelete "web" DefaultPropagationPolicy)
                   (worldOf hiddenServer webDeployment))
      /\ errors.IsNotFound
           (Some (notFound bare404 "k8s deployment for deletion"))
         = true)
  /\ (objs (worldOf liveServer webDeployment) !! 0
      = Some (webWrapper liveServer)
      /\ api.Delete liveServer (env (worldOf liveServer webDeployment))
           "web" DefaultPropagationPolicy
         = None
      /\ k8serrors.IsNotFound None = false
      /\ Deployment.Delete 0 (worldOf liveServer webDeployment)
         = Some (None,
                 recorded (api.CallDelete "web" DefaultPropagationPolicy)
                   (worldOf liveServer webDeployment))).
Proof.
  destruct Get_and_Delete_report_not_found as ((HG & HD) & _).
  split; [| split; [| split; [| split; [| split; [| split ] ] ] ] ].
  - do 2 (split; [reflexivity|]).
    exact (proj2 (proj2 (HG (worldOf liveServer webDeployment) 0
                           (webWrapper liveServer) webDeploymentLive None
                           eq_refl eq_refl)) eq_refl).
  - do 3 (split; [reflexivity|]).
    exact (proj1 (HG (worldOf emptyServer webDeployment) 0
                    (webWrapper emptyServer) webDeploymentLive notFoundStatus
                    eq_refl eq_refl) eq_refl).
  - do 4 (split; [reflexivity|]).
    exact (proj1 (HG (worldOf hiddenServer webDeployment) 0
                    (webWrapper hiddenServer) webDeploymentLive bare404
                    eq_refl eq_refl) eq_refl).
  - do 4 (split; [reflexivity|]).
    exact (proj1 (proj2 (HG (worldOf downServer webDeployment) 0
                           (webWrapper downServer) webDeploymentLive
                           timeoutStatus eq_refl eq_refl))
             _ eq_refl eq_refl).
  - do 3 (split; [reflexivity|]).
    exact (proj1 (HD (worldOf emptyServer webDeployment) 0
                    (webWrapper emptyServer) notFoundStatus
                    eq_refl eq_refl) eq_refl).
  - do 3 (split; [reflexivity|]).
    exact (proj1 (HD (worldOf hiddenServer webDeployment) 0
                    (webWrapper hiddenServer) bare404
                    eq_refl eq_refl) eq_refl).
  - do 3 (split; [reflexivity|]).
    exact (proj2 (HD (worldOf liveServer webDeployment) 0
                    (webWrapper liveServer) None
                    eq_refl eq_refl) eq_refl).
Defined.

(** ** C8: Clone *)

Ltac clone_ok :=
  intros w d self Hd; run; unfold new;
  eexists _, _; split; [reflexivity|]; cbn [env bodies objs];
  pose proof (lookup_lt_Some _ _ _ Hd);
  repeat split;
  [ lia | apply lookup_snoc_new | now apply lookup_app_l_Some ].

Lemma Deployment_Clone_ok : CloneContract Deployment.Clone.
Proof. unfold Deployment.Clone. clone_ok. Qed.

Lemma DaemonSet_Clone_ok : CloneContract DaemonSet.Clone.
Proof. unfold DaemonSet.Clone. clone_ok. Qed.

Lemma ClusterRole_Clone_ok : CloneContract ClusterRole.Clone.
Proof. unfold ClusterRole.Clone. clone_ok. Qed.

Ltac only_receiver :=
  intros w c d rc x Hc Hd Hne; branches;
  (eexists _, _; split; [reflexivity|]; cbn;
   rewrite ?list_lookup_insert_ne by assumption; auto).

Lemma Deployment_Get_frame : OnlyReceiver Deployment.Get.
Proof. unfold Deployment.Get. only_receiver. Qed.

Lemma DaemonSet_Get_frame : OnlyReceiver DaemonSet.Get.
Proof. unfold DaemonSet.Get. only_receiver. Qed.

Lemma ClusterRole_Get_frame : OnlyReceiver ClusterRole.Get.
Proof. unfold ClusterRole.Get. only_receiver. Qed.

Lemma Deployment_Apply_frame Encode : OnlyReceiver (Deployment.Apply Encode).
Proof. unfold Deployment.Apply. only_receiver. Qed.

Lemma DaemonSet_Apply_frame Encode : OnlyReceiver (DaemonSet.Apply Encode).
Proof. unfold DaemonSet.Apply. only_receiver. Qed.

Lemma ClusterRole_Apply_frame Encode : OnlyReceiver (ClusterRole.Apply Encode).
Proof. unfold ClusterRole.Apply. only_receiver. Qed.

Lemma ClusterRole_Update_frame : OnlyReceiver ClusterRole.Update.
Proof. unfold ClusterRole.Update. only_receiver. Qed.

Lemma Deployment_Delete_frame : OnlyReceiver Deployment.Delete.
Proof. unfold Deployment.Delete. only_receiver. Qed.

Lemma DaemonSet_Delete_frame : OnlyReceiver DaemonSet.Delete.
Proof. unfold DaemonSet.Delete. only_receiver. Qed.

Lemma ClusterRole_Delete_frame : OnlyReceiver ClusterRole.Delete.
Proof. unfold ClusterRole.Delete. only_receiver. Qed.

(** C8, as the code has it.  [Clone] is a shallow copy: the clone is a
    wrapper of its own with the client handle of the original and a
    field-for-field copy of its body, so the two share what the body refers
    to.  The lifecycle methods replace the body of their receiver as a
    whole and write through no reference, so calling them on the clone
    leaves the original, and every map, as they were. *)
Theorem Clone_is_shallow_copy :
  (CloneContract Deployment.Clone
   /\ OnlyReceiver Deployment.Get
   /\ (forall Encode, OnlyReceiver (Deployment.Apply Encode))
   /\ OnlyReceiver Deployment.Delete)
  /\ (CloneContract DaemonSet.Clone
      /\ OnlyReceiver DaemonSet.Get
      /\ (forall Encode, OnlyReceiver (DaemonSet.Apply Encode))
      /\ OnlyReceiver DaemonSet.Delete)
  /\ (CloneContract ClusterRole.Clone
      /\ OnlyReceiver ClusterRole.Get
      /\ (forall Encode, OnlyReceiver (ClusterRole.Apply Encode))
      /\ OnlyReceiver ClusterRole.Update
      /\ OnlyReceiver ClusterRole.Delete).
Proof.
  repeat split;
    auto using Deployment_Clone_ok, DaemonSet_Clone_ok, ClusterRole_Clone_ok,
      Deployment_Get_frame, DaemonSet_Get_frame, ClusterRole_Get_frame,
      Deployment_Apply_frame, DaemonSet_Apply_frame, ClusterRole_Apply_frame,
      ClusterRole_Update_frame, Deployment_Delete_frame,
      DaemonSet_Delete_frame, ClusterRole_Delete_frame.
Qed.

(** C8 as stated fails: the clone is not a deep copy.  The label map of the
    original is the label map of the clone, so a label written through the
    clone is read through the original. *)
Lemma Clone_shares_label_map :
  result (readLabel 0 "owner" (worldOf liveServer webDeployment)) = Some None
  /\ result ((c <- Deployment.Clone 0 ;;
              writeLabel c "owner" "someone else" ;;
              readLabel 0 "owner") (worldOf liveServer webDeployment))
     = Some (Some "someone else")
  /\ ~ ClonesDeep appsv1.Deployment.ObjectMeta Deployment.Clone.
Proof.
  split; [vm_compute; reflexivity|].
  split; [vm_compute; reflexivity|].
  intros H.
  exact (H (worldOf liveServer webDeployment) _ 0 1 (webWrapper liveServer)
           (webWrapper liveServer) 0
           eq_refl eq_refl eq_refl eq_refl eq_refl).
Qed.

Lemma Clone_is_shallow_copy_witness :
  (objs (worldOf liveServer webDeployment) !! 0 = Some (webWrapper liveServer)
   /\ exists c w',
        Deployment.Clone 0 (worldOf liveServer webDeployment) = Some (c, w')
        /\ c <> 0
        /\ objs w' !! c = Some (webWrapper liveServer)
        /\ objs w' !! 0 = Some (webWrapper liveServer)
        /\ env w' = env (worldOf liveServer webDeployment)
        /\ bodies w' = bodies (worldOf liveServer webDeployment))
  /\ (objs afterClone !! 1 = Some (webWrapper liveServer)
      /\ objs afterClone !! 0 = Some (webWrapper liveServer)
      /\ 1 <> 0
      /\ exists ret w',
           Deployment.Get 1 afterClone = Some (ret, w')
           /\ objs w' !! 0 = Some (webWrapper liveServer)
           /\ api.maps (env w') = api.maps (env afterClone)
           /\ bodies w' = bodies afterClone).
Proof.
  destruct Clone_is_shallow_copy as ((HC & HG & _) & _).
  split.
  - split; [reflexivity|].
    exact (HC (worldOf liveServer webDeployment) 0 (webWrapper liveServer)
             eq_refl).
  - split; [reflexivity|]. split; [reflexivity|].
    split; [discriminate|].
    exact (HG afterClone 1 0 (webWrapper liveServer) (webWrapper liveServer)
             eq_refl eq_refl ltac:(discriminate)).
Defined.

(** ** C9: status of a cluster role *)

(** C9. [ComputeStatus] of a ClusterRole never answers Waiting: without a
    deletion timestamp it is Active at [now] whatever else the body holds,
    and with one it is Terminated at that timestamp. *)
Theorem ComputeStatus_ClusterRole (r : ClusterRole.t) (now : Time) :
  (forall ts, ClusterRole.DeletionTimestamp r = Some ts ->
     ClusterRole.ComputeStatus r now = ("", status.Terminated, ts, None))
  /\ (ClusterRole.DeletionTimestamp r = None ->
      ClusterRole.ComputeStatus r now = ("", status.Active, now, None))
  /\ (forall msg t err,
        ClusterRole.ComputeStatus r now <> (msg, status.Waiting, t, err)).
Proof.
  unfold ClusterRole.ComputeStatus.
  destruct (ClusterRole.DeletionTimestamp r) as [ts|]; repeat split;
    try discriminate.
  intros ? [= ->]; reflexivity.
Qed.

Lemma ComputeStatus_ClusterRole_witness :
  (ClusterRole.DeletionTimestamp (adminWrapper liveRoleServer) = None
   /\ ClusterRole.ComputeStatus (adminWrapper liveRoleServer) 42%Z
      = ("", status.Active, 42%Z, None))
  /\ (ClusterRole.DeletionTimestamp goingRole = Some 1700000000%Z
      /\ ClusterRole.ComputeStatus goingRole 42%Z
         = ("", status.Terminated, 1700000000%Z, None)).
Proof.
  split.
  - split; [reflexivity|].
    exact (proj1 (proj2 (ComputeStatus_ClusterRole
                           (adminWrapper liveRoleServer) 42%Z)) eq_refl).
  - split; [reflexivity|].
    exact (proj1 (ComputeStatus_ClusterRole goingRole 42%Z)
             1700000000%Z eq_refl).
Defined.

(** ** C10: constructors *)

(** C10, as the code has it.  [NewDeployment] and [NewDaemonSet] write the
    name and the namespace they are given over whatever the initial body
    carried; [NewClusterRole] takes no namespace and writes the name only,
    so the namespace of the initial body stays (it is empty for a nil
    body).  Each writes through the pointer it is given, so on the
    caller's own body, and the wrapper's [ID] is read from the stamped
    body. *)
Theorem constructors_stamp (namespace name : string) :
  (ConstructorContract
     (fun c in_ => NewDeployment c namespace name in_)
     (fun b => appsv1.Deployment.SetNamespace namespace
                 (appsv1.Deployment.SetName name b))
     appsv1.Deployment.zero
   /\ forall c b,
        Deployment.ID
          {| client := c;
             body := appsv1.Deployment.SetNamespace namespace
                       (appsv1.Deployment.SetName name b) |}
        = {| Kind := "Deployment"; IDName := name;
             IDNamespace := namespace |})
  /\ (ConstructorContract
        (fun c in_ => NewDaemonSet c namespace name in_)
        (fun b => appsv1.DaemonSet.SetNamespace namespace
                    (appsv1.DaemonSet.SetName name b))
        appsv1.DaemonSet.zero
      /\ forall c b,
           DaemonSet.ID
             {| client := c;
                body := appsv1.DaemonSet.SetNamespace namespace
                          (appsv1.DaemonSet.SetName name b) |}
           = {| Kind := "DaemonSet"; IDName := name;
                IDNamespace := namespace |})
  /\ (ConstructorContract
        (fun c in_ => NewClusterRole c name in_)
        (rbacv1.ClusterRole.SetName name)
        rbacv1.ClusterRole.zero
      /\ (forall c b,
            ClusterRole.ID
              {| client := c; body := rbacv1.ClusterRole.SetName name b |}
            = {| Kind := "ClusterRole"; IDName := name;
                 IDNamespace :=
                   metav1.Namespace (rbacv1.ClusterRole.ObjectMeta b) |})
      /\ metav1.Namespace
           (rbacv1.ClusterRole.ObjectMeta rbacv1.ClusterRole.zero) = "").
Proof.
  repeat split.
  - apply NewDeployment_nil.
  - intros; now apply NewDeployment_some.
  - apply NewDaemonSet_nil.
  - intros; now apply NewDaemonSet_some.
  - apply NewClusterRole_nil.
  - intros; now apply NewClusterRole_some.
Qed.

(** C10 as stated fails for [NewClusterRole]: it has no namespace to write,
    so a namespace that the initial body carries stays, and the [ID] of the
    wrapper depends on the initial body. *)
Lemma NewClusterRole_keeps_namespace :
  result ((p <- NewClusterRole liveRoleServer "admin" (Some 0) ;;
           r <- load p ;;
           ret (ClusterRole.ID r)) (worldOf liveRoleServer strayRole))
  = Some {| Kind := "ClusterRole"; IDName := "admin";
            IDNamespace := "left-over" |}
  /\ result ((p <- NewClusterRole liveRoleServer "admin" None ;;
              r <- load p ;;
              ret (ClusterRole.ID r)) (worldOf liveRoleServer strayRole))
     = Some {| Kind := "ClusterRole"; IDName := "admin"; IDNamespace := "" |}
  /\ ~ IDFromArguments (fun c in_ => NewClusterRole c "admin" in_)
         ClusterRole.ID.
Proof.
  split; [reflexivity|]. split; [reflexivity|].
  intros H.
  specialize (H liveRoleServer
                (worldOf liveRoleServer strayRole)
                (worldOf liveRoleServer strayRole) _ _
                (Some 0) None 1 1 _ _
                eq_refl eq_refl eq_refl eq_refl).
  discriminate H.
Qed.

Lemma constructors_stamp_witness :
  (bodies (worldOf liveServer webDeploymentLive) !! 0 = Some webDeploymentLive
   /\ NewDeployment liveServer "staging" "api" (Some 0)
        (worldOf liveServer webDeploymentLive)
      = Some (1,
              {| env := env (worldOf liveServer webDeploymentLive);
                 bodies := [deploymentBody "api" "staging" None None 3 3];
                 objs := [ {| client := liveServer;
                              body := webDeploymentLive |};
                           {| client := liveServer;
                              body := deploymentBody "api" "staging" None
                                        None 3 3 |} ] |}))
  /\ (bodies (worldOf liveRoleServer strayRole) !! 0 = Some strayRole
      /\ NewClusterRole liveRoleServer "admin" (Some 0)
           (worldOf liveRoleServer strayRole)
         = Some (1,
                 {| env := env (worldOf liveRoleServer strayRole);
                    bodies := [clusterRoleBody "admin" "left-over" None None];
                    objs := [ {| client := liveRoleServer;
                                 body := strayRole |};
                              {| client := liveRoleServer;
                                 body := clusterRoleBody "admin" "left-over"
                                           None None |} ] |})).
Proof.
  destruct (constructors_stamp "staging" "api") as ((HD & _) & _).
  destruct (constructors_stamp "" "admin") as (_ & _ & (HR & _)).
  split.
  - split; [reflexivity|].
    exact (proj2 (HD liveServer (worldOf liveServer webDeploymentLive))
             0 webDeploymentLive eq_refl).
  - split; [reflexivity|].
    exact (proj2 (HR liveRoleServer (worldOf liveRoleServer strayRole))
             0 strayRole eq_refl).
Defined.


(** * Further properties *)

(** ** Ensure, path by path *)

(** X1. [Ensure] when the get fails with anything but not-found (and the
    error is not itself a not-found error of the errors package): it
    returns that error, traced and annotated with the name of the role,
    and an empty cleanup list; the get is its only request and the
    receiver is as it was. *)
Theorem Ensure_get_fails
    (Encode : Encoder) (RunClaims : list ClusterRole.Claim -> ClusterRole.Claim)
    (w : World rbacv1.ClusterRole.t) (r : ptr) (self : ClusterRole.t)
    (claims : list ClusterRole.Claim) (res : rbacv1.ClusterRole.t)
    (e : error) :
  objs w !! r = Some self ->
  api.Get (client self) (env w) (ClusterRole.Name self) = (res, Some e) ->
  k8serrors.IsNotFound (Some e) = false ->
  errors.IsNotFound (Some e) = false ->
  exists w',
    ClusterRole.Ensure Encode RunClaims r claims w
    = Some (([], Some (Annotated (Traced e)
                         "checking for existing cluster role %q"
                         [ClusterRole.Name self])), w')
    /\ api.calls (env w')
       = api.calls (env w) ++ [api.CallGet (ClusterRole.Name self)]
    /\ objs w' !! r = Some self
    /\ bodies w' = bodies w.
Proof.
  intros Hr Hget Hk Hj. exists (probed w self (body self)).
  split; [| repeat split; auto using probed_receiver ].
  rewrite (Ensure_unfold Encode RunClaims w r self claims res (Some e) Hr Hget).
  rewrite Hk. cbn [errors.Trace fst snd].
  change (errors.IsNotFound (Some (Traced e)))
    with (errors.IsNotFound (Some e)).
  rewrite Hj. reflexivity.
Qed.

Lemma Ensure_get_fails_witness :
  objs (worldOf downRoleServer adminRole) !! 0
  = Some (adminWrapper downRoleServer)
  /\ api.Get downRoleServer (env (worldOf downRoleServer adminRole)) "admin"
     = (adminRoleLive, Some (StatusError StatusReasonTimeout 504 "timeout"))
  /\ k8serrors.IsNotFound (Some (StatusError StatusReasonTimeout 504 "timeout"))
     = false
  /\ errors.IsNotFound (Some (StatusError StatusReasonTimeout 504 "timeout"))
     = false
  /\ exists w',
       ClusterRole.Ensure okEncoder allowAll 0 []
         (worldOf downRoleServer adminRole)
       = Some (([], Some (Annotated
                            (Traced (StatusError StatusReasonTimeout 504
                                       "timeout"))
                            "checking for existing cluster role %q"
                            ["admin"])), w')
       /\ api.calls (env w')
          = api.calls (env (worldOf downRoleServer adminRole)) ++ [getAdmin]
       /\ objs w' !! 0 = Some (adminWrapper downRoleServer)
       /\ bodies w' = bodies (worldOf downRoleServer adminRole).
Proof.
  do 4 (split; [reflexivity|]).
  exact (Ensure_get_fails okEncoder allowAll
           (worldOf downRoleServer adminRole) 0
           (adminWrapper downRoleServer) [] adminRoleLive _
           eq_refl eq_refl eq_refl eq_refl).
Defined.

(** X2. [Ensure] when the object exists and the claims fail with an error
    that is not a not-found: it returns that error annotated with the name
    the server holds for the object, whatever the verdict, and an empty
    cleanup list; the get is its only request and the receiver is as it
    was. *)
Theorem Ensure_claims_fail
    (Encode : Encoder) (RunClaims : list ClusterRole.Claim -> ClusterRole.Claim)
    (w : World rbacv1.ClusterRole.t) (r : ptr) (self : ClusterRole.t)
    (claims : list ClusterRole.Claim) (res : rbacv1.ClusterRole.t)
    (verdict : bool) (e : error) :
  objs w !! r = Some self ->
  api.Get (client self) (env w) (ClusterRole.Name self) = (res, None) ->
  RunClaims claims
    (api.record (api.CallGet (ClusterRole.Name self)) (env w)) res
  = (verdict, Some e) ->
  errors.IsNotFound (Some e) = false ->
  exists w',
    ClusterRole.Ensure Encode RunClaims r claims w
    = Some (([], Some (Annotated e "checking for existing cluster role %q"
                         [metav1.Name (rbacv1.ClusterRole.ObjectMeta res)])),
            w')
    /\ api.calls (env w')
       = api.calls (env w) ++ [api.CallGet (ClusterRole.Name self)]
    /\ objs w' !! r = Some self
    /\ bodies w' = bodies w.
Proof.
  intros Hr Hget Hclaims Hj. exists (probed w self res).
  split; [| repeat split; auto using probed_receiver ].
  rewrite (Ensure_unfold Encode RunClaims w r self claims res None Hr Hget).
  rewrite IsNotFound_nil. cbn [errors.Trace].
  change (env (probed w self res))
    with (api.record (api.CallGet (ClusterRole.Name self)) (env w)).
  rewrite Hclaims. cbn [fst snd]. rewrite Hj. reflexivity.
Qed.

Lemma Ensure_claims_fail_witness :
  objs (worldOf renamingRoleServer adminRole) !! 0
  = Some (adminWrapper renamingRoleServer)
  /\ api.Get renamingRoleServer (env (worldOf renamingRoleServer adminRole))
       "admin"
     = (renamedRoleLive, None)
  /\ claimBroken []
       (api.record getAdmin (env (worldOf renamingRoleServer adminRole)))
       renamedRoleLive
     = (false, Some (errorString "no accessor for the object"))
  /\ errors.IsNotFound (Some (errorString "no accessor for the object"))
     = false
  /\ exists w',
       ClusterRole.Ensure okEncoder claimBroken 0 []
         (worldOf renamingRoleServer adminRole)
       = Some (([], Some (Annotated
                            (errorString "no accessor for the object")
                            "checking for existing cluster role %q"
                            ["admin-v2"])), w')
       /\ api.calls (env w')
          = api.calls (env (worldOf renamingRoleServer adminRole))
            ++ [getAdmin]
       /\ objs w' !! 0 = Some (adminWrapper renamingRoleServer)
       /\ bodies w' = bodies (worldOf renamingRoleServer adminRole).
Proof.
  do 4 (split; [reflexivity|]).
  exact (Ensure_claims_fail okEncoder claimBroken
           (worldOf renamingRoleServer adminRole) 0
           (adminWrapper renamingRoleServer) [] renamedRoleLive false _
           eq_refl eq_refl eq_refl eq_refl).
Defined.

(** X3. A not-found error from the claims is read as "the object is not
    there", although the get has just found it.  With a false verdict
    [Ensure] answers already-exists and the error is dropped; with a true
    verdict [Ensure] goes on to [Apply], not to [Update]. *)
Theorem Ensure_claims_lost
    (Encode : Encoder) (RunClaims : list ClusterRole.Claim -> ClusterRole.Claim)
    (w : World rbacv1.ClusterRole.t) (r : ptr) (self : ClusterRole.t)
    (claims : list ClusterRole.Claim) (res : rbacv1.ClusterRole.t)
    (verdict : bool) (e : error) :
  objs w !! r = Some self ->
  api.Get (client self) (env w) (ClusterRole.Name self) = (res, None) ->
  RunClaims claims
    (api.record (api.CallGet (ClusterRole.Name self)) (env w)) res
  = (verdict, Some e) ->
  errors.IsNotFound (Some e) = true ->
  (verdict = false ->
     ClusterRole.Ensure Encode RunClaims r claims w
     = Some (([], Some (alreadyExists "cluster role %q not controlled by juju"
                          [ClusterRole.Name self])), probed w self res))
  /\ (verdict = true ->
      exists ret w',
        ClusterRole.Apply Encode r (probed w self res) = Some (ret, w')
        /\ ClusterRole.Ensure Encode RunClaims r claims w
           = Some (([ClusterRole.deleteCleanup r], ret), w')).
Proof.
  intros Hr Hget Hclaims Hj.
  rewrite (Ensure_unfold Encode RunClaims w r self claims res None Hr Hget).
  rewrite IsNotFound_nil. cbn [errors.Trace].
  change (env (probed w self res))
    with (api.record (api.CallGet (ClusterRole.Name self)) (env w)).
  rewrite Hclaims. cbn [fst snd]. rewrite Hj. cbn [negb andb].
  split; intros ->; cbn [negb]; [reflexivity|].
  destruct (ClusterRole_Apply_keeps Encode (probed w self res) r self
              (probed_receiver _ _ _ _ Hr)) as (ret & w' & Happly & _).
  exists ret, w'. split; [exact Happly|]. now rewrite Happly.
Qed.

Lemma Ensure_claims_lost_witness :
  objs (worldOf liveRoleServer adminRole) !! 0
  = Some (adminWrapper liveRoleServer)
  /\ api.Get liveRoleServer (env (worldOf liveRoleServer adminRole)) "admin"
     = (adminRoleLive, None)
  /\ claimLost true []
       (api.record getAdmin (env (worldOf liveRoleServer adminRole)))
       adminRoleLive
     = (true, Some (notFound None "label"))
  /\ errors.IsNotFound (Some (notFound None "label")) = true
  /\ exists ret w',
       ClusterRole.Apply okEncoder 0
         (probed (worldOf liveRoleServer adminRole)
            (adminWrapper liveRoleServer) adminRoleLive)
       = Some (ret, w')
       /\ ClusterRole.Ensure okEncoder (claimLost true) 0 []
            (worldOf liveRoleServer adminRole)
          = Some (([ClusterRole.deleteCleanup 0], ret), w').
Proof.
  do 4 (split; [reflexivity|]).
  exact (proj2 (Ensure_claims_lost okEncoder (claimLost true)
                  (worldOf liveRoleServer adminRole) 0
                  (adminWrapper liveRoleServer) [] adminRoleLive true _
                  eq_refl eq_refl eq_refl eq_refl) eq_refl).
Defined.

(** The requests of [Apply] and of [Update]: at most two for [Apply], one
    for [Update], and never a delete. *)
Lemma ClusterRole_Apply_requests Encode
    (w : World rbacv1.ClusterRole.t) (d : ptr) (self : ClusterRole.t) :
  objs w !! d = Some self ->
  exists ret w' reqs,
    ClusterRole.Apply Encode d w = Some (ret, w')
    /\ api.calls (env w') = api.calls (env w) ++ reqs
    /\ length reqs <= 2
    /\ Forall (fun c => isDelete c = false) reqs.
Proof.
  intros Hd. unfold ClusterRole.Apply. branches;
    (eexists _, _, _; split; [reflexivity|]; split;
     [ cbn; rewrite <- ?app_assoc;
       first [ reflexivity | symmetry; apply app_nil_r ]
     | cbn; split; [lia | repeat constructor] ]).
Qed.

Lemma ClusterRole_Update_requests
    (w : World rbacv1.ClusterRole.t) (d : ptr) (self : ClusterRole.t) :
  objs w !! d = Some self ->
  exists ret w',
    ClusterRole.Update d w = Some (ret, w')
    /\ api.calls (env w')
       = api.calls (env w) ++ [api.CallUpdate (body self) JujuFieldManager].
Proof.
  intros Hd. unfold ClusterRole.Update. branches;
    (eexists _, _; split; reflexivity).
Qed.

(** X4. [Ensure] returns on every receiver that exists, with at most one
    cleanup.  When it returns an error, the receiver holds what it held,
    and no body that a pointer refers to and no map has changed: the probe
    works on a copy. *)
Theorem Ensure_failure_keeps_receiver
    (Encode : Encoder) (RunClaims : list ClusterRole.Claim -> ClusterRole.Claim)
    (w : World rbacv1.ClusterRole.t) (r : ptr) (self : ClusterRole.t)
    (claims : list ClusterRole.Claim) :
  objs w !! r = Some self ->
  exists cleanups ret w',
    ClusterRole.Ensure Encode RunClaims r claims w
    = Some ((cleanups, ret), w')
    /\ length cleanups <= 1
    /\ (ret <> None ->
        objs w' !! r = Some self
        /\ bodies w' = bodies w
        /\ api.maps (env w') = api.maps (env w)).
Proof.
  intros Hr.
  destruct (api.Get (client self) (env w) (ClusterRole.Name self))
    as [res err] eqn:Hget.
  rewrite (Ensure_unfold Encode RunClaims w r self claims res err Hr Hget).
  set (b := match err with None => res | Some _ => body self end).
  pose proof (probed_receiver w self b r Hr) as Hrr.
  destruct (_ && _).
  { eexists _, _, _. split; [reflexivity|]. cbn. auto. }
  destruct (negb _).
  { eexists _, _, _. split; [reflexivity|]. cbn. auto. }
  destruct (errors.IsNotFound _).
  - destruct (ClusterRole_Apply_keeps Encode (probed w self b) r self Hrr)
      as (ret & w' & -> & Hkeep).
    eexists _, _, _. split; [reflexivity|]. split; [cbn; lia|].
    intros Hret. destruct (Hkeep Hret) as (Ho & Hb & Hm).
    rewrite Ho, Hb, Hm. auto.
  - destruct (ClusterRole_Update_keeps (probed w self b) r self Hrr)
      as (ret & w' & -> & Hkeep).
    eexists _, _, _. split; [reflexivity|]. split; [cbn; lia|].
    intros Hret. destruct (Hkeep Hret) as (Ho & Hb & Hm).
    rewrite Ho, Hb, Hm. auto.
Qed.

Lemma Ensure_failure_keeps_receiver_witness :
  objs (worldOf busyRoleServer adminRole) !! 0
  = Some (adminWrapper busyRoleServer)
  /\ exists cleanups ret w',
       ClusterRole.Ensure okEncoder allowAll 0 []
         (worldOf busyRoleServer adminRole)
       = Some ((cleanups, ret), w')
       /\ length cleanups <= 1
       /\ (ret <> None ->
           objs w' !! 0 = Some (adminWrapper busyRoleServer)
           /\ bodies w' = bodies (worldOf busyRoleServer adminRole)
           /\ api.maps (env w')
              = api.maps (env (worldOf busyRoleServer adminRole))).
Proof.
  split; [reflexivity|].
  exact (Ensure_failure_keeps_receiver okEncoder allowAll
           (worldOf busyRoleServer adminRole) 0
           (adminWrapper busyRoleServer) [] eq_refl).
Defined.

(** X5. The requests of [Ensure]: a get by the name of the receiver comes
    first, at most two requests follow, and none of them is a delete.  A
    delete is issued only when the caller runs the cleanup. *)
Theorem Ensure_requests
    (Encode : Encoder) (RunClaims : list ClusterRole.Claim -> ClusterRole.Claim)
    (w : World rbacv1.ClusterRole.t) (r : ptr) (self : ClusterRole.t)
    (claims : list ClusterRole.Claim) :
  objs w !! r = Some self ->
  exists out w' rest,
    ClusterRole.Ensure Encode RunClaims r claims w = Some (out, w')
    /\ api.calls (env w')
       = api.calls (env w) ++ api.CallGet (ClusterRole.Name self) :: rest
    /\ length rest <= 2
    /\ Forall (fun c => isDelete c = false) rest.
Proof.
  intros Hr.
  destruct (api.Get (client self) (env w) (ClusterRole.Name self))
    as [res err] eqn:Hget.
  rewrite (Ensure_unfold Encode RunClaims w r self claims res err Hr Hget).
  set (b := match err with None => res | Some _ => body self end).
  pose proof (probed_receiver w self b r Hr) as Hrr.
  destruct (_ && _).
  { eexists _, _, []. split; [reflexivity|]. cbn. auto. }
  destruct (negb _).
  { eexists _, _, []. split; [reflexivity|]. cbn. auto. }
  destruct (errors.IsNotFound _).
  - destruct (ClusterRole_Apply_requests Encode (probed w self b) r self Hrr)
      as (ret & w' & reqs & -> & Hcalls & Hlen & Hnd).
    eexists _, _, reqs. split; [reflexivity|].
    rewrite Hcalls, probed_calls, <- app_assoc. auto.
  - destruct (ClusterRole_Update_requests (probed w self b) r self Hrr)
      as (ret & w' & -> & Hcalls).
    eexists _, _, _. split; [reflexivity|].
    rewrite Hcalls, probed_calls, <- app_assoc.
    split; [reflexivity|]. cbn. split; [lia | repeat constructor].
Qed.

Lemma Ensure_requests_witness :
  objs (worldOf emptyRoleServer adminRole) !! 0
  = Some (adminWrapper emptyRoleServer)
  /\ exists out w' rest,
       ClusterRole.Ensure okEncoder allowAll 0 []
         (worldOf emptyRoleServer adminRole) = Some (out, w')
       /\ api.calls (env w')
          = api.calls (env (worldOf emptyRoleServer adminRole))
            ++ getAdmin :: rest
       /\ length rest <= 2
       /\ Forall (fun c => isDelete c = false) rest.
Proof.
  split; [reflexivity|].
  exact (Ensure_requests okEncoder allowAll
           (worldOf emptyRoleServer adminRole) 0
           (adminWrapper emptyRoleServer) [] eq_refl).
Defined.

(** X6. The cleanup holds the receiver, not a name.  After an [Ensure] that
    updated the role, or created it, the receiver holds the answer of the
    server, and running the cleanup then deletes by the name in that
    answer. *)
Theorem Ensure_cleanup_uses_answer
    (Encode : Encoder) (RunClaims : list ClusterRole.Claim -> ClusterRole.Claim)
    (w : World rbacv1.ClusterRole.t) (r : ptr) (self : ClusterRole.t)
    (claims : list ClusterRole.Claim) (res : rbacv1.ClusterRole.t) :
  objs w !! r = Some self ->
  (forall out,
     api.Get (client self) (env w) (ClusterRole.Name self) = (res, None) ->
     RunClaims claims
       (api.record (api.CallGet (ClusterRole.Name self)) (env w)) res
     = (true, None) ->
     api.Update (client self) (env (probed w self res)) (body self)
       JujuFieldManager = (out, None) ->
     exists w',
       ClusterRole.Ensure Encode RunClaims r claims w
       = Some (([ClusterRole.deleteCleanup r], None), w')
       /\ objs w' !! r = Some {| client := client self; body := out |}
       /\ ClusterRole.deleteCleanup r w'
          = Some (tt, after (api.CallDelete
                               (metav1.Name (rbacv1.ClusterRole.ObjectMeta out))
                               DefaultPropagationPolicy) w'))
  /\ (forall gerr data perr pres created,
        api.Get (client self) (env w) (ClusterRole.Name self) = (res, gerr) ->
        k8serrors.IsNotFound gerr = true ->
        Encode (env (probed w self (body self))) (body self) = (data, None) ->
        api.Patch (client self) (env (probed w self (body self)))
          (ClusterRole.Name self) StrategicMergePatchType data
          JujuFieldManager = (pres, perr) ->
        k8serrors.IsNotFound perr = true ->
        api.Create (client self)
          (env (after (api.CallPatch (ClusterRole.Name self)
                         StrategicMergePatchType data JujuFieldManager)
                  (probed w self (body self))))
          (body self) JujuFieldManager = (created, None) ->
        exists w',
          ClusterRole.Ensure Encode RunClaims r claims w
          = Some (([ClusterRole.deleteCleanup r], None), w')
          /\ objs w' !! r = Some {| client := client self; body := created |}
          /\ ClusterRole.deleteCleanup r w'
             = Some (tt, after (api.CallDelete
                                  (metav1.Name
                                     (rbacv1.ClusterRole.ObjectMeta created))
                                  DefaultPropagationPolicy) w')).
Proof.
  intros Hr. pose proof (lookup_lt_Some _ _ _ Hr) as Hlt. split.
  - intros out Hget Hclaims Hupd.
    pose proof (probed_receiver w self res r Hr) as Hrr.
    rewrite (Ensure_unfold Encode RunClaims w r self claims res None Hr Hget).
    rewrite IsNotFound_nil. cbn [errors.Trace].
    change (env (probed w self res))
      with (api.record (api.CallGet (ClusterRole.Name self)) (env w))
      in Hupd |- *.
    rewrite Hclaims. cbn [fst snd andb negb errors.IsNotFound].
    rewrite (proj2 (proj2 (ClusterRole_Update_ok (probed w self res) r self
                             out None Hrr Hupd)) eq_refl).
    eexists. split; [reflexivity|].
    assert (Hnew : objs (refreshed (api.CallUpdate (body self) JujuFieldManager)
                           r self out (probed w self res)) !! r
                   = Some {| client := client self; body := out |}).
    { cbn. apply list_lookup_insert_eq. rewrite length_app. lia. }
    split; [exact Hnew|].
    now rewrite (deleteCleanup_run r _ _ Hnew).
  - intros gerr data perr pres created Hget Hgnf Henc Hpatch Hpnf Hcreate.
    pose proof (probed_receiver w self (body self) r Hr) as Hrr.
    rewrite (Ensure_unfold Encode RunClaims w r self claims res gerr Hr Hget).
    rewrite Hgnf.
    assert (Hb : match gerr with None => res | Some _ => body self end
                 = body self).
    { destruct gerr; [reflexivity | discriminate]. }
    rewrite Hb. cbn [fst snd andb negb errors.IsNotFound errors.Cause].
    destruct (proj2 (ClusterRole_Apply_ok Encode (probed w self (body self))
                       r self data pres perr Hrr Henc Hpatch)
                Hpnf created None Hcreate)
      as (ret & w' & Happly & _ & Hret & Hobjs).
    rewrite Happly.
    assert (ret = None) as -> by now apply Hret.
    exists w'. split; [reflexivity|].
    assert (Hnew : objs w' !! r
                   = Some {| client := client self; body := created |}).
    { rewrite (Hobjs eq_refl). apply list_lookup_insert_eq.
      cbn. rewrite length_app. lia. }
    split; [exact Hnew|].
    now rewrite (deleteCleanup_run r _ _ Hnew).
Qed.

Lemma Ensure_cleanup_uses_answer_witness :
  objs (worldOf renamingRoleServer adminRole) !! 0
  = Some (adminWrapper renamingRoleServer)
  /\ api.Get renamingRoleServer (env (worldOf renamingRoleServer adminRole))
       "admin"
     = (renamedRoleLive, None)
  /\ allowAll []
       (api.record getAdmin (env (worldOf renamingRoleServer adminRole)))
       renamedRoleLive
     = (true, None)
  /\ api.Update renamingRoleServer
       (env (probed (worldOf renamingRoleServer adminRole)
               (adminWrapper renamingRoleServer) renamedRoleLive))
       adminRole JujuFieldManager
     = (renamedRoleLive, None)
  /\ exists w',
       ClusterRole.Ensure okEncoder allowAll 0 []
         (worldOf renamingRoleServer adminRole)
       = Some (([ClusterRole.deleteCleanup 0], None), w')
       /\ objs w' !! 0
          = Some {| client := renamingRoleServer; body := renamedRoleLive |}
       /\ ClusterRole.deleteCleanup 0 w'
          = Some (tt, after (api.CallDelete "admin-v2"
                               DefaultPropagationPolicy) w').
Proof.
  do 4 (split; [reflexivity|]).
  exact (proj1 (Ensure_cleanup_uses_answer okEncoder allowAll
                  (worldOf renamingRoleServer adminRole) 0
                  (adminWrapper renamingRoleServer) [] renamedRoleLive
                  eq_refl)
           renamedRoleLive eq_refl eq_refl eq_refl).
Defined.

(** ** Listing, request by request *)

(** One round of the inner loop, with what it leaves in memory: new cells
    only. *)
Ltac range_frame_step New_some IH :=
  unfold bind, newBody; cbn [env bodies objs];
  erewrite New_some by apply lookup_snoc_new;
  unfold load; cbn [env bodies objs];
  rewrite lookup_snoc_new, insert_snoc;
  let w' := fresh "w'" in
  let Hrun := fresh "Hrun" in
  let Henv := fresh "Henv" in
  let os := fresh "os" in
  let bs := fresh "bs" in
  let Ho := fresh "Ho" in
  let Hb := fresh "Hb" in
  match goal with
  | |- exists _, ?f ?acc ?w1 = _ /\ _ =>
      destruct (IH acc w1)
        as (w' & Hrun & Henv & (os & Ho) & (bs & Hb))
  end;
  exists w'; split; [ rewrite Hrun, <- app_assoc; reflexivity |];
  split; [ exact Henv |];
  cbn [env bodies objs] in Ho, Hb;
  split; [ eexists; rewrite Ho, <- app_assoc; reflexivity
         | eexists; rewrite Hb, <- app_assoc; reflexivity ].

Lemma rangeDeployments_frame c namespace resItems :
  forall items (w : World appsv1.Deployment.t),
  exists w',
    rangeDeployments c namespace resItems items w
    = Some (items
            ++ map (fun item =>
                      {| client := c;
                         body := appsv1.Deployment.SetNamespace namespace
                                   (appsv1.Deployment.SetName
                                      (metav1.Name
                                         (appsv1.Deployment.ObjectMeta item))
                                      item) |}) resItems, w')
    /\ env w' = env w
    /\ (exists os, objs w' = objs w ++ os)
    /\ (exists bs, bodies w' = bodies w ++ bs).
Proof.
  induction resItems as [|item rest IH]; intros items w.
  - exists w. cbn. rewrite app_nil_r.
    repeat split; exists []; now rewrite app_nil_r.
  - cbn [rangeDeployments map].
    range_frame_step NewDeployment_some IH.
Qed.

Lemma rangeDaemonSets_frame c namespace resItems :
  forall items (w : World appsv1.DaemonSet.t),
  exists w',
    rangeDaemonSets c namespace resItems items w
    = Some (items
            ++ map (fun item =>
                      {| client := c;
                         body := appsv1.DaemonSet.SetNamespace namespace
                                   (appsv1.DaemonSet.SetName
                                      (metav1.Name
                                         (appsv1.DaemonSet.ObjectMeta item))
                                      item) |}) resItems, w')
    /\ env w' = env w
    /\ (exists os, objs w' = objs w ++ os)
    /\ (exists bs, bodies w' = bodies w ++ bs).
Proof.
  induction resItems as [|item rest IH]; intros items w.
  - exists w. cbn. rewrite app_nil_r.
    repeat split; exists []; now rewrite app_nil_r.
  - cbn [rangeDaemonSets map].
    range_frame_step NewDaemonSet_some IH.
Qed.

Lemma rangeClusterRoles_frame c resItems :
  forall items (w : World rbacv1.ClusterRole.t),
  exists w',
    rangeClusterRoles c resItems items w
    = Some (items
            ++ map (fun item =>
                      {| client := c;
                         body := rbacv1.ClusterRole.SetName
                                   (metav1.Name
                                      (rbacv1.ClusterRole.ObjectMeta item))
                                   item |}) resItems, w')
    /\ env w' = env w
    /\ (exists os, objs w' = objs w ++ os)
    /\ (exists bs, bodies w' = bodies w ++ bs).
Proof.
  induction resItems as [|item rest IH]; intros items w.
  - exists w. cbn. rewrite app_nil_r.
    repeat split; exists []; now rewrite app_nil_r.
  - cbn [rangeClusterRoles map].
    range_frame_step NewClusterRole_some IH.
Qed.

(** The outer loop again, now with the requests it issues and the memory
    it leaves. *)
Section LoopTrace.
Context {B : Type}.
Variable c : api.Interface B.
Variable wrap : B -> Resource B.
Variable range : list B -> list (Resource B) -> M B (list (Resource B)).
Variable loop :
  nat -> metav1.ListOptions -> list (Resource B)
  -> M B (option (list (Resource B) * option error)).

Hypothesis range_frame :
  forall resItems items (w : World B),
  exists w',
    range resItems items w = Some (items ++ map wrap resItems, w')
    /\ env w' = env w
    /\ (exists os, objs w' = objs w ++ os)
    /\ (exists bs, bodies w' = bodies w ++ bs).

Hypothesis loop_stop :
  forall opts items, loop 0 opts items = ret None.

Hypothesis loop_round :
  forall fuel opts items,
    loop (S fuel) opts items
    = (r <- client.List c opts ;;
       let '(res, err) := r in
       match err with
       | Some _ => ret (Some ([], errors.Trace err))
       | None =>
           items <- range (api.Items res) items ;;
           if String.eqb (api.Continue res) ""
           then ret (Some (items, None))
           else loop fuel (metav1.SetContinue (api.Continue res) opts) items
       end).

Lemma Leaves_step (w w1 w' : World B) opts token reqs :
  token <> "" ->
  env w1 = api.record (api.CallList opts) (env w) ->
  (exists os, objs w1 = objs w ++ os) ->
  (exists bs, bodies w1 = bodies w ++ bs) ->
  Leaves w1 w' (metav1.SetContinue token opts) reqs ->
  Leaves w w' opts (api.CallList (metav1.SetContinue token opts) :: reqs).
Proof.
  intros Htok Henv (os & Ho) (bs & Hb) (Hcalls & Hall & Hmaps & (os' & Ho')
                                         & (bs' & Hb')).
  repeat split.
  - rewrite Hcalls, Henv. cbn. now rewrite <- app_assoc.
  - constructor.
    + eexists. repeat split. exact Htok.
    + eapply Forall_impl; [exact Hall|].
      intros q (o & -> & Hsel & Hcont). exists o. repeat split; assumption.
  - rewrite Hmaps, Henv. reflexivity.
  - exists (os ++ os'). now rewrite Ho', Ho, app_assoc.
  - exists (bs ++ bs'). now rewrite Hb', Hb, app_assoc.
Qed.

Lemma loop_serves_trace e opts pages :
  Serves c e opts pages ->
  forall fuel items (w : World B),
    env w = e ->
    length pages <= fuel ->
    exists w' reqs,
      loop fuel opts items w
      = Some (Some (items ++ map wrap (concat pages), None), w')
      /\ S (length reqs) = length pages
      /\ Leaves w w' opts reqs.
Proof.
  induction 1 as [e opts its Hlist | e opts its token pages Hlist Htok _ IH];
    intros fuel items w He Hfuel;
    (destruct fuel as [|fuel]; [cbn in Hfuel; lia|]);
    rewrite loop_round; unfold bind, client.List, request;
    cbn [env after]; rewrite He, Hlist; cbn [api.Items api.Continue];
    destruct (range_frame its items (after (api.CallList opts) w))
      as (w1 & -> & Henv & Hos & Hbs).
  - exists w1, []. cbn. rewrite app_nil_r. repeat split; try assumption.
    + rewrite Henv. reflexivity.
    + constructor.
    + rewrite Henv. reflexivity.
  - apply String.eqb_neq in Htok. rewrite Htok.
    destruct (IH fuel (items ++ map wrap its) w1)
      as (w' & reqs & -> & Hlen & Hleaves).
    + rewrite Henv. cbn. now rewrite He.
    + cbn in Hfuel. lia.
    + exists w', (api.CallList (metav1.SetContinue token opts) :: reqs).
      split; [cbn [concat]; now rewrite map_app, app_assoc|].
      split; [cbn; lia|].
      apply String.eqb_neq in Htok.
      eapply Leaves_step; eauto.
Qed.

Lemma loop_fails_trace e opts n err :
  FailsAt c e opts n err ->
  forall fuel items (w : World B),
    env w = e ->
    n < fuel ->
    exists w' reqs,
      loop fuel opts items w = Some (Some ([], Some (Traced err)), w')
      /\ length reqs = n
      /\ Leaves w w' opts reqs.
Proof.
  induction 1 as [e opts res err Hlist
                 | e opts its token n err Hlist Htok _ IH];
    intros fuel items w He Hfuel;
    (destruct fuel as [|fuel]; [lia|]);
    rewrite loop_round; unfold bind, client.List, request;
    cbn [env after]; rewrite He, Hlist; cbn [api.Items api.Continue].
  - eexists _, []. split; [reflexivity|]. split; [reflexivity|].
    repeat split; cbn; try constructor; exists []; now rewrite app_nil_r.
  - destruct (range_frame its items (after (api.CallList opts) w))
      as (w1 & -> & Henv & Hos & Hbs).
    apply String.eqb_neq in Htok. rewrite Htok.
    destruct (IH fuel (items ++ map wrap its) w1)
      as (w' & reqs & -> & Hlen & Hleaves).
    + rewrite Henv. cbn. now rewrite He.
    + lia.
    + exists w', (api.CallList (metav1.SetContinue token opts) :: reqs).
      split; [reflexivity|]. split; [cbn; lia|].
      apply String.eqb_neq in Htok.
      eapply Leaves_step; eauto.
Qed.

(** A server that never sends the empty token keeps the loop going for as
    many rounds as it is given. *)
Lemma loop_endless :
  (forall e o, exists res,
      api.List c e o = (res, None) /\ api.Continue res <> "") ->
  forall fuel opts items (w : World B),
  exists w',
    loop fuel opts items w = Some (None, w')
    /\ length (api.calls (env w')) = length (api.calls (env w)) + fuel.
Proof.
  intros Hmore. induction fuel as [|fuel IH]; intros opts items w.
  - rewrite loop_stop. exists w. split; [reflexivity | lia].
  - rewrite loop_round. unfold bind, client.List, request. cbn [env after].
    destruct (Hmore (env w) opts) as (res & -> & Htok).
    destruct (range_frame (api.Items res) items (after (api.CallList opts) w))
      as (w1 & -> & Henv & _).
    apply String.eqb_neq in Htok. rewrite Htok.
    destruct (IH (metav1.SetContinue (api.Continue res) opts)
                (items ++ map wrap (api.Items res)) w1) as (w' & -> & Hlen).
    exists w'. split; [reflexivity|].
    rewrite Hlen, Henv. cbn. rewrite length_app. cbn. lia.
Qed.

(** Whatever the server answers, a run of the loop returns, issues list
    requests only, one per round at most, and leaves every cell that was
    there as it was. *)
Lemma loop_frame :
  forall fuel opts items (w : World B),
  exists out w' reqs,
    loop fuel opts items w = Some (out, w')
    /\ api.calls (env w') = api.calls (env w) ++ reqs
    /\ length reqs <= fuel
    /\ Forall (fun q => exists o, q = api.CallList o) reqs
    /\ api.maps (env w') = api.maps (env w)
    /\ (exists os, objs w' = objs w ++ os)
    /\ (exists bs, bodies w' = bodies w ++ bs).
Proof.
  induction fuel as [|fuel IH]; intros opts items w.
  - rewrite loop_stop. exists None, w, []. cbn.
    rewrite !app_nil_r. repeat split; try constructor;
      exists []; now rewrite app_nil_r.
  - rewrite loop_round. unfold bind, client.List, request. cbn [env after].
    destruct (api.List c (env w) opts) as [res [e|]].
    { eexists _, _, [api.CallList opts]. split; [reflexivity|]. cbn.
      repeat split; try lia; eauto; exists []; now rewrite app_nil_r. }
    destruct (range_frame (api.Items res) items (after (api.CallList opts) w))
      as (w1 & -> & Henv & (os & Ho) & (bs & Hb)).
    destruct (String.eqb (api.Continue res) "").
    { eexists _, _, [api.CallList opts]. split; [reflexivity|].
      rewrite Henv. cbn.
      repeat split; try lia; eauto. }
    destruct (IH (metav1.SetContinue (api.Continue res) opts)
                (items ++ map wrap (api.Items res)) w1)
      as (out & w' & reqs & -> & Hcalls & Hlen & Hall & Hmaps
          & (os' & Ho') & (bs' & Hb')).
    exists out, w', (api.CallList opts :: reqs). split; [reflexivity|].
    rewrite Hcalls, Hmaps, Henv. cbn. rewrite <- app_assoc.
    repeat split; try lia; eauto.
    + exists (os ++ os'). rewrite Ho', Ho. cbn. now rewrite app_assoc.
    + exists (bs ++ bs'). rewrite Hb', Hb. cbn. now rewrite app_assoc.
Qed.

End LoopTrace.

(** X7. The requests of the three listers: one list request per page
    served, the first with the caller's options, the others with the
    caller's selector and a continuation token, and no request of another
    kind; a failing request is the last one. *)
Theorem listers_requests :
  (forall c namespace,
     ListRequests c (fun fuel => ListDeployments fuel c namespace))
  /\ (forall c namespace,
        ListRequests c (fun fuel => ListDaemonSets fuel c namespace))
  /\ (forall c, ListRequests c (fun fuel => ListClusterRoles fuel c)).
Proof.
  split; [| split ]; intros; split; intros.
  - destruct (loop_serves_trace c _ (rangeDeployments c namespace)
                (fun fuel => loopDeployments fuel c namespace)
                (rangeDeployments_frame c namespace)
                (fun _ _ _ => eq_refl) _ _ _ H fuel [] w eq_refl H0)
      as (w' & reqs & Hrun & Hlen & Hcalls & Hall & _).
    eauto 8.
  - destruct (loop_fails_trace c _ (rangeDeployments c namespace)
                (fun fuel => loopDeployments fuel c namespace)
                (rangeDeployments_frame c namespace)
                (fun _ _ _ => eq_refl) _ _ _ _ H fuel [] w eq_refl H0)
      as (w' & reqs & Hrun & Hlen & Hcalls & Hall & _).
    eauto 8.
  - destruct (loop_serves_trace c _ (rangeDaemonSets c namespace)
                (fun fuel => loopDaemonSets fuel c namespace)
                (rangeDaemonSets_frame c namespace)
                (fun _ _ _ => eq_refl) _ _ _ H fuel [] w eq_refl H0)
      as (w' & reqs & Hrun & Hlen & Hcalls & Hall & _).
    eauto 8.
  - destruct (loop_fails_trace c _ (rangeDaemonSets c namespace)
                (fun fuel => loopDaemonSets fuel c namespace)
                (rangeDaemonSets_frame c namespace)
                (fun _ _ _ => eq_refl) _ _ _ _ H fuel [] w eq_refl H0)
      as (w' & reqs & Hrun & Hlen & Hcalls & Hall & _).
    eauto 8.
  - destruct (loop_serves_trace c _ (rangeClusterRoles c)
                (fun fuel => loopClusterRoles fuel c)
                (rangeClusterRoles_frame c)
                (fun _ _ _ => eq_refl) _ _ _ H fuel [] w eq_refl H0)
      as (w' & reqs & Hrun & Hlen & Hcalls & Hall & _).
    eauto 8.
  - destruct (loop_fails_trace c _ (rangeClusterRoles c)
                (fun fuel => loopClusterRoles fuel c)
                (rangeClusterRoles_frame c)
                (fun _ _ _ => eq_refl) _ _ _ _ H fuel [] w eq_refl H0)
      as (w' & reqs & Hrun & Hlen & Hcalls & Hall & _).
    eauto 8.
Qed.

(** X8. Whatever the server answers, the three listers return, issue list
    requests only, and leave every map, wrapper and body that existed as
    it was. *)
Theorem listers_frame :
  (forall c namespace,
     ListFrame (fun fuel => ListDeployments fuel c namespace))
  /\ (forall c namespace,
        ListFrame (fun fuel => ListDaemonSets fuel c namespace))
  /\ (forall c, ListFrame (fun fuel => ListClusterRoles fuel c)).
Proof.
  split; [| split ]; intros; intros fuel opts w.
  - exact (loop_frame c _ (rangeDeployments c namespace)
             (fun fuel => loopDeployments fuel c namespace)
             (rangeDeployments_frame c namespace)
             (fun _ _ => eq_refl) (fun _ _ _ => eq_refl) fuel opts [] w).
  - exact (loop_frame c _ (rangeDaemonSets c namespace)
             (fun fuel => loopDaemonSets fuel c namespace)
             (rangeDaemonSets_frame c namespace)
             (fun _ _ => eq_refl) (fun _ _ _ => eq_refl) fuel opts [] w).
  - exact (loop_frame c _ (rangeClusterRoles c)
             (fun fuel => loopClusterRoles fuel c)
             (rangeClusterRoles_frame c)
             (fun _ _ => eq_refl) (fun _ _ _ => eq_refl) fuel opts [] w).
Qed.

(** X9. The listers have no bound on the number of pages: against a server
    that hands out a continuation token with every page, each of them uses
    up all the rounds it is given and has no result. *)
Theorem listers_endless :
  (forall c namespace,
     ListEndless c (fun fuel => ListDeployments fuel c namespace))
  /\ (forall c namespace,
        ListEndless c (fun fuel => ListDaemonSets fuel c namespace))
  /\ (forall c, ListEndless c (fun fuel => ListClusterRoles fuel c)).
Proof.
  split; [| split ]; intros; intros Hmore fuel opts w.
  - exact (loop_endless c _ (rangeDeployments c namespace)
             (fun fuel => loopDeployments fuel c namespace)
             (rangeDeployments_frame c namespace)
             (fun _ _ => eq_refl) (fun _ _ _ => eq_refl) Hmore fuel opts [] w).
  - exact (loop_endless c _ (rangeDaemonSets c namespace)
             (fun fuel => loopDaemonSets fuel c namespace)
             (rangeDaemonSets_frame c namespace)
             (fun _ _ => eq_refl) (fun _ _ _ => eq_refl) Hmore fuel opts [] w).
  - exact (loop_endless c _ (rangeClusterRoles c)
             (fun fuel => loopClusterRoles fuel c)
             (rangeClusterRoles_frame c)
             (fun _ _ => eq_refl) (fun _ _ _ => eq_refl) Hmore fuel opts [] w).
Qed.

Lemma rolePages_serves :
  Serves rolePages (env emptyWorld) selected
    [ [rolePage "a"; rolePage "b"]; [rolePage "c"; rolePage "d"];
      [rolePage "e"] ].
Proof.
  eapply Serves_more; [reflexivity | discriminate |].
  eapply Serves_more; [reflexivity | discriminate |].
  apply Serves_last. reflexivity.
Defined.

Lemma rolesThenFail_fails :
  FailsAt rolesThenFail (env emptyWorld) selected 1
    (StatusError StatusReasonTimeout 504 "timeout").
Proof.
  eapply FailsAt_later; [reflexivity | discriminate |].
  eapply FailsAt_here. reflexivity.
Defined.

Lemma listers_requests_witness :
  (Serves rolePages (env emptyWorld) selected
     [ [rolePage "a"; rolePage "b"]; [rolePage "c"; rolePage "d"];
       [rolePage "e"] ]
   /\ 3 <= 5
   /\ exists out w' reqs,
        ListClusterRoles 5 rolePages selected emptyWorld = Some (out, w')
        /\ api.calls (env w')
           = api.calls (env (@emptyWorld rbacv1.ClusterRole.t))
             ++ api.CallList selected :: reqs
        /\ S (length reqs) = 3
        /\ Forall (followsUp selected) reqs)
  /\ (FailsAt rolesThenFail (env emptyWorld) selected 1
        (StatusError StatusReasonTimeout 504 "timeout")
      /\ 1 < 5
      /\ exists out w' reqs,
           ListClusterRoles 5 rolesThenFail selected emptyWorld
           = Some (out, w')
           /\ api.calls (env w')
              = api.calls (env (@emptyWorld rbacv1.ClusterRole.t))
                ++ api.CallList selected :: reqs
           /\ length reqs = 1
           /\ Forall (followsUp selected) reqs).
Proof.
  destruct listers_requests as (_ & _ & HR).
  split.
  - split; [exact rolePages_serves|]. split; [lia|].
    exact (proj1 (HR rolePages) emptyWorld selected _ 5
             rolePages_serves ltac:(cbn; lia)).
  - split; [exact rolesThenFail_fails|]. split; [lia|].
    exact (proj2 (HR rolesThenFail) emptyWorld selected 1 _ 5
             rolesThenFail_fails ltac:(lia)).
Defined.

Lemma listers_endless_witness :
  (forall e o, exists res,
      api.List (endlessServer (rolePage "a")) e o = (res, None)
      /\ api.Continue res <> "")
  /\ exists w',
       ListClusterRoles 4 (endlessServer (rolePage "a")) selected emptyWorld
       = Some (None, w')
       /\ length (api.calls (env w'))
          = length (api.calls (env (@emptyWorld rbacv1.ClusterRole.t))) + 4.
Proof.
  assert (Hmore : forall (e : api.Env rbacv1.ClusterRole.t) o, exists res,
             api.List (endlessServer (rolePage "a")) e o = (res, None)
             /\ api.Continue res <> "").
  { intros e o. eexists. split; [reflexivity | discriminate]. }
  split; [exact Hmore|].
  destruct listers_endless as (_ & _ & HR).
  exact (HR (endlessServer (rolePage "a")) Hmore 4 selected emptyWorld).
Defined.

(** ** Listing, object by object *)

Lemma map_body_wrap {B : Type} (c : api.Interface B) (stamp : B -> B)
    (l : list B) :
  map body (map (fun item => {| client := c; body := stamp item |}) l)
  = map stamp l
  /\ Forall (fun r => client r = c)
       (map (fun item => {| client := c; body := stamp item |}) l).
Proof.
  split.
  - rewrite map_map. reflexivity.
  - induction l; constructor; auto.
Qed.

(** X10. What the listers make of the objects served.  Every object served
    comes back, in the order served, wrapped with the client handle of the
    lister.  [ListClusterRoles] returns each object as served; the two
    others overwrite its namespace with their argument and change nothing
    else, so an object already in that namespace comes back as served. *)
Theorem listers_return_what_is_served :
  (forall c namespace,
     ListsAsServed c (fun fuel => ListDeployments fuel c namespace)
       (appsv1.Deployment.SetNamespace namespace))
  /\ (forall c namespace,
        ListsAsServed c (fun fuel => ListDaemonSets fuel c namespace)
          (appsv1.DaemonSet.SetNamespace namespace))
  /\ (forall c,
        ListsAsServed c (fun fuel => ListClusterRoles fuel c) (fun item => item))
  /\ (forall item : appsv1.Deployment.t,
        appsv1.Deployment.SetNamespace
          (metav1.Namespace (appsv1.Deployment.ObjectMeta item)) item = item)
  /\ (forall item : appsv1.DaemonSet.t,
        appsv1.DaemonSet.SetNamespace
          (metav1.Namespace (appsv1.DaemonSet.ObjectMeta item)) item = item).
Proof.
  split; [| split; [| split; [| split ] ] ].
  - intros c namespace w opts pages fuel Hs Hf.
    destruct (loop_serves c _ (rangeDeployments c namespace)
                (fun fuel => loopDeployments fuel c namespace)
                (rangeDeployments_run c namespace)
                (fun _ _ _ => eq_refl) _ _ _ Hs fuel [] w eq_refl Hf)
      as (w' & Hrun).
    eexists _, w'. split; [exact Hrun|].
    rewrite (map_ext _ (fun item => {| client := c; body := (appsv1.Deployment.SetNamespace namespace) item |}));
      [apply map_body_wrap|].
    intros item. cbn. now rewrite Deployment_SetName_own.
  - intros c namespace w opts pages fuel Hs Hf.
    destruct (loop_serves c _ (rangeDaemonSets c namespace)
                (fun fuel => loopDaemonSets fuel c namespace)
                (rangeDaemonSets_run c namespace)
                (fun _ _ _ => eq_refl) _ _ _ Hs fuel [] w eq_refl Hf)
      as (w' & Hrun).
    eexists _, w'. split; [exact Hrun|].
    rewrite (map_ext _ (fun item => {| client := c; body := (appsv1.DaemonSet.SetNamespace namespace) item |}));
      [apply map_body_wrap|].
    intros item. cbn. now rewrite DaemonSet_SetName_own.
  - intros c w opts pages fuel Hs Hf.
    destruct (loop_serves c _ (rangeClusterRoles c)
                (fun fuel => loopClusterRoles fuel c)
                (rangeClusterRoles_run c)
                (fun _ _ _ => eq_refl) _ _ _ Hs fuel [] w eq_refl Hf)
      as (w' & Hrun).
    eexists _, w'. split; [exact Hrun|].
    rewrite (map_ext _ (fun item => {| client := c; body := (fun item => item) item |}));
      [apply map_body_wrap|].
    intros item. cbn. now rewrite ClusterRole_SetName_own.
  - intros [[] ? ?]. reflexivity.
  - intros [[] ? ?]. reflexivity.
Qed.

Lemma agentPages_serves :
  Serves agentPages (env emptyWorld) selected
    [ [agentPage "a"; agentPage "b"]; [agentPage "c"; agentPage "d"];
      [agentPage "e"] ].
Proof.
  eapply Serves_more; [reflexivity | discriminate |].
  eapply Serves_more; [reflexivity | discriminate |].
  apply Serves_last. reflexivity.
Defined.

Lemma listers_return_what_is_served_witness :
  Serves agentPages (env emptyWorld) selected
    [ [agentPage "a"; agentPage "b"]; [agentPage "c"; agentPage "d"];
      [agentPage "e"] ]
  /\ 3 <= 4
  /\ exists out w',
       ListDaemonSets 4 agentPages "kube-system" selected emptyWorld
       = Some (Some (out, None), w')
       /\ map body out
          = map (appsv1.DaemonSet.SetNamespace "kube-system")
              (concat [ [agentPage "a"; agentPage "b"];
                        [agentPage "c"; agentPage "d"]; [agentPage "e"] ])
       /\ Forall (fun r => client r = agentPages) out.
Proof.
  split; [exact agentPages_serves|]. split; [lia|].
  destruct listers_return_what_is_served as (_ & HS & _).
  exact (HS agentPages "kube-system" emptyWorld selected _ 4
           agentPages_serves ltac:(cbn; lia)).
Defined.

(** ** The namespace argument of the two workload listers *)

Section LoopPair.
Context {B : Type}.
Variable c : api.Interface B.
Variable wrap1 wrap2 : B -> Resource B.
Variable f : Resource B -> Resource B.
Variable range1 range2
  : list B -> list (Resource B) -> M B (list (Resource B)).
Variable loop1 loop2 :
  nat -> metav1.ListOptions -> list (Resource B)
  -> M B (option (list (Resource B) * option error)).

Hypothesis wrap_f : forall item, f (wrap1 item) = wrap2 item.

Hypothesis range1_run :
  forall resItems items (w : World B),
  exists w',
    range1 resItems items w = Some (items ++ map wrap1 resItems, w')
    /\ env w' = env w.

Hypothesis range2_run :
  forall resItems items (w : World B),
  exists w',
    range2 resItems items w = Some (items ++ map wrap2 resItems, w')
    /\ env w' = env w.

Hypothesis loop1_stop : forall opts items, loop1 0 opts items = ret None.
Hypothesis loop2_stop : forall opts items, loop2 0 opts items = ret None.

Hypothesis loop1_round :
  forall fuel opts items,
    loop1 (S fuel) opts items
    = (r <- client.List c opts ;;
       let '(res, err) := r in
       match err with
       | Some _ => ret (Some ([], errors.Trace err))
       | None =>
           items <- range1 (api.Items res) items ;;
           if String.eqb (api.Continue res) ""
           then ret (Some (items, None))
           else loop1 fuel (metav1.SetContinue (api.Continue res) opts) items
       end).

Hypothesis loop2_round :
  forall fuel opts items,
    loop2 (S fuel) opts items
    = (r <- client.List c opts ;;
       let '(res, err) := r in
       match err with
       | Some _ => ret (Some ([], errors.Trace err))
       | None =>
           items <- range2 (api.Items res) items ;;
           if String.eqb (api.Continue res) ""
           then ret (Some (items, None))
           else loop2 fuel (metav1.SetContinue (api.Continue res) opts) items
       end).

Lemma loop_pair :
  forall fuel opts items (w1 w2 : World B),
    env w1 = env w2 ->
    exists out w1' w2',
      loop1 fuel opts items w1 = Some (out, w1')
      /\ loop2 fuel opts (map f items) w2
         = Some (option_map (fun p => (map f (fst p), snd p)) out, w2')
      /\ env w1' = env w2'.
Proof.
  induction fuel as [|fuel IH]; intros opts items w1 w2 Henv.
  - rewrite loop1_stop, loop2_stop. exists None, w1, w2. auto.
  - rewrite loop1_round, loop2_round.
    unfold bind, client.List, request. cbn [env after]. rewrite <- Henv.
    destruct (api.List c (env w1) opts) as [res [e|]].
    { eexists _, _, _. split; [reflexivity|]. split; [reflexivity|].
      cbn. now rewrite Henv. }
    destruct (range1_run (api.Items res) items (after (api.CallList opts) w1))
      as (v1 & -> & Hv1).
    destruct (range2_run (api.Items res) (map f items)
                (after (api.CallList opts) w2)) as (v2 & -> & Hv2).
    assert (Hv : env v1 = env v2).
    { rewrite Hv1, Hv2. cbn. now rewrite Henv. }
    assert (Hitems : map f items ++ map wrap2 (api.Items res)
                     = map f (items ++ map wrap1 (api.Items res))).
    { rewrite map_app, map_map. f_equal. apply map_ext. intros item.
      now rewrite wrap_f. }
    rewrite Hitems.
    destruct (String.eqb (api.Continue res) "").
    { eexists _, _, _. split; [reflexivity|]. split; [reflexivity|].
      exact Hv. }
    exact (IH _ _ v1 v2 Hv).
Qed.

End LoopPair.

(** X11. The namespace argument of [ListDeployments] and of
    [ListDaemonSets] reaches no request and selects nothing: run with
    another namespace, a lister issues the same requests, returns or fails
    alike, and returns the same wrappers with the other namespace written
    on them. *)
Theorem namespace_only_relabels :
  (forall c namespace other,
     ListsAlike (fun fuel => ListDeployments fuel c namespace)
       (fun fuel => ListDeployments fuel c other)
       (inNamespaceDeployment other))
  /\ (forall c namespace other,
        ListsAlike (fun fuel => ListDaemonSets fuel c namespace)
          (fun fuel => ListDaemonSets fuel c other)
          (inNamespaceDaemonSet other)).
Proof.
  split; intros c namespace other fuel opts w.
  - exact (loop_pair c _ _ (inNamespaceDeployment other)
             (rangeDeployments c namespace) (rangeDeployments c other)
             (fun fuel => loopDeployments fuel c namespace)
             (fun fuel => loopDeployments fuel c other)
             (fun _ => eq_refl)
             (rangeDeployments_run c namespace) (rangeDeployments_run c other)
             (fun _ _ => eq_refl) (fun _ _ => eq_refl)
             (fun _ _ _ => eq_refl) (fun _ _ _ => eq_refl)
             fuel opts [] w w eq_refl).
  - exact (loop_pair c _ _ (inNamespaceDaemonSet other)
             (rangeDaemonSets c namespace) (rangeDaemonSets c other)
             (fun fuel => loopDaemonSets fuel c namespace)
             (fun fuel => loopDaemonSets fuel c other)
             (fun _ => eq_refl)
             (rangeDaemonSets_run c namespace) (rangeDaemonSets_run c other)
             (fun _ _ => eq_refl) (fun _ _ => eq_refl)
             (fun _ _ _ => eq_refl) (fun _ _ _ => eq_refl)
             fuel opts [] w w eq_refl).
Qed.

(** ** Identities *)

(** X12. Two wrappers of one kind have the same ID exactly when they have
    the same name and the same namespace, whatever their client handles and
    the rest of their bodies; wrappers of different kinds never have the
    same ID.  The namespace counts for a cluster role as well. *)
Theorem ID_identifies :
  (forall d1 d2 : Deployment.t,
     Deployment.ID d1 = Deployment.ID d2
     <-> Deployment.Name d1 = Deployment.Name d2
         /\ Deployment.Namespace d1 = Deployment.Namespace d2)
  /\ (forall ds1 ds2 : DaemonSet.t,
        DaemonSet.ID ds1 = DaemonSet.ID ds2
        <-> DaemonSet.Name ds1 = DaemonSet.Name ds2
            /\ DaemonSet.Namespace ds1 = DaemonSet.Namespace ds2)
  /\ (forall r1 r2 : ClusterRole.t,
        ClusterRole.ID r1 = ClusterRole.ID r2
        <-> ClusterRole.Name r1 = ClusterRole.Name r2
            /\ ClusterRole.Namespace r1 = ClusterRole.Namespace r2)
  /\ (forall (d : Deployment.t) (ds : DaemonSet.t) (r : ClusterRole.t),
        Deployment.ID d <> DaemonSet.ID ds
        /\ Deployment.ID d <> ClusterRole.ID r
        /\ DaemonSet.ID ds <> ClusterRole.ID r).
Proof.
  split; [| split; [| split ] ].
  - intros d1 d2. unfold Deployment.ID. split.
    + intros H. now inversion H.
    + intros [-> ->]. reflexivity.
  - intros d1 d2. unfold DaemonSet.ID. split.
    + intros H. now inversion H.
    + intros [-> ->]. reflexivity.
  - intros d1 d2. unfold ClusterRole.ID. split.
    + intros H. now inversion H.
    + intros [-> ->]. reflexivity.
  - intros d ds r. repeat split; intros H; inversion H.
Qed.

(** ** Ensure and the other wrappers *)

(** X13. [Ensure] on [r] returns whenever [r] is a wrapper, and whatever the
    server and the claims answer it leaves every other wrapper, every body
    that a pointer refers to and every map as they were. *)
Theorem Ensure_only_receiver
    (Encode : Encoder) (RunClaims : list ClusterRole.Claim -> ClusterRole.Claim)
    (w : World rbacv1.ClusterRole.t) (r d : ptr) (self x : ClusterRole.t)
    (claims : list ClusterRole.Claim) :
  objs w !! r = Some self ->
  objs w !! d = Some x ->
  r <> d ->
  exists out w',
    ClusterRole.Ensure Encode RunClaims r claims w = Some (out, w')
    /\ objs w' !! d = Some x
    /\ bodies w' = bodies w
    /\ api.maps (env w') = api.maps (env w).
Proof.
  intros Hr Hd Hne.
  destruct (api.Get (client self) (env w) (ClusterRole.Name self))
    as [res err] eqn:Hget.
  rewrite (Ensure_unfold Encode RunClaims w r self claims res err Hr Hget).
  set (b := match err with None => res | Some _ => body self end).
  pose proof (probed_receiver w self b r Hr) as Hrr.
  assert (Hdd : objs (probed w self b) !! d = Some x).
  { cbn. now apply lookup_app_l_Some. }
  destruct (_ && _).
  { eexists _, _. split; [reflexivity|]. auto. }
  destruct (negb _).
  { eexists _, _. split; [reflexivity|]. auto. }
  destruct (errors.IsNotFound _).
  - destruct (ClusterRole_Apply_frame Encode (probed w self b) r d self x
                Hrr Hdd Hne) as (ret & w' & -> & Ho & Hm & Hb).
    eexists _, _. split; [reflexivity|]. rewrite Ho, Hm, Hb. auto.
  - destruct (ClusterRole_Update_frame (probed w self b) r d self x
                Hrr Hdd Hne) as (ret & w' & -> & Ho & Hm & Hb).
    eexists _, _. split; [reflexivity|]. rewrite Ho, Hm, Hb. auto.
Qed.

Lemma Ensure_only_receiver_witness :
  objs twoRoles !! 0 = Some (adminWrapper liveRoleServer)
  /\ objs twoRoles !! 1
     = Some {| client := liveRoleServer; body := strayRole |}
  /\ 0 <> 1
  /\ exists out w',
       ClusterRole.Ensure okEncoder allowAll 0 [] twoRoles = Some (out, w')
       /\ objs w' !! 1 = Some {| client := liveRoleServer; body := strayRole |}
       /\ bodies w' = bodies twoRoles
       /\ api.maps (env w') = api.maps (env twoRoles).
Proof.
  do 2 (split; [reflexivity|]). split; [lia|].
  exact (Ensure_only_receiver okEncoder allowAll twoRoles 0 1
           (adminWrapper liveRoleServer)
           {| client := liveRoleServer; body := strayRole |} []
           eq_refl eq_refl ltac:(lia)).
Defined.

(** ** Construction from a body of the caller *)

(** X14. A wrapper holds a copy of the body it was built from.  When two
    wrappers are built one after the other from the same body of the
    caller, the first keeps the name and the namespace it was given, the
    second has its own, and the body of the caller ends with those of the
    second.  [NewClusterRole] writes no namespace: both wrappers and the
    body keep the one the body came with. *)
Theorem constructors_copy :
  (forall c1 c2 ns1 n1 ns2 n2 (w : World appsv1.Deployment.t) i b0,
     bodies w !! i = Some b0 ->
     let b1 := appsv1.Deployment.SetNamespace ns1
                 (appsv1.Deployment.SetName n1 b0) in
     let b2 := appsv1.Deployment.SetNamespace ns2
                 (appsv1.Deployment.SetName n2 b0) in
     exists w',
       (p1 <- NewDeployment c1 ns1 n1 (Some i) ;;
        p2 <- NewDeployment c2 ns2 n2 (Some i) ;;
        ret (p1, p2)) w
       = Some ((length (objs w), S (length (objs w))), w')
       /\ objs w' = objs w ++ [ {| client := c1; body := b1 |};
                                {| client := c2; body := b2 |} ]
       /\ bodies w' = <[i := b2]> (bodies w)
       /\ env w' = env w)
  /\ (forall c1 c2 ns1 n1 ns2 n2 (w : World appsv1.DaemonSet.t) i b0,
        bodies w !! i = Some b0 ->
        let b1 := appsv1.DaemonSet.SetNamespace ns1
                    (appsv1.DaemonSet.SetName n1 b0) in
        let b2 := appsv1.DaemonSet.SetNamespace ns2
                    (appsv1.DaemonSet.SetName n2 b0) in
        exists w',
          (p1 <- NewDaemonSet c1 ns1 n1 (Some i) ;;
           p2 <- NewDaemonSet c2 ns2 n2 (Some i) ;;
           ret (p1, p2)) w
          = Some ((length (objs w), S (length (objs w))), w')
          /\ objs w' = objs w ++ [ {| client := c1; body := b1 |};
                                   {| client := c2; body := b2 |} ]
          /\ bodies w' = <[i := b2]> (bodies w)
          /\ env w' = env w)
  /\ (forall c1 c2 n1 n2 (w : World rbacv1.ClusterRole.t) i b0,
        bodies w !! i = Some b0 ->
        let b1 := rbacv1.ClusterRole.SetName n1 b0 in
        let b2 := rbacv1.ClusterRole.SetName n2 b0 in
        exists w',
          (p1 <- NewClusterRole c1 n1 (Some i) ;;
           p2 <- NewClusterRole c2 n2 (Some i) ;;
           ret (p1, p2)) w
          = Some ((length (objs w), S (length (objs w))), w')
          /\ objs w' = objs w ++ [ {| client := c1; body := b1 |};
                                   {| client := c2; body := b2 |} ]
          /\ bodies w' = <[i := b2]> (bodies w)
          /\ env w' = env w
          /\ metav1.Namespace (rbacv1.ClusterRole.ObjectMeta b1)
             = metav1.Namespace (rbacv1.ClusterRole.ObjectMeta b0)
          /\ metav1.Namespace (rbacv1.ClusterRole.ObjectMeta b2)
             = metav1.Namespace (rbacv1.ClusterRole.ObjectMeta b0)).
Proof.
  split; [| split ].
  - intros c1 c2 ns1 n1 ns2 n2 w i b0 Hi b1 b2. unfold bind.
    rewrite (NewDeployment_some c1 ns1 n1 w i b0 Hi). cbn zeta.
    erewrite NewDeployment_some
      by (cbn [bodies]; apply list_lookup_insert_eq; eauto using lookup_lt_Some).
    cbn. rewrite list_insert_insert_eq, length_app, <- app_assoc. cbn.
    replace (length (objs w) + 1) with (S (length (objs w))) by lia.
    eexists. repeat split.
  - intros c1 c2 ns1 n1 ns2 n2 w i b0 Hi b1 b2. unfold bind.
    rewrite (NewDaemonSet_some c1 ns1 n1 w i b0 Hi). cbn zeta.
    erewrite NewDaemonSet_some
      by (cbn [bodies]; apply list_lookup_insert_eq; eauto using lookup_lt_Some).
    cbn. rewrite list_insert_insert_eq, length_app, <- app_assoc. cbn.
    replace (length (objs w) + 1) with (S (length (objs w))) by lia.
    eexists. repeat split.
  - intros c1 c2 n1 n2 w i b0 Hi b1 b2. unfold bind.
    rewrite (NewClusterRole_some c1 n1 w i b0 Hi). cbn zeta.
    erewrite NewClusterRole_some
      by (cbn [bodies]; apply list_lookup_insert_eq; eauto using lookup_lt_Some).
    cbn. rewrite list_insert_insert_eq, length_app, <- app_assoc. cbn.
    replace (length (objs w) + 1) with (S (length (objs w))) by lia.
    eexists. repeat split.
Qed.

Lemma constructors_copy_witness :
  bodies (worldOf liveServer webDeployment) !! 0 = Some webDeployment
  /\ exists w',
       (p1 <- NewDeployment liveServer "staging" "web-1" (Some 0) ;;
        p2 <- NewDeployment emptyServer "prod" "web-2" (Some 0) ;;
        ret (p1, p2)) (worldOf liveServer webDeployment)
       = Some ((1, 2), w')
       /\ objs w'
          = objs (worldOf liveServer webDeployment)
            ++ [ {| client := liveServer;
                    body := appsv1.Deployment.SetNamespace "staging"
                              (appsv1.Deployment.SetName "web-1"
                                 webDeployment) |};
                 {| client := emptyServer;
                    body := appsv1.Deployment.SetNamespace "prod"
                              (appsv1.Deployment.SetName "web-2"
                                 webDeployment) |} ]
       /\ bodies w'
          = <[0 := appsv1.Deployment.SetNamespace "prod"
                     (appsv1.Deployment.SetName "web-2" webDeployment)]>
              (bodies (worldOf liveServer webDeployment))
       /\ env w' = env (worldOf liveServer webDeployment).
Proof.
  split; [reflexivity|].
  destruct constructors_copy as (HD & _).
  exact (HD liveServer emptyServer "staging" "web-1" "prod" "web-2"
           (worldOf liveServer webDeployment) 0 webDeployment eq_refl).
Defined.
